(** * 1auth SDK: dialog session protocol and intent pipeline

    A shallow embedding of the client-side passkey SDK:
    - [Js]: the fragment of JavaScript values the code manipulates
      (duck-typed message payloads, truthiness, [||] defaults, JSON output);
    - [Signer]: the server-side intent signer ([createCanonicalMessage],
      [signIntent]);
    - [Dialog]: the modal dialog host ([createModalDialog], [cleanup]) and
      every [window] message listener of [OneAuthClient];
    - [Intent]: [sendIntent] and [sendBatchIntent], with each awaited
      operation (fetch, handshake, signing, close, hash wait) represented
      by its outcome;
    - [Provider]: the EIP-1193 adapter ([createOneAuthProvider]);
    - [Samples]: concrete pages, messages, intents and clients;
    - [DialogTraces], [IntentTraces]: vocabulary for runs of the dialog
      session and of the pipeline;
    - [Coercions]: [String(v)] on values read from JSON;
    - [Rpc]: the chain, status, capability and listener methods of the
      provider, and [connect], [disconnect] and [emit] with the listeners
      and the awaited client calls as code that runs on the page;
    - [Wallet]: [encodeWebAuthnSignature];
    - [Handler]: [createSignIntentHandler] on untyped request bodies;
    - [Verify]: [hashMessage], [verifyMessageHash];
    - [Redirect]: [handleRedirectCallback], [fetchSigningResult];
    - [Registry], [Swap]: the chain and token registry and [sendSwap];
    - [Scenarios]: further sample inputs;
    - [SignerProofs], [DialogProofs], [IntentProofs], [ProviderProofs],
      then [DialogTraceProofs], [IntentTraceProofs], [ProviderFacts],
      [RpcProofs], [WalletProofs], [HandlerProofs], [CaseProofs],
      [VerifyProofs], [RedirectProofs], [RegistryProofs], [SwapProofs]: the
      properties, after the definitions they are about.

    Conventions.  Strings are byte strings.  [console] diagnostics (the
    [console.log] and [console.error] lines of the client) are not part of
    the modelled state.  The model describes completed runs: an awaited
    operation appears through the value it settled with.  A promise is represented by the list of
    values handed to its [resolve] function, oldest first; the promise
    settles with the head of that list. *)

From Stdlib Require Import ZArith String Ascii List Bool Lia.
From Stdlib Require Import DecimalString HexadecimalString DecimalPos.
From stdpp Require Import gmap strings.
Import ListNotations.
Open Scope string_scope.
Set Warnings "-register-all".

(* ===================================================================== *)
(** * JavaScript values *)
(* ===================================================================== *)

Module Js.

(** Numbers are the integral doubles and [NaN]; the code under study only
    truncates, compares and prints them. *)
Inductive JsNumber :=
| NaN
| Int (z : Z).

Inductive JsVal :=
| VUndefined
| VNull
| VBool (b : bool)
| VNumber (n : JsNumber)
| VBigInt (z : Z)
| VString (s : string)
| VArray (items : list JsVal)
| VObject (fields : list (string * JsVal)).

(** [!!v] *)
Definition truthy (v : JsVal) : bool :=
  match v with
  | VUndefined | VNull => false
  | VBool b => b
  | VNumber NaN => false
  | VNumber (Int z) => negb (z =? 0)%Z
  | VBigInt z => negb (z =? 0)%Z
  | VString s => negb (s =? "")
  | VArray _ | VObject _ => true
  end.

Fixpoint assoc (k : string) (fields : list (string * JsVal)) : JsVal :=
  match fields with
  | [] => VUndefined
  | (k', v) :: rest => if k =? k' then v else assoc k rest
  end.

(** [v?.k]: property read through optional chaining; only objects carry
    the properties the code reads. *)
Definition get (v : JsVal) (k : string) : JsVal :=
  match v with
  | VObject fields => assoc k fields
  | _ => VUndefined
  end.

(** [v === "s"] *)
Definition isStr (v : JsVal) (s : string) : bool :=
  match v with
  | VString s' => s' =? s
  | _ => false
  end.

(** [a || b] *)
Definition or (a b : JsVal) : JsVal := if truthy a then a else b.

(** [a ?? b] *)
Definition nullish (a b : JsVal) : JsVal :=
  match a with
  | VUndefined | VNull => b
  | _ => a
  end.

Definition hasKey (k : string) (fields : list (string * JsVal)) : bool :=
  existsb (fun kv => fst kv =? k) fields.

(** [{...a, ...b}] on field lists: a key of [a] keeps its place and takes
    the value [b] gives it; the other keys of [b] follow. *)
Definition spread (a b : list (string * JsVal)) : list (string * JsVal) :=
  (map (fun kv => (fst kv, if hasKey (fst kv) b then assoc (fst kv) b else snd kv)) a
   ++ List.filter (fun kv => negb (hasKey (fst kv) a)) b)%list.

(** Truthiness and [||] on optional strings ([string | undefined]). *)
Definition truthyS (o : option string) : bool :=
  match o with
  | Some s => negb (s =? "")
  | None => false
  end.

Definition orS (o : option string) (d : string) : string :=
  if truthyS o then default d o else d.

(** [s.includes(sub)] *)
Definition includes (s sub : string) : bool :=
  match String.index 0 sub s with
  | Some _ => true
  | None => false
  end.

(** [s.startsWith(p)] *)
Definition startsWith (s p : string) : bool := String.prefix p s.

Definition isUpper (c : ascii) : bool :=
  ((65 <=? N_of_ascii c) && (N_of_ascii c <=? 90))%N.

Definition lowerChar (c : ascii) : ascii :=
  if isUpper c then ascii_of_N (N_of_ascii c + 32) else c.

(** [s.toLowerCase()] on the ASCII letters. *)
Fixpoint toLowerCase (s : string) : string :=
  match s with
  | EmptyString => EmptyString
  | String c rest => String (lowerChar c) (toLowerCase rest)
  end.

(** [z.toString()] *)
Definition showZ (z : Z) : string :=
  DecimalString.NilEmpty.string_of_int (Z.to_int z).

Definition showNumber (n : JsNumber) : string :=
  match n with
  | NaN => "NaN"
  | Int z => showZ z
  end.

(** ** [JSON.stringify] *)

Definition hexDigit (n : N) : ascii :=
  ascii_of_N (if (n <? 10)%N then 48 + n else 87 + n).

Definition dquote : ascii := ascii_of_N 34.
Definition backslash : ascii := ascii_of_N 92.

(** A backslash followed by the given text. *)
Definition esc (s : string) : string := String backslash s.

Definition escapeChar (c : ascii) : string :=
  let n := N_of_ascii c in
  if (n =? 34)%N then esc (String dquote EmptyString)
  else if (n =? 92)%N then esc (String backslash EmptyString)
  else if (n =? 8)%N then esc "b"
  else if (n =? 12)%N then esc "f"
  else if (n =? 10)%N then esc "n"
  else if (n =? 13)%N then esc "r"
  else if (n =? 9)%N then esc "t"
  else if (n <? 32)%N then
    esc ("u00" ++ String (hexDigit (n / 16)) (String (hexDigit (n mod 16)) EmptyString))
  else String c EmptyString.

Fixpoint escape (s : string) : string :=
  match s with
  | EmptyString => EmptyString
  | String c rest => escapeChar c ++ escape rest
  end.

Definition quote (s : string) : string :=
  String dquote (escape s ++ String dquote EmptyString).

(** Outcome of serialising one value. *)
Inductive Ser :=
| SThrow                (* TypeError: BigInt is not serialisable *)
| SOmit                 (* [undefined]: dropped from objects, [null] in arrays *)
| SText (s : string).

Definition joinComma (parts : list string) : string :=
  match parts with
  | [] => ""
  | p :: ps => fold_left (fun acc q => acc ++ "," ++ q) ps p
  end.

Fixpoint stringifyVal (v : JsVal) : Ser :=
  match v with
  | VUndefined => SOmit
  | VNull => SText "null"
  | VBool true => SText "true"
  | VBool false => SText "false"
  | VNumber NaN => SText "null"
  | VNumber (Int z) => SText (showZ z)
  | VBigInt _ => SThrow
  | VString s => SText (quote s)
  | VArray items =>
      let fix elems (l : list JsVal) : option (list string) :=
        match l with
        | [] => Some []
        | x :: rest =>
            match stringifyVal x, elems rest with
            | SThrow, _ | _, None => None
            | SOmit, Some ps => Some ("null" :: ps)
            | SText s, Some ps => Some (s :: ps)
            end
        end in
      match elems items with
      | None => SThrow
      | Some ps => SText ("[" ++ joinComma ps ++ "]")
      end
  | VObject fields =>
      let fix members (l : list (string * JsVal)) : option (list string) :=
        match l with
        | [] => Some []
        | (k, x) :: rest =>
            match stringifyVal x, members rest with
            | SThrow, _ | _, None => None
            | SOmit, Some ps => Some ps
            | SText s, Some ps => Some ((quote k ++ ":" ++ s) :: ps)
            end
        end in
      match members fields with
      | None => SThrow
      | Some ps => SText ("{" ++ joinComma ps ++ "}")
      end
  end.

End Js.

Import Js.

(* ===================================================================== *)
(** * Server-side intent signer *)
(* ===================================================================== *)

Module Signer.

Record IntentCall := {
  to : string;
  data : option string;
  value : option string;
  label : option string;
  sublabel : option string;
}.

(** The argument of [createCanonicalMessage]. *)
Record IntentData := {
  merchantId : string;
  targetChain : JsNumber;
  calls : list IntentCall;
  username : option string;
  accountAddress : option string;
  nonce : string;
  expiresAt : JsNumber;
}.

Definition optString (o : option string) : JsVal :=
  match o with
  | Some s => VString s
  | None => VUndefined
  end.

Definition canonicalCall (c : IntentCall) : JsVal :=
  VObject
    [ ("to", VString (toLowerCase (to c)));
      ("data", VString (toLowerCase (orS (data c) "0x")));
      ("value", VString (orS (value c) "0"));
      ("label", VString (orS (label c) ""));
      ("sublabel", VString (orS (sublabel c) "")) ].

Definition canonicalObject (d : IntentData) : JsVal :=
  VObject
    [ ("merchantId", VString (merchantId d));
      ("targetChain", VNumber (targetChain d));
      ("calls", VArray (map canonicalCall (calls d)));
      ("username", optString (username d));
      ("accountAddress", optString (toLowerCase <$> accountAddress d));
      ("nonce", VString (nonce d));
      ("expiresAt", VNumber (expiresAt d)) ].

Definition createCanonicalMessage (d : IntentData) : Ser :=
  stringifyVal (canonicalObject d).

Record SignIntentParams := {
  p_username : option string;
  p_accountAddress : option string;
  p_targetChain : JsNumber;
  p_calls : list IntentCall;
  p_tokenRequests : option (list (string * string));
}.

Record DeveloperConfig := {
  developerId : option string;
  cfg_merchantId : option string;
  privateKey : string;
  expiryMs : option Z;
}.

Record SignedIntent := {
  si_merchantId : string;
  si_developerId : string;
  si_targetChain : JsNumber;
  si_calls : list IntentCall;
  si_username : option string;
  si_accountAddress : option string;
  si_nonce : string;
  si_expiresAt : JsNumber;
  si_signature : string;
  si_tokenRequests : option (list (string * string));
}.

Definition truthyNumber (n : JsNumber) : bool := truthy (VNumber n).

Section WithCrypto.

(** Node's [crypto.sign(null, message, key)] rendered as base64, and the
    matching verification; [None] when the key is rejected. *)
Variable ed25519_sign : string -> string -> option string.
Variable ed25519_verify : string -> string -> string -> bool.

Definition signMessage (message privateKeyBase64 : string) : option string :=
  ed25519_sign message privateKeyBase64.

(** The [intentData] object of [signIntent]. *)
Definition intentDataOf (developer : string) (params : SignIntentParams)
    (uuid : string) (expires : JsNumber) : IntentData :=
  {| merchantId := developer;
     targetChain := p_targetChain params;
     calls := p_calls params;
     username := p_username params;
     accountAddress := p_accountAddress params;
     nonce := uuid;
     expiresAt := expires |}.

(** [signIntent], given the nonce drawn by [crypto.randomUUID()] and the
    reading of [Date.now()].  The result is [inl error] when it throws. *)
Definition signIntent (params : SignIntentParams) (config : DeveloperConfig)
    (uuid : string) (now : Z) : string + SignedIntent :=
  let expiry := default (5 * 60 * 1000)%Z (expiryMs config) in
  let developer :=
    if truthyS (developerId config) then developerId config else cfg_merchantId config in
  if negb (truthyS developer) || (privateKey config =? "") then
    inl "Missing developerId (clientId) or privateKey in config"
  else if negb (truthyS (p_username params)) && negb (truthyS (p_accountAddress params)) then
    inl "Either username or accountAddress is required"
  else if negb (truthyNumber (p_targetChain params)) || (length (p_calls params) =? 0)%nat then
    inl "targetChain and calls are required"
  else
    let intentData :=
      intentDataOf (default "" developer) params uuid (Int (now + expiry)) in
    match createCanonicalMessage intentData with
    | SText message =>
        match signMessage message (privateKey config) with
        | Some signature =>
            inr {| si_merchantId := merchantId intentData;
                   si_developerId := merchantId intentData;
                   si_targetChain := targetChain intentData;
                   si_calls := calls intentData;
                   si_username := username intentData;
                   si_accountAddress := accountAddress intentData;
                   si_nonce := uuid;
                   si_expiresAt := expiresAt intentData;
                   si_signature := signature;
                   si_tokenRequests := p_tokenRequests params |}
        | None => inl "crypto.sign"
        end
    | _ => inl "JSON.stringify"
    end.

(** Verification of a signed intent: the verifier rebuilds the canonical
    message from the intent's fields. *)
Definition verifyIntent (publicKey : string) (i : SignedIntent) : bool :=
  match createCanonicalMessage
          {| merchantId := si_merchantId i;
             targetChain := si_targetChain i;
             calls := si_calls i;
             username := si_username i;
             accountAddress := si_accountAddress i;
             nonce := si_nonce i;
             expiresAt := si_expiresAt i |} with
  | SText message => ed25519_verify publicKey message (si_signature i)
  | _ => false
  end.

End WithCrypto.

(** ** Inputs that differ only in casing or in defaulted fields *)

(** The same byte, or the same ASCII letter in the other case. *)
Definition sameLetter (c d : ascii) : Prop :=
  c = d \/
  (isUpper c = true /\ N_of_ascii d = (N_of_ascii c + 32)%N) \/
  (isUpper d = true /\ N_of_ascii c = (N_of_ascii d + 32)%N).

Inductive sameModuloCase : string -> string -> Prop :=
| smc_nil : sameModuloCase EmptyString EmptyString
| smc_cons c d s t :
    sameLetter c d -> sameModuloCase s t ->
    sameModuloCase (String c s) (String d t).

(** An optional field against another: equal up to [R], or absent on one
    side and the default (up to [R]) on the other. *)
Inductive optVariant (R : string -> string -> Prop) (dflt : string)
  : option string -> option string -> Prop :=
| ov_absent : optVariant R dflt None None
| ov_present a b : R a b -> optVariant R dflt (Some a) (Some b)
| ov_left b : R dflt b -> optVariant R dflt None (Some b)
| ov_right a : R a dflt -> optVariant R dflt (Some a) None.

Record callVariant (c d : IntentCall) : Prop := {
  cv_to : sameModuloCase (to c) (to d);
  cv_data : optVariant sameModuloCase "0x" (data c) (data d);
  cv_value : optVariant eq "0" (value c) (value d);
  cv_label : optVariant eq "" (label c) (label d);
  cv_sublabel : optVariant eq "" (sublabel c) (sublabel d);
}.

Inductive addressVariant : option string -> option string -> Prop :=
| av_absent : addressVariant None None
| av_present a b : sameModuloCase a b -> addressVariant (Some a) (Some b).

Record dataVariant (d e : IntentData) : Prop := {
  dv_merchantId : merchantId d = merchantId e;
  dv_targetChain : targetChain d = targetChain e;
  dv_calls : Forall2 callVariant (calls d) (calls e);
  dv_username : username d = username e;
  dv_accountAddress : addressVariant (accountAddress d) (accountAddress e);
  dv_nonce : nonce d = nonce e;
  dv_expiresAt : expiresAt d = expiresAt e;
}.

Record paramsVariant (p q : SignIntentParams) : Prop := {
  pv_username : p_username p = p_username q;
  pv_accountAddress : addressVariant (p_accountAddress p) (p_accountAddress q);
  pv_targetChain : p_targetChain p = p_targetChain q;
  pv_calls : Forall2 callVariant (p_calls p) (p_calls q);
}.

(** What two outcomes of [signIntent] share when they are the same up to
    the echoed input: both throw the same error, or both carry the same
    signature, nonce, expiry and identifiers. *)
Definition sameSignature (a b : string + SignedIntent) : Prop :=
  match a, b with
  | inl e, inl e' => e = e'
  | inr i, inr j =>
      si_signature i = si_signature j /\ si_nonce i = si_nonce j /\
      si_expiresAt i = si_expiresAt j /\ si_merchantId i = si_merchantId j
  | _, _ => False
  end.

End Signer.

(* ===================================================================== *)
(** * Dialog host and message listeners of [OneAuthClient] *)
(* ===================================================================== *)

Module Dialog.

(** ** Configuration *)

Definition DEFAULT_PROVIDER_URL : string := "https://passkey.1auth.box".

Record Config := {
  providerUrl : string;
  dialogUrl : string;
  clientId : option string;
}.

(** The constructor: [config.providerUrl || DEFAULT_PROVIDER_URL] and
    [config.dialogUrl || providerUrl]. *)
Definition normalizeConfig (provider dialog client : option string) : Config :=
  let p := orS provider DEFAULT_PROVIDER_URL in
  {| providerUrl := p; dialogUrl := orS dialog p; clientId := client |}.

Definition getDialogUrl (cfg : Config) : string :=
  if dialogUrl cfg =? "" then providerUrl cfg else dialogUrl cfg.

(** ** Session state *)

Record MessageEvent := {
  origin : string;
  data : JsVal;
}.

(** A CSS length: a literal, or the template [`${v}px`]. *)
Inductive Length :=
| Literal (s : string)
| Px (v : JsVal).

(** The [handleMessage] closure subscribed to [window], with the variables
    it captures. *)
Inductive Waiter :=
| DialogReady (initMessage : list (string * JsVal))
| IntentSigning (requestId : string)
| Signing
| SigningWithRefresh
| BatchSigning
| DialogClose
| ModalAuth
| PopupAuth
| Authenticate
| Connect
| ModalSigning (requestId : string)
| PopupSigning (requestId : string)
| Embed (requestId : string) (hasOnClose : bool).

(** The [handleClose] closure subscribed to the dialog's [close] event. *)
Inductive CloseHandler :=
| ReadyClose
| WaitClose.

Inductive Popup :=
| NoPopup                 (* [window.open] returned [null], or none asked *)
| PopupOpen (url : string)
| PopupClosed.

(** The dialog element, its frame and the listeners of
    [createModalDialog]. *)
Record Dom := {
  hostOrigin : string;
  hostListener : bool;
  escapeListener : bool;
  dialogOpen : bool;
  dialogAttached : bool;
  closeTasks : nat;          (* [close] events queued by [dialog.close()] *)
  frameSrc : string;
  frameHeight : Length;
  frameWidth : Length;
}.

(** The waiter's subscriptions and closure variables. *)
Record Waiting := {
  waiter : option Waiter;
  closeListener : option CloseHandler;
  settled : bool;
  dialogReady : bool;
}.

Record Promises := {
  resolved : list JsVal;        (* arguments of the waiter's [resolve] *)
  closeResolved : nat;          (* calls of [waitForDialogClose]'s [resolve] *)
  pendingBatch : option JsVal;  (* batch result held until the dialog closes *)
}.

Record Surfaces := {
  popup : Popup;
  popupTimer : bool;
  embedAttached : bool;
  embedClosed : nat;            (* calls of [embedOptions.onClose] *)
}.

Record Session := {
  dom : Dom;
  waiting : Waiting;
  promises : Promises;
  surfaces : Surfaces;
  localStorage : gmap string string;
  posted : list JsVal;          (* messages posted to the frame's window *)
}.

Definition withDom (f : Dom -> Dom) (s : Session) : Session :=
  {| dom := f (dom s); waiting := waiting s; promises := promises s;
     surfaces := surfaces s; localStorage := localStorage s; posted := posted s |}.

Definition withWaiting (f : Waiting -> Waiting) (s : Session) : Session :=
  {| dom := dom s; waiting := f (waiting s); promises := promises s;
     surfaces := surfaces s; localStorage := localStorage s; posted := posted s |}.

Definition withPromises (f : Promises -> Promises) (s : Session) : Session :=
  {| dom := dom s; waiting := waiting s; promises := f (promises s);
     surfaces := surfaces s; localStorage := localStorage s; posted := posted s |}.

Definition withSurfaces (f : Surfaces -> Surfaces) (s : Session) : Session :=
  {| dom := dom s; waiting := waiting s; promises := promises s;
     surfaces := f (surfaces s); localStorage := localStorage s; posted := posted s |}.

Definition withStorage (f : gmap string string -> gmap string string)
    (s : Session) : Session :=
  {| dom := dom s; waiting := waiting s; promises := promises s;
     surfaces := surfaces s; localStorage := f (localStorage s); posted := posted s |}.

(** [iframe.contentWindow?.postMessage(m, dialogOrigin)]: the frame has a
    window only while it is in the document. *)
Definition post (m : JsVal) (s : Session) : Session :=
  if dialogAttached (dom s) then
    {| dom := dom s; waiting := waiting s; promises := promises s;
       surfaces := surfaces s; localStorage := localStorage s;
       posted := posted s ++ [m] |}
  else s.

(** ** [createModalDialog] *)

Definition cleanupDom (d : Dom) : Dom :=
  {| hostOrigin := hostOrigin d;
     hostListener := false;                 (* removeEventListener("message") *)
     escapeListener := false;               (* removeEventListener("keydown") *)
     dialogOpen := false;                   (* dialog.close() *)
     dialogAttached := false;               (* dialog.remove() *)
     closeTasks := if dialogOpen d then S (closeTasks d) else closeTasks d;
     frameSrc := frameSrc d;
     frameHeight := frameHeight d;
     frameWidth := frameWidth d |}.

(** The [cleanup] closure returned by [createModalDialog]. *)
Definition cleanup (s : Session) : Session := withDom cleanupDom s.

Definition setHeight (v : JsVal) (d : Dom) : Dom :=
  {| hostOrigin := hostOrigin d; hostListener := hostListener d;
     escapeListener := escapeListener d; dialogOpen := dialogOpen d;
     dialogAttached := dialogAttached d; closeTasks := closeTasks d;
     frameSrc := frameSrc d; frameHeight := Px v; frameWidth := frameWidth d |}.

Definition setWidth (v : JsVal) (d : Dom) : Dom :=
  {| hostOrigin := hostOrigin d; hostListener := hostListener d;
     escapeListener := escapeListener d; dialogOpen := dialogOpen d;
     dialogAttached := dialogAttached d; closeTasks := closeTasks d;
     frameSrc := frameSrc d; frameHeight := frameHeight d; frameWidth := Px v |}.

Definition idleWaiting : Waiting :=
  {| waiter := None; closeListener := None; settled := false; dialogReady := false |}.

Definition noPromises : Promises :=
  {| resolved := []; closeResolved := 0; pendingBatch := None |}.

Definition noSurfaces : Surfaces :=
  {| popup := NoPopup; popupTimer := false; embedAttached := false; embedClosed := 0 |}.

(** Resize and disconnect messages from the frame. *)
Definition hostHandleMessage (s : Session) (ev : MessageEvent) : Session :=
  if negb (origin ev =? hostOrigin (dom s)) then s
  else if isStr (get (data ev) "type") "PASSKEY_RESIZE" then
    let s1 := withDom (setHeight (get (data ev) "height")) s in
    if truthy (get (data ev) "width")
    then withDom (setWidth (get (data ev) "width")) s1
    else s1
  else if isStr (get (data ev) "type") "PASSKEY_DISCONNECT" then
    withStorage (delete "1auth-user") s
  else s.

Definition handleEscape (s : Session) (key : string) : Session :=
  if key =? "Escape" then cleanup s else s.

(** The dialog's [click] listener; [onDialog] is [event.target === dialog]. *)
Definition handleClick (s : Session) (onDialog : bool) : Session :=
  if onDialog then cleanup s else s.

(** A page with no dialog on it. *)
Definition pageSession (storage : gmap string string) : Session :=
  {| dom := {| hostOrigin := ""; hostListener := false; escapeListener := false;
               dialogOpen := false; dialogAttached := false; closeTasks := 0;
               frameSrc := ""; frameHeight := Literal ""; frameWidth := Literal "" |};
     waiting := idleWaiting; promises := noPromises; surfaces := noSurfaces;
     localStorage := storage; posted := [] |}.

Section WithUrl.

(** [new URL(u).origin]; [None] when the constructor throws. *)
Variable urlOrigin : string -> option string.

Definition getDialogOrigin (cfg : Config) : string :=
  default (getDialogUrl cfg) (urlOrigin (getDialogUrl cfg)).

(** [createModalDialog(url)] on a page holding [storage]; [None] when
    [new URL(dialogUrl)] throws. *)
Definition createModalDialog (cfg : Config) (url : string)
    (storage : gmap string string) : option Session :=
  match urlOrigin (getDialogUrl cfg) with
  | None => None
  | Some o =>
      Some {| dom := {| hostOrigin := o; hostListener := true;
                        escapeListener := true; dialogOpen := true;
                        dialogAttached := true; closeTasks := 0;
                        frameSrc := url;
                        frameHeight := Literal "400px";
                        frameWidth := Literal "360px" |};
              waiting := idleWaiting; promises := noPromises;
              surfaces := noSurfaces; localStorage := storage; posted := [] |}
  end.

End WithUrl.

(** ** Promise and subscription primitives *)

Definition resolve (v : JsVal) (s : Session) : Session :=
  withPromises (fun p =>
    {| resolved := resolved p ++ [v]; closeResolved := closeResolved p;
       pendingBatch := pendingBatch p |}) s.

(** [resolve()] of [waitForDialogClose]; the batch flow awaiting it then
    resolves its own promise with the result it holds. *)
Definition resolveClose (s : Session) : Session :=
  let first := (closeResolved (promises s) =? 0)%nat in
  let s1 := withPromises (fun p =>
    {| resolved := resolved p; closeResolved := S (closeResolved p);
       pendingBatch := pendingBatch p |}) s in
  match pendingBatch (promises s) with
  | Some r => if first then resolve r s1 else s1
  | None => s1
  end.

Definition holdBatch (r : JsVal) (s : Session) : Session :=
  withPromises (fun p =>
    {| resolved := resolved p; closeResolved := closeResolved p;
       pendingBatch := Some r |}) s.

(** [window.addEventListener("message", handleMessage)] *)
Definition subscribe (w : Waiter) (s : Session) : Session :=
  withWaiting (fun x =>
    {| waiter := Some w; closeListener := closeListener x;
       settled := settled x; dialogReady := dialogReady x |}) s.

(** [window.removeEventListener("message", handleMessage)], called by the
    subscribed closure itself. *)
Definition unsubscribe (s : Session) : Session :=
  withWaiting (fun x =>
    {| waiter := None; closeListener := closeListener x;
       settled := settled x; dialogReady := dialogReady x |}) s.

Definition onClose (h : option CloseHandler) (s : Session) : Session :=
  withWaiting (fun x =>
    {| waiter := waiter x; closeListener := h;
       settled := settled x; dialogReady := dialogReady x |}) s.

Definition markReady (s : Session) : Session :=
  withWaiting (fun x =>
    {| waiter := waiter x; closeListener := closeListener x;
       settled := settled x; dialogReady := true |}) s.

Definition isDialogReady (w : option Waiter) : bool :=
  match w with Some (DialogReady _) => true | _ => false end.

Definition isDialogClose (w : option Waiter) : bool :=
  match w with Some DialogClose => true | _ => false end.

Definition isReadyClose (h : option CloseHandler) : bool :=
  match h with Some ReadyClose => true | _ => false end.

(** ** Ready handshake: [waitForDialogReady] *)

(** The promise executor: a fresh [settled] flag and both listeners. *)
Definition waitForDialogReady (initMessage : list (string * JsVal))
    (s : Session) : Session :=
  withWaiting (fun x =>
    {| waiter := Some (DialogReady initMessage);
       closeListener := Some ReadyClose;
       settled := false; dialogReady := dialogReady x |}) s.

Definition teardown (s : Session) : Session :=
  if settled (waiting s) then s
  else
    withWaiting (fun x =>
      {| waiter := if isDialogReady (waiter x) then None else waiter x;
         closeListener := if isReadyClose (closeListener x) then None
                          else closeListener x;
         settled := true; dialogReady := dialogReady x |}) s.

Definition readyHandleMessage (dialogOrigin : string)
    (initMessage : list (string * JsVal)) (s : Session) (ev : MessageEvent)
    : Session :=
  if negb (origin ev =? dialogOrigin) then s
  else if isStr (get (data ev) "type") "PASSKEY_READY" then
    resolve (VBool true)
      (post (VObject (spread [("type", VString "PASSKEY_INIT")] initMessage))
         (teardown s))
  else if isStr (get (data ev) "type") "PASSKEY_CLOSE" then
    resolve (VBool false) (cleanup (teardown s))
  else s.

Definition readyHandleClose (s : Session) : Session :=
  resolve (VBool false) (teardown s).

(** ** [waitForDialogClose] *)

Definition waitForDialogClose (s : Session) : Session :=
  onClose (Some WaitClose) (subscribe DialogClose s).

Definition closeHandleMessage (dialogOrigin : string) (s : Session)
    (ev : MessageEvent) : Session :=
  if negb (origin ev =? dialogOrigin) then s
  else if isStr (get (data ev) "type") "PASSKEY_CLOSE" then
    resolveClose (cleanup (unsubscribe s))
  else s.

Definition closeHandleClose (s : Session) : Session :=
  let s1 := if isDialogClose (waiter (waiting s)) then unsubscribe s else s in
  resolveClose (cleanup (onClose None s1)).

(** ** Result objects *)

Definition errorObject (code message : string) : JsVal :=
  VObject [("code", VString code); ("message", VString message)].

Definition failure (error : JsVal) : JsVal :=
  VObject [("success", VBool false); ("error", error)].

Definition failureFor (requestId : string) (error : JsVal) : JsVal :=
  VObject [("success", VBool false); ("requestId", VString requestId);
           ("error", error)].

Definition signingFailed : JsVal := errorObject "SIGNING_FAILED" "Signing failed".

(** The outcome of a [PASSKEY_SIGNING_RESULT] message for the waiters that
    accept either an intent id or a raw signature. *)
Definition signingOutcome (message : JsVal) : JsVal :=
  let payload := get message "data" in
  if truthy (get message "success") && truthy (get payload "intentId") then
    VObject [("success", VBool true); ("intentId", get payload "intentId")]
  else if truthy (get message "success") && truthy (get payload "signature") then
    VObject [("success", VBool true);
             ("signature", get payload "signature");
             ("passkey", get payload "passkey");
             ("signedHash", get payload "signedHash")]
  else failure (or (get message "error") signingFailed).

(** The outcome for the waiters matching a request id. *)
Definition requestOutcome (requestId : string) (withPasskey genericError : bool)
    (message : JsVal) : JsVal :=
  let payload := get message "data" in
  if truthy (get message "success") && truthy (get payload "signature") then
    VObject ([("success", VBool true); ("requestId", VString requestId);
              ("signature", get payload "signature")]
             ++ (if withPasskey then [("passkey", get payload "passkey")] else []))
  else if genericError
  then failure (or (get message "error") signingFailed)
  else failureFor requestId (get message "error").

Definition isResultFor (requestId : string) (message : JsVal) : bool :=
  isStr (get message "type") "PASSKEY_SIGNING_RESULT"
  && isStr (get (get message "data") "requestId") requestId.

(** ** Signing waiters *)

Definition intentSigningHandleMessage (dialogOrigin requestId : string)
    (s : Session) (ev : MessageEvent) : Session :=
  if negb (origin ev =? dialogOrigin) then s
  else if isResultFor requestId (data ev) then
    resolve (requestOutcome requestId true true (data ev)) (unsubscribe s)
  else if isStr (get (data ev) "type") "PASSKEY_CLOSE" then
    resolve (failure (errorObject "USER_REJECTED" "User closed the dialog"))
      (cleanup (unsubscribe s))
  else s.

(** [waitForSigningResponse]; it also logs every message it sees and the
    origin mismatch to the console. *)
Definition signingHandleMessage (dialogOrigin : string) (s : Session)
    (ev : MessageEvent) : Session :=
  if negb (origin ev =? dialogOrigin) then s
  else if isStr (get (data ev) "type") "PASSKEY_SIGNING_RESULT" then
    resolve (signingOutcome (data ev)) (unsubscribe s)
  else if isStr (get (data ev) "type") "PASSKEY_CLOSE" then
    resolve (failure (errorObject "USER_REJECTED" "User closed the dialog"))
      (cleanup (unsubscribe s))
  else s.

(** [onRefresh] is the caller's callback; [refreshed] is what it returned
    for this request ([None] for [null]). *)
Definition refreshHandleMessage (dialogOrigin : string)
    (refreshed : option (list (string * JsVal))) (s : Session)
    (ev : MessageEvent) : Session :=
  if negb (origin ev =? dialogOrigin) then s
  else if isStr (get (data ev) "type") "PASSKEY_REFRESH_QUOTE" then
    match refreshed with
    | Some fields =>
        post (VObject (spread [("type", VString "PASSKEY_REFRESH_COMPLETE")] fields)) s
    | None =>
        post (VObject [("type", VString "PASSKEY_REFRESH_ERROR");
                       ("error", VString "Failed to refresh quote")]) s
    end
  else if isStr (get (data ev) "type") "PASSKEY_SIGNING_RESULT" then
    resolve (signingOutcome (data ev)) (unsubscribe s)
  else if isStr (get (data ev) "type") "PASSKEY_CLOSE" then
    resolve (failure (errorObject "USER_REJECTED" "User closed the dialog"))
      (cleanup (unsubscribe s))
  else s.

Definition modalSigningHandleMessage (dialogOrigin requestId : string)
    (s : Session) (ev : MessageEvent) : Session :=
  if negb (origin ev =? dialogOrigin) then s
  else if isResultFor requestId (data ev) then
    resolve (requestOutcome requestId false false (data ev))
      (cleanup (unsubscribe s))
  else if isStr (get (data ev) "type") "PASSKEY_CLOSE" then
    resolve (failureFor requestId (errorObject "USER_REJECTED" "Signing was cancelled"))
      (cleanup (unsubscribe s))
  else s.

(** ** Popup and embed surfaces *)

Definition clearTimer (s : Session) : Session :=
  withSurfaces (fun x =>
    {| popup := popup x; popupTimer := false;
       embedAttached := embedAttached x; embedClosed := embedClosed x |}) s.

(** [popup?.close()] *)
Definition closePopup (s : Session) : Session :=
  withSurfaces (fun x =>
    {| popup := match popup x with PopupOpen _ => PopupClosed | p => p end;
       popupTimer := popupTimer x;
       embedAttached := embedAttached x; embedClosed := embedClosed x |}) s.

(** [openPopup(url)] followed by [setInterval]; [opens] tells whether
    [window.open] returned a window. *)
Definition openPopup (url : string) (opens : bool) (s : Session) : Session :=
  withSurfaces (fun x =>
    {| popup := if opens then PopupOpen url else NoPopup;
       popupTimer := true;
       embedAttached := embedAttached x; embedClosed := embedClosed x |}) s.

(** The [cleanup] closure of [waitForEmbedResponse]; [hasOnClose] tells
    whether the caller passed [embedOptions.onClose]. *)
Definition embedCleanup (hasOnClose : bool) (s : Session) : Session :=
  withSurfaces (fun x =>
    {| popup := popup x; popupTimer := popupTimer x;
       embedAttached := false;
       embedClosed := if hasOnClose then S (embedClosed x) else embedClosed x |})
    (unsubscribe s).

Definition popupSigningHandleMessage (dialogOrigin requestId : string)
    (s : Session) (ev : MessageEvent) : Session :=
  if negb (origin ev =? dialogOrigin) then s
  else if isResultFor requestId (data ev) then
    resolve (requestOutcome requestId false false (data ev))
      (closePopup (unsubscribe (clearTimer s)))
  else s.

Definition embedHandleMessage (dialogOrigin requestId : string)
    (hasOnClose : bool) (s : Session) (ev : MessageEvent) : Session :=
  if negb (origin ev =? dialogOrigin) then s
  else if isResultFor requestId (data ev) then
    resolve (requestOutcome requestId false false (data ev))
      (embedCleanup hasOnClose s)
  else s.

(** ** Authentication waiters *)

Definition cancelled (message : string) : JsVal :=
  failure (errorObject "USER_CANCELLED" message).

Definition loginOutcome (d : JsVal) : JsVal :=
  if truthy (get d "success") then
    VObject [("success", VBool true);
             ("username", get (get d "data") "username");
             ("user", get (get d "data") "user")]
  else failure (get d "error").

Definition registerOutcome (d : JsVal) : JsVal :=
  if truthy (get d "success") then
    VObject [("success", VBool true);
             ("username", get (get d "data") "username")]
  else failure (get d "error").

(** [s.replace(pat, rep)] with a string pattern: the first occurrence. *)
Definition replaceFirst (s pat rep : string) : string :=
  match String.index 0 pat s with
  | Some i =>
      substring 0 i s ++ rep
      ++ substring (i + String.length pat) (String.length s - (i + String.length pat)) s
  | None => s
  end.

Definition fallbackPopupUrl (cfg : Config) : string :=
  getDialogUrl cfg ++ "/dialog/auth?mode=popup"
  ++ (if truthyS (clientId cfg) then "&clientId=" ++ default "" (clientId cfg) else "").

(** The promise executor of [waitForPopupAuthResponse]. *)
Definition waitForPopupAuthResponse (url : string) (opens : bool)
    (s : Session) : Session :=
  subscribe PopupAuth (openPopup url opens s).

Definition modalAuthHandleMessage (cfg : Config) (dialogOrigin : string)
    (opens : bool) (s : Session) (ev : MessageEvent) : Session :=
  let d := data ev in
  if negb (origin ev =? dialogOrigin) then s
  else if isStr (get d "type") "PASSKEY_READY" then
    post (VObject [("type", VString "PASSKEY_INIT"); ("mode", VString "iframe")])
      (markReady s)
  else if negb (dialogReady (waiting s)) && isStr (get d "type") "PASSKEY_CLOSE" then s
  else if isStr (get d "type") "PASSKEY_LOGIN_RESULT" then
    resolve (loginOutcome d) (cleanup (unsubscribe s))
  else if isStr (get d "type") "PASSKEY_REGISTER_RESULT" then
    resolve (registerOutcome d) (cleanup (unsubscribe s))
  else if isStr (get d "type") "PASSKEY_RETRY_POPUP" then
    let s1 := cleanup (unsubscribe s) in
    match get (get d "data") "url" with
    | VUndefined | VNull => waitForPopupAuthResponse (fallbackPopupUrl cfg) opens s1
    | VString u =>
        let replaced := replaceFirst u "mode=iframe" "mode=popup" in
        waitForPopupAuthResponse
          (if replaced =? "" then fallbackPopupUrl cfg else replaced) opens s1
    | _ => s1                         (* [url.replace] is not a function *)
    end
  else if isStr (get d "type") "PASSKEY_CLOSE" then
    resolve (cancelled "Authentication was cancelled") (cleanup (unsubscribe s))
  else s.

Definition popupAuthHandleMessage (dialogOrigin : string) (s : Session)
    (ev : MessageEvent) : Session :=
  let d := data ev in
  if negb (origin ev =? dialogOrigin) then s
  else if isStr (get d "type") "PASSKEY_LOGIN_RESULT" then
    resolve (loginOutcome d) (closePopup (unsubscribe (clearTimer s)))
  else if isStr (get d "type") "PASSKEY_REGISTER_RESULT" then
    resolve (registerOutcome d) (closePopup (unsubscribe (clearTimer s)))
  else if isStr (get d "type") "PASSKEY_CLOSE" then
    resolve (cancelled "Authentication was cancelled")
      (closePopup (unsubscribe (clearTimer s)))
  else s.

Definition authenticateOutcome (d : JsVal) : JsVal :=
  if truthy (get d "success") then
    VObject [("success", VBool true);
             ("username", get (get d "data") "username");
             ("user", get (get d "data") "user");
             ("accountAddress", get (get d "data") "accountAddress");
             ("signature", get (get d "data") "signature");
             ("signedHash", get (get d "data") "signedHash")]
  else failure (get d "error").

Definition authenticateHandleMessage (dialogOrigin : string) (s : Session)
    (ev : MessageEvent) : Session :=
  let d := data ev in
  if negb (origin ev =? dialogOrigin) then s
  else if isStr (get d "type") "PASSKEY_AUTHENTICATE_RESULT" then
    resolve (authenticateOutcome d) (cleanup (unsubscribe s))
  else if isStr (get d "type") "PASSKEY_CLOSE" then
    resolve (cancelled "Authentication was cancelled") (cleanup (unsubscribe s))
  else s.

Definition connectOutcome (d : JsVal) : JsVal :=
  if truthy (get d "success") then
    VObject [("success", VBool true);
             ("username", get (get d "data") "username");
             ("autoConnected", get (get d "data") "autoConnected")]
  else
    VObject [("success", VBool false);
             ("action", get (get d "data") "action");
             ("error", get d "error")].

Definition connectHandleMessage (dialogOrigin : string) (s : Session)
    (ev : MessageEvent) : Session :=
  let d := data ev in
  if negb (origin ev =? dialogOrigin) then s
  else if isStr (get d "type") "PASSKEY_CONNECT_RESULT" then
    resolve (connectOutcome d) (cleanup (unsubscribe s))
  else if isStr (get d "type") "PASSKEY_CLOSE" then
    resolve (VObject [("success", VBool false);
                      ("action", VString "cancel");
                      ("error", errorObject "USER_CANCELLED" "Connection was cancelled")])
      (cleanup (unsubscribe s))
  else s.

(** ** Batch results *)

Record BatchIntentItemResult := {
  item_index : JsVal;
  item_success : JsVal;
  item_intentId : JsVal;
  item_status : string;
  item_error : JsVal;
}.

Record SendBatchIntentResult := {
  batch_success : bool;
  results : list BatchIntentItemResult;
  successCount : nat;
  failureCount : nat;
}.

Definition batchItem (r : JsVal) : BatchIntentItemResult :=
  {| item_index := get r "index";
     item_success :=
       nullish (get r "success") (VBool (negb (isStr (get r "status") "FAILED")));
     item_intentId := or (or (get r "intentId") (get r "operationId")) (VString "");
     item_status := if isStr (get r "status") "FAILED" then "failed" else "pending";
     item_error :=
       if truthy (get r "error")
       then VObject [("code", VString "EXECUTE_FAILED"); ("message", get r "error")]
       else VUndefined |}.

Definition aggregateBatch (rawResults : list JsVal) : SendBatchIntentResult :=
  let rs := map batchItem rawResults in
  let n := length (List.filter (fun r => truthy (item_success r)) rs) in
  {| batch_success := (n =? length rs)%nat;
     results := rs;
     successCount := n;
     failureCount := length rs - n |}.

Definition emptyBatch : SendBatchIntentResult :=
  {| batch_success := false; results := []; successCount := 0; failureCount := 0 |}.

Definition itemVal (r : BatchIntentItemResult) : JsVal :=
  VObject [("index", item_index r); ("success", item_success r);
           ("intentId", item_intentId r); ("status", VString (item_status r));
           ("error", item_error r)].

Definition batchVal (b : SendBatchIntentResult) : JsVal :=
  VObject [("success", VBool (batch_success b));
           ("results", VArray (map itemVal (results b)));
           ("successCount", VNumber (Int (Z.of_nat (successCount b))));
           ("failureCount", VNumber (Int (Z.of_nat (failureCount b))))].

(** Outcome of a [fetch] followed by [response.json()]. *)
Inductive Fetch :=
| FetchThrows
| FetchNotOk (body : JsVal)
| FetchOk (body : JsVal).

Definition batchRefreshError : JsVal :=
  VObject [("type", VString "PASSKEY_REFRESH_ERROR");
           ("error", VString "Failed to refresh batch quotes")].

(** The listener of [sendBatchIntent]; [refetch] is the outcome of the
    batch-prepare call a refresh request triggers. *)
Definition batchHandleMessage (dialogOrigin : string) (refetch : Fetch)
    (s : Session) (ev : MessageEvent) : Session :=
  let message := data ev in
  if negb (origin ev =? dialogOrigin) then s
  else if isStr (get message "type") "PASSKEY_REFRESH_QUOTE" then
    match refetch with
    | FetchOk VNull | FetchThrows | FetchNotOk _ => post batchRefreshError s
    | FetchOk refreshed =>
        post (VObject [("type", VString "PASSKEY_REFRESH_COMPLETE");
                       ("batchIntents", get refreshed "intents");
                       ("challenge", get refreshed "challenge");
                       ("expiresAt", get refreshed "expiresAt")]) s
    end
  else if isStr (get message "type") "PASSKEY_SIGNING_RESULT" then
    let s1 := unsubscribe s in
    if truthy (get message "success")
       && truthy (get (get message "data") "batchResults") then
      match get (get message "data") "batchResults" with
      | VArray rawResults =>
          waitForDialogClose (holdBatch (batchVal (aggregateBatch rawResults)) s1)
      | _ => s1                       (* [rawResults.map] is not a function *)
      end
    else resolve (batchVal emptyBatch) (cleanup s1)
  else if isStr (get message "type") "PASSKEY_CLOSE" then
    resolve (batchVal emptyBatch) (cleanup (unsubscribe s))
  else s.

(** ** Event delivery *)

(** What the environment answers to the calls a message may trigger. *)
Record Env := {
  refreshed : option (list (string * JsVal));   (* result of [onRefresh()] *)
  refetch : Fetch;                              (* batch-prepare on refresh *)
  opens : bool;                                 (* [window.open] succeeds *)
}.

Definition waiterHandleMessage (cfg : Config) (dialogOrigin : string)
    (env : Env) (w : Waiter) (s : Session) (ev : MessageEvent) : Session :=
  match w with
  | DialogReady initMessage => readyHandleMessage dialogOrigin initMessage s ev
  | IntentSigning requestId => intentSigningHandleMessage dialogOrigin requestId s ev
  | Signing => signingHandleMessage dialogOrigin s ev
  | SigningWithRefresh => refreshHandleMessage dialogOrigin (refreshed env) s ev
  | BatchSigning => batchHandleMessage dialogOrigin (refetch env) s ev
  | DialogClose => closeHandleMessage dialogOrigin s ev
  | ModalAuth => modalAuthHandleMessage cfg dialogOrigin (opens env) s ev
  | PopupAuth => popupAuthHandleMessage dialogOrigin s ev
  | Authenticate => authenticateHandleMessage dialogOrigin s ev
  | Connect => connectHandleMessage dialogOrigin s ev
  | ModalSigning requestId => modalSigningHandleMessage dialogOrigin requestId s ev
  | PopupSigning requestId => popupSigningHandleMessage dialogOrigin requestId s ev
  | Embed requestId hasOnClose =>
      embedHandleMessage dialogOrigin requestId hasOnClose s ev
  end.

Inductive Event :=
| Message (ev : MessageEvent) (env : Env)   (* [message] on [window] *)
| Keydown (key : string)                    (* [keydown] on [document] *)
| Click (onDialog : bool)                   (* [click] on the dialog *)
| CloseTask                                 (* a queued [close] event fires *)
| UserAgentClose.                           (* the browser closes the dialog *)

(** The [close] event reaches the subscribed [handleClose]. *)
Definition fireClose (s : Session) : Session :=
  match closeListener (waiting s) with
  | Some ReadyClose => readyHandleClose s
  | Some WaitClose => closeHandleClose s
  | None => s
  end.

Definition takeCloseTask (d : Dom) : Dom :=
  {| hostOrigin := hostOrigin d; hostListener := hostListener d;
     escapeListener := escapeListener d; dialogOpen := dialogOpen d;
     dialogAttached := dialogAttached d; closeTasks := pred (closeTasks d);
     frameSrc := frameSrc d; frameHeight := frameHeight d;
     frameWidth := frameWidth d |}.

Definition closeByUserAgent (d : Dom) : Dom :=
  {| hostOrigin := hostOrigin d; hostListener := hostListener d;
     escapeListener := escapeListener d; dialogOpen := false;
     dialogAttached := dialogAttached d; closeTasks := closeTasks d;
     frameSrc := frameSrc d; frameHeight := frameHeight d;
     frameWidth := frameWidth d |}.

(** One turn of the event loop.  Listeners run in subscription order: the
    host listener of [createModalDialog] first, then the waiter. *)
Definition step (cfg : Config) (dialogOrigin : string) (s : Session)
    (e : Event) : Session :=
  match e with
  | Message ev env =>
      let s1 := if hostListener (dom s) then hostHandleMessage s ev else s in
      match waiter (waiting s1) with
      | Some w => waiterHandleMessage cfg dialogOrigin env w s1 ev
      | None => s1
      end
  | Keydown key => if escapeListener (dom s) then handleEscape s key else s
  | Click onDialog => handleClick s onDialog
  | CloseTask =>
      if (0 <? closeTasks (dom s))%nat then fireClose (withDom takeCloseTask s) else s
  | UserAgentClose =>
      if dialogOpen (dom s) then fireClose (withDom closeByUserAgent s) else s
  end.

Definition run (cfg : Config) (dialogOrigin : string) (s : Session)
    (trace : list Event) : Session :=
  fold_left (step cfg dialogOrigin) trace s.

(** A message the guard lets through; other events are not messages. *)
Definition trusted (dialogOrigin : string) (e : Event) : bool :=
  match e with
  | Message ev _ => origin ev =? dialogOrigin
  | _ => true
  end.

(** The ways [cleanup] gets invoked from outside a waiter. *)
Inductive Trigger :=
| EscapeKey        (* [keydown] with [key === "Escape"] *)
| BackdropClick    (* [click] with [event.target === dialog] *)
| Direct.          (* a waiter on a close message, or normal completion *)

Definition cleanupVia (t : Trigger) (s : Session) : Session :=
  match t with
  | EscapeKey => if escapeListener (dom s) then handleEscape s "Escape" else s
  | BackdropClick => handleClick s true
  | Direct => cleanup s
  end.

(** ** Vocabulary of the ready handshake *)

(** The handshake of [initMessage] is subscribed and has not settled. *)
Definition waitingForReady (initMessage : list (string * JsVal)) (s : Session)
    : Prop :=
  waiter (waiting s) = Some (DialogReady initMessage) /\
  closeListener (waiting s) = Some ReadyClose /\
  settled (waiting s) = false.

(** The handshake has settled and holds no listener. *)
Definition handshakeOver (s : Session) : Prop :=
  waiter (waiting s) = None /\
  closeListener (waiting s) = None /\
  settled (waiting s) = true.

Definition initPayload (initMessage : list (string * JsVal)) : JsVal :=
  VObject (spread [("type", VString "PASSKEY_INIT")] initMessage).

(** A message that passes the guard and carries the given type. *)
Definition guarded (dialogOrigin type : string) (ev : MessageEvent) : Prop :=
  origin ev = dialogOrigin /\ isStr (get (data ev) "type") type = true.

(** A native [close] event that reaches the dialog: one queued by
    [dialog.close()], or one raised by the browser closing the dialog. *)
Definition nativeClose (s : Session) (e : Event) : Prop :=
  (e = CloseTask /\ 0 < closeTasks (dom s)) \/
  (e = UserAgentClose /\ dialogOpen (dom s) = true).

(** [f] leaves the origin the host listener checks against as it is. *)
Definition keepsOrigin (f : Session -> Session) : Prop :=
  forall s, hostOrigin (dom (f s)) = hostOrigin (dom s).

(** The host listener of [s'] is subscribed only if that of [s] was:
    listeners are removed along a run, never added. *)
Definition stillListens (s s' : Session) : Prop :=
  hostListener (dom s') = true -> hostListener (dom s) = true.

(** The host listener, while it is subscribed, checks against [o].  A
    page that shows a popup or an embed has no host listener at all. *)
Definition hostGuards (o : string) (s : Session) : Prop :=
  hostListener (dom s) = true -> hostOrigin (dom s) = o.

(** The state [cleanup] leaves the page in. *)
Definition cleaned (d : Dom) : Prop :=
  hostListener d = false /\ escapeListener d = false /\
  dialogOpen d = false /\ dialogAttached d = false.

(** What one event does to a waiting handshake. *)
Inductive Turn (o : string) (init : list (string * JsVal)) (s : Session)
    (e : Event) (s' : Session) : Prop :=
| StillWaiting :
    waitingForReady init s' -> promises s' = promises s -> posted s' = posted s ->
    Turn o init s e s'
| BecameReady ev env :
    e = Message ev env -> guarded o "PASSKEY_READY" ev ->
    handshakeOver s' ->
    resolved (promises s') = (resolved (promises s) ++ [VBool true])%list ->
    posted s' = (if dialogAttached (dom s)
                 then (posted s ++ [initPayload init])%list else posted s) ->
    Turn o init s e s'
| Cancelled :
    handshakeOver s' ->
    resolved (promises s') = (resolved (promises s) ++ [VBool false])%list ->
    posted s' = posted s ->
    Turn o init s e s'.

(** Where a handshake stands after a run that began while it waited. *)
Inductive Handshake (cfg : Config) (o : string) (init : list (string * JsVal))
    (s : Session) (trace : list Event) (s' : Session) : Prop :=
| Waits :
    waitingForReady init s' ->
    resolved (promises s') = resolved (promises s) ->
    posted s' = posted s ->
    Handshake cfg o init s trace s'
| Ready before ev env after :
    trace = (before ++ Message ev env :: after)%list ->
    guarded o "PASSKEY_READY" ev ->
    waitingForReady init (run cfg o s before) ->
    handshakeOver s' ->
    resolved (promises s') = (resolved (promises s) ++ [VBool true])%list ->
    posted s' = (if dialogAttached (dom (run cfg o s before))
                 then (posted s ++ [initPayload init])%list else posted s) ->
    Handshake cfg o init s trace s'
| Cancels :
    handshakeOver s' ->
    resolved (promises s') = (resolved (promises s) ++ [VBool false])%list ->
    posted s' = posted s ->
    Handshake cfg o init s trace s'.

End Dialog.

(* ===================================================================== *)
(** * Intent pipeline: [sendIntent] and [sendBatchIntent] *)
(* ===================================================================== *)

Module Intent.

Import Dialog.

(** A call as it travels through the client: the fields are whatever the
    caller supplied. *)
Record IntentCall := {
  call_to : JsVal;
  call_data : JsVal;
  call_value : JsVal;
  call_label : JsVal;
  call_sublabel : JsVal;
}.

Record IntentTokenRequest := {
  token : string;
  amount : Z;                       (* bigint *)
}.

Inductive CloseOnStatus := Claimed | Preconfirmed | Filled | Completed.

Record DeveloperSignedIntent := {
  si_developerId : JsVal;
  si_merchantId : JsVal;
  si_targetChain : JsVal;
  si_calls : option (list IntentCall);
  si_username : JsVal;
  si_accountAddress : JsVal;
  si_rest : list (string * JsVal);  (* nonce, expiresAt, signature, ... *)
}.

Record SendIntentOptions := {
  username : JsVal;
  targetChain : JsVal;
  calls : option (list IntentCall);
  tokenRequests : option (list IntentTokenRequest);
  sourceAssets : option (list string);
  sourceChainId : JsVal;
  closeOn : option CloseOnStatus;
  signedIntent : option DeveloperSignedIntent;
  waitForHash : bool;
  hashTimeoutMs : option Z;
  hashIntervalMs : option Z;
}.

Record SendIntentResult := {
  success : bool;
  intentId : string;
  status : string;
  transactionHash : option string;
  operationId : option string;
  error : JsVal;
}.

(** The body posted to the prepare endpoint. *)
Inductive RequestBody :=
| SignedBody (signed : DeveloperSignedIntent)
| DirectBody (username targetChain : JsVal) (calls : option (list IntentCall))
    (tokenRequests : option (list (string * string)))
    (sourceAssets : option (list string)) (sourceChainId : JsVal)
    (clientId : option string).

(** Outcome of [fetch] and of reading the JSON body.  [Throws] carries the
    message of the error when it is an [Error]. *)
Inductive Response (A : Type) :=
| Throws (message : option string)
| NotOk (error : option string)          (* [errorData.error] *)
| Ok (body : A).

Arguments Throws {A} message.
Arguments NotOk {A} error.
Arguments Ok {A} body.

Record ExecuteIntentResponse := {
  e_intentId : string;
  e_operationId : option string;
  e_status : string;
  e_transactionHash : option string;
  e_error : JsVal;
}.

Record StatusBody := {
  st_status : string;
  st_transactionHash : option string;
}.

(** What the environment answers during one run of [sendIntent]. *)
Record Env := {
  prepare : RequestBody -> Response JsVal;
  ready : bool;                          (* [waitForDialogReady] *)
  signing : JsVal;                       (* [waitForSigningWithRefresh] *)
  execute : Response ExecuteIntentResponse;
  polls : nat -> Response StatusBody;    (* status endpoint, by attempt *)
  clock : Z;                             (* [Date.now()] entering the hash wait *)
  hashRounds : list (Z * Response StatusBody);
                                         (* clock reading and answer per round *)
}.

(** What a run leaves behind. *)
Record Run := {
  outcome : option SendIntentResult;     (* [None]: the promise rejects *)
  storage : gmap string string;
  statuses : list (string * option string);
                                         (* [sendTransactionStatus] calls *)
}.

Definition successStatuses (c : CloseOnStatus) : list string :=
  match c with
  | Claimed => ["claimed"; "preconfirmed"; "filled"; "completed"]
  | Preconfirmed => ["preconfirmed"; "filled"; "completed"]
  | Filled => ["filled"; "completed"]
  | Completed => ["completed"]
  end.

(** [successStatuses[closeOn]?.includes(status) ?? false] with
    [closeOn = options.closeOn || "preconfirmed"]. *)
Definition meetsCloseOn (c : option CloseOnStatus) (status : string) : bool :=
  existsb (String.eqb status) (successStatuses (default Preconfirmed c)).

Definition isTerminal (status : string) : bool :=
  (status =? "failed") || (status =? "expired").

Definition failedResult (code message : string) : SendIntentResult :=
  {| success := false; intentId := ""; status := "failed";
     transactionHash := None; operationId := None;
     error := errorObject code message |}.

Definition normalizeSigned (s : DeveloperSignedIntent) : DeveloperSignedIntent :=
  {| si_developerId := si_developerId s;
     si_merchantId := or (si_merchantId s) (si_developerId s);
     si_targetChain := si_targetChain s;
     si_calls := si_calls s;
     si_username := si_username s;
     si_accountAddress := si_accountAddress s;
     si_rest := si_rest s |}.

Definition signedOf (o : SendIntentOptions) : option DeveloperSignedIntent :=
  normalizeSigned <$> signedIntent o.

Definition effectiveUsername (o : SendIntentOptions) : JsVal :=
  match signedOf o with
  | Some s => or (si_username s) (username o)
  | None => username o
  end.

Definition effectiveTargetChain (o : SendIntentOptions) : JsVal :=
  match signedOf o with
  | Some s => or (si_targetChain s) (targetChain o)
  | None => targetChain o
  end.

Definition effectiveCalls (o : SendIntentOptions) : option (list IntentCall) :=
  match signedOf o with
  | Some s => match si_calls s with Some c => Some c | None => calls o end
  | None => calls o
  end.

(** The local validation; [Some r] is an early return. *)
Definition validate (o : SendIntentOptions) : option SendIntentResult :=
  if match signedOf o with
     | Some s => negb (truthy (si_merchantId s))
     | None => false
     end
  then Some (failedResult "INVALID_OPTIONS"
               "Signed intent requires developerId (clientId)")
  else if negb (truthy (effectiveUsername o))
          && negb (truthy (match signedOf o with
                           | Some s => si_accountAddress s
                           | None => VUndefined
                           end))
  then Some (failedResult "INVALID_OPTIONS"
               "Either username, accountAddress, or signedIntent with user identifier is required")
  else if negb (truthy (effectiveTargetChain o))
          || match effectiveCalls o with
             | Some (_ :: _) => false
             | _ => true
             end
  then Some (failedResult "INVALID_OPTIONS"
               "targetChain and calls are required (either directly or via signedIntent)")
  else None.

Definition serializeTokenRequests (o : SendIntentOptions)
    : option (list (string * string)) :=
  map (fun r => (token r, showZ (amount r))) <$> tokenRequests o.

Definition requestBody (cfg : Config) (o : SendIntentOptions) : RequestBody :=
  match signedOf o with
  | Some s => SignedBody s
  | None =>
      DirectBody (username o) (targetChain o) (calls o)
        (serializeTokenRequests o) (sourceAssets o) (sourceChainId o)
        (if truthyS (clientId cfg) then clientId cfg else None)
  end.

(** ** Status polling inside [sendIntent] *)

Record Polled := {
  finalStatus : string;
  finalTxHash : option string;
  lastStatus : string;
  sent : list (string * option string);
}.

(** The [for] loop: [fuel] attempts remain, [attempt] is the loop counter. *)
Fixpoint pollLoop (c : option CloseOnStatus) (polls : nat -> Response StatusBody)
    (fuel attempt : nat) (p : Polled) : Polled :=
  match fuel with
  | O => p
  | S fuel' =>
      match polls attempt with
      | Ok body =>
          let changed := negb (st_status body =? lastStatus p) in
          let p' :=
            {| finalStatus := st_status body;
               finalTxHash := st_transactionHash body;
               lastStatus := if changed then st_status body else lastStatus p;
               sent := if changed
                       then sent p ++ [(st_status body, st_transactionHash body)]
                       else sent p |} in
          if isTerminal (st_status body) || meetsCloseOn c (st_status body)
          then p'
          else pollLoop c polls fuel' (S attempt) p'
      | _ => pollLoop c polls fuel' (S attempt) p
      end
  end.

Definition maxAttempts : nat := 120.

(** Step 6: the status observed when polling ends. *)
Definition pollPhase (o : SendIntentOptions) (env : Env)
    (exec : ExecuteIntentResponse) : Polled :=
  if e_status exec =? "pending" then
    pollLoop (closeOn o) (polls env) maxAttempts 0
      {| finalStatus := e_status exec;
         finalTxHash := e_transactionHash exec;
         lastStatus := "pending";
         sent := [("pending", None)] |}
  else
    {| finalStatus := e_status exec;
       finalTxHash := e_transactionHash exec;
       lastStatus := "pending";
       sent := [] |}.

(** ** Status poller: [waitForTransactionHash] *)

(** Each round reads the clock, then the status endpoint.  The rounds the
    environment supplies end with the deadline passing. *)
Fixpoint hashLoop (deadline : Z) (rounds : list (Z * Response StatusBody))
    : option string :=
  match rounds with
  | [] => None
  | (now, answer) :: rest =>
      if (now <? deadline)%Z then
        match answer with
        | Ok body =>
            if truthyS (st_transactionHash body) then st_transactionHash body
            else if isTerminal (st_status body) then None
            else hashLoop deadline rest
        | _ => hashLoop deadline rest
        end
      else None
  end.

Definition waitForTransactionHash (env : Env) (timeoutMs : option Z) : option string :=
  hashLoop (clock env + default 120000 timeoutMs)%Z (hashRounds env).

(** The hash wait was asked for, was needed, and came back empty. *)
Definition hashWaitFails (o : SendIntentOptions) (env : Env) (p : Polled) : bool :=
  waitForHash o && negb (truthyS (finalTxHash p))
  && negb (truthyS (waitForTransactionHash env (hashTimeoutMs o))).

(** The status shown to the user when polling is over. *)
Definition displayStatus (o : SendIntentOptions) (p : Polled) : string :=
  if meetsCloseOn (closeOn o) (finalStatus p) then "confirmed" else finalStatus p.

(** ** [sendIntent] *)

Definition returned (r : SendIntentResult) (store : gmap string string)
    (posts : list (string * option string)) : Run :=
  {| outcome := Some r; storage := store; statuses := posts |}.

(** [signingResult.intentId as string] *)
Definition asString (v : JsVal) : string :=
  match v with
  | VString s => s
  | _ => ""
  end.

(** Step 5: the intent id comes from the dialog, or from the execute
    endpoint.  [inl] is an early return after the dialog was closed. *)
Definition executeStage (env : Env)
    : (SendIntentResult + ExecuteIntentResponse) * list (string * option string) :=
  if truthy (get (signing env) "intentId") then
    (inr {| e_intentId := asString (get (signing env) "intentId");
            e_operationId := None;
            e_status := "pending";
            e_transactionHash := None;
            e_error := VUndefined |}, [])
  else
    match execute env with
    | NotOk err =>
        (inl (failedResult "EXECUTE_FAILED" (orS err "Failed to execute intent")),
         [("failed", None)])
    | Throws m =>
        (inl (failedResult "NETWORK_ERROR" (default "Network error" m)),
         [("failed", None)])
    | Ok body => (inr body, [])
    end.

(** Steps 7 and 8: final status to the dialog, the wait for the dialog to
    close, the optional hash wait and the result. *)
Definition finish (o : SendIntentOptions) (env : Env)
    (exec : ExecuteIntentResponse) (p : Polled)
    : SendIntentResult * list (string * option string) :=
  let isSuccessStatus := meetsCloseOn (closeOn o) (finalStatus p) in
  let displayStatus := if isSuccessStatus then "confirmed" else finalStatus p in
  let posts := (sent p ++ [(displayStatus, finalTxHash p)])%list in
  if waitForHash o && negb (truthyS (finalTxHash p)) then
    let hash := waitForTransactionHash env (hashTimeoutMs o) in
    if truthyS hash then
      ({| success := isSuccessStatus;
          intentId := e_intentId exec;
          status := "completed";
          transactionHash := hash;
          operationId := e_operationId exec;
          error := e_error exec |}, posts)
    else
      ({| success := false;
          intentId := e_intentId exec;
          status := "failed";
          transactionHash := finalTxHash p;
          operationId := e_operationId exec;
          error := errorObject "HASH_TIMEOUT" "Timed out waiting for transaction hash" |},
       posts)
  else
    ({| success := isSuccessStatus;
        intentId := e_intentId exec;
        status := finalStatus p;
        transactionHash := finalTxHash p;
        operationId := e_operationId exec;
        error := e_error exec |}, posts).

Section WithUrl.

Variable urlOrigin : string -> option string.

(** The run up to the end of step 5: an early result, a rejection when
    [createModalDialog] throws, or the execute response to poll from. *)
Inductive Stage :=
| Early (r : Run)
| Polling (exec : ExecuteIntentResponse) (posts : list (string * option string)).

Definition beforePolling (cfg : Config) (env : Env)
    (store : gmap string string) (o : SendIntentOptions) : Stage :=
  match validate o with
  | Some r => Early (returned r store [])
  | None =>
      match prepare env (requestBody cfg o) with
      | NotOk err =>
          let errorMessage := orS err "Failed to prepare intent" in
          let store' :=
            if includes errorMessage "User not found"
            then delete "1auth-user" store else store in
          Early (returned
                   (failedResult
                      (if includes errorMessage "User not found"
                       then "USER_NOT_FOUND" else "PREPARE_FAILED")
                      errorMessage)
                   store' [])
      | Throws m =>
          Early (returned (failedResult "NETWORK_ERROR" (default "Network error" m))
                   store [])
      | Ok prepareResponse =>
          match urlOrigin (getDialogUrl cfg) with
          | None => Early {| outcome := None; storage := store; statuses := [] |}
          | Some _ =>
              if negb (ready env) then
                Early (returned (failedResult "USER_CANCELLED" "User closed the dialog")
                         store [])
              else if negb (truthy (get (signing env) "success")) then
                Early (returned
                         {| success := false; intentId := ""; status := "failed";
                            transactionHash := None; operationId := None;
                            error := get (signing env) "error" |}
                         store [])
              else
                match executeStage env with
                | (inl r, posts) => Early (returned r store posts)
                | (inr exec, posts) => Polling exec posts
                end
          end
      end
  end.

Definition sendIntent (cfg : Config) (env : Env) (store : gmap string string)
    (o : SendIntentOptions) : Run :=
  match beforePolling cfg env store o with
  | Early r => r
  | Polling exec posts =>
      let (r, posts') := finish o env exec (pollPhase o env exec) in
      returned r store (posts ++ posts')%list
  end.

(** The remote status observed when polling ended, for the runs that got
    that far. *)
Definition observedStatus (cfg : Config) (env : Env)
    (store : gmap string string) (o : SendIntentOptions) : option string :=
  match beforePolling cfg env store o with
  | Early _ => None
  | Polling exec _ => Some (finalStatus (pollPhase o env exec))
  end.

(** ** [sendBatchIntent] *)

Record BatchIntent := {
  bi_targetChain : JsVal;
  bi_calls : option (list IntentCall);
  bi_tokenRequests : option (list IntentTokenRequest);
}.

Record SendBatchIntentOptions := {
  b_username : JsVal;
  intents : option (list BatchIntent);
}.

Record BatchEnv := {
  batchPrepare : Response JsVal;
  batchReady : bool;
  batchMessage : JsVal;       (* the message that ends the signing wait *)
}.

Record BatchRun := {
  batchOutcome : option SendBatchIntentResult;
  batchStorage : gmap string string;
}.

(** What the listener of step 4 resolves with on its last message; [None]
    when it throws or the message is of another kind. *)
Definition batchSigned (message : JsVal) : option SendBatchIntentResult :=
  if isStr (get message "type") "PASSKEY_SIGNING_RESULT" then
    if truthy (get message "success")
       && truthy (get (get message "data") "batchResults") then
      match get (get message "data") "batchResults" with
      | VArray rawResults => Some (aggregateBatch rawResults)
      | _ => None
      end
    else Some emptyBatch
  else if isStr (get message "type") "PASSKEY_CLOSE" then Some emptyBatch
  else None.

Definition sendBatchIntent (cfg : Config) (env : BatchEnv)
    (store : gmap string string) (o : SendBatchIntentOptions) : BatchRun :=
  let empty st := {| batchOutcome := Some emptyBatch; batchStorage := st |} in
  if negb (truthy (b_username o)) then empty store
  else if match intents o with Some (_ :: _) => false | _ => true end then empty store
  else
    match batchPrepare env with
    | NotOk err =>
        let errorMessage := orS err "Failed to prepare batch intent" in
        empty (if includes errorMessage "User not found"
               then delete "1auth-user" store else store)
    | Throws _ => empty store
    | Ok prepareResponse =>
        match urlOrigin (getDialogUrl cfg) with
        | None => {| batchOutcome := None; batchStorage := store |}
        | Some _ =>
            if negb (batchReady env) then empty store
            else {| batchOutcome := batchSigned (batchMessage env);
                    batchStorage := store |}
        end
    end.

End WithUrl.

End Intent.

(* ===================================================================== *)
(** * EIP-1193 provider: [createOneAuthProvider] *)
(* ===================================================================== *)

Module Provider.

Import Dialog Intent.

Definition DEFAULT_STORAGE_KEY : string := "1auth-user".

Record StoredUser := {
  su_username : JsVal;
  su_address : JsVal;
}.

(** The argument of a custom intent signer. *)
Record SignerRequest := {
  sr_username : JsVal;
  sr_accountAddress : JsVal;
  sr_targetChain : JsVal;
  sr_calls : list IntentCall;
}.

Record ProviderOptions := {
  opt_chainId : JsNumber;
  opt_storageKey : option string;
  opt_waitForHash : option bool;
  opt_hashTimeoutMs : option Z;
  opt_hashIntervalMs : option Z;
  opt_signIntent : option (SignerRequest -> DeveloperSignedIntent);
}.

(** The client the provider drives, by the results of its calls. *)
Record Client := {
  client_sendIntent : SendIntentOptions -> SendIntentResult;
  client_connectWithModal : JsVal;
  client_authWithModal : JsVal;
  client_accountLookup : JsVal -> Response JsVal;   (* GET .../account *)
}.

Inductive ClientCall :=
| CallConnectWithModal
| CallAuthWithModal
| CallAccountLookup (username : JsVal)
| CallSignIntent (request : SignerRequest)
| CallSendIntent (options : SendIntentOptions).

Record State := {
  chainId : JsNumber;
  storage : gmap string string;
  emitted : list (string * list JsVal);    (* [emit(event, ...args)] *)
  clientCalls : list ClientCall;
}.

(** A request settles with a value or rejects with an [Error]. *)
Inductive Result (A : Type) :=
| Value (a : A)
| Rejects (message : string).

Arguments Value {A} a.
Arguments Rejects {A} message.

Definition M (A : Type) : Type := State -> Result A * State.

Definition ret {A} (a : A) : M A := fun st => (Value a, st).

Definition throw {A} (message : string) : M A := fun st => (Rejects message, st).

Definition bind {A B} (m : M A) (k : A -> M B) : M B :=
  fun st =>
    match m st with
    | (Value a, st') => k a st'
    | (Rejects e, st') => (Rejects e, st')
    end.

Notation "x <- m ;; k" := (bind m (fun x => k))
  (at level 100, m at next level, right associativity).

Definition call (c : ClientCall) : M unit :=
  fun st =>
    (Value tt,
     {| chainId := chainId st; storage := storage st; emitted := emitted st;
        clientCalls := (clientCalls st ++ [c])%list |}).

Definition emit (event : string) (args : list JsVal) : M unit :=
  fun st =>
    (Value tt,
     {| chainId := chainId st; storage := storage st;
        emitted := (emitted st ++ [(event, args)])%list;
        clientCalls := clientCalls st |}).

Definition updateStorage (f : gmap string string -> gmap string string) : M unit :=
  fun st =>
    (Value tt,
     {| chainId := chainId st; storage := f (storage st); emitted := emitted st;
        clientCalls := clientCalls st |}).

Definition readState : M State := fun st => (Value st, st).

(** viem's [numberToHex] on a number: it throws below 0, above
    [Number.MAX_SAFE_INTEGER] and on [NaN]. *)
Definition numberToHex (n : JsNumber) : option string :=
  match n with
  | Int z =>
      if (0 <=? z)%Z && (z <=? 9007199254740991)%Z
      then Some ("0x" ++ HexadecimalString.NilZero.string_of_uint
                           (N.to_hex_uint (Z.to_N z)))
      else None
  | NaN => None
  end.

Section WithPlatform.

(** [JSON.parse], [Number.parseInt(_, 16)], [Number(_)] with the values
    that are not finite mapped to [NaN], and [BigInt(_)]; [None] when the
    call throws. *)
Variable JSON_parse : string -> option JsVal.
Variable parseInt16 : string -> JsNumber.
Variable toNumber : string -> JsNumber.
Variable toBigInt : string -> option Z.

Variable options : ProviderOptions.
Variable client : Client.

Definition storageKey : string := orS (opt_storageKey options) DEFAULT_STORAGE_KEY.

Definition getStoredUser (store : gmap string string) : option StoredUser :=
  match store !! storageKey with
  | None => None
  | Some raw =>
      if raw =? "" then None
      else
        match JSON_parse raw with
        | None => None
        | Some parsed =>
            if negb (truthy (get parsed "username"))
               || negb (truthy (get parsed "address"))
            then None
            else Some {| su_username := get parsed "username";
                         su_address := get parsed "address" |}
        end
  end.

Definition storedUserText (u : StoredUser) : string :=
  match stringifyVal (VObject [("username", su_username u);
                               ("address", su_address u)]) with
  | SText t => t
  | _ => ""
  end.

Definition setStoredUser (u : StoredUser) : M unit :=
  updateStorage (insert storageKey (storedUserText u)).

Definition clearStoredUser : M unit := updateStorage (delete storageKey).

Definition messageOr (error : JsVal) (fallback : string) : string :=
  match or (get error "message") (VString fallback) with
  | VString m => m
  | _ => fallback
  end.

Definition resolveAccountAddress (username : JsVal) : M JsVal :=
  _ <- call (CallAccountLookup username) ;;
  match client_accountLookup client username with
  | Ok body => ret (get body "address")
  | NotOk err => throw (orS err "Failed to resolve account address")
  | Throws m => throw (default "fetch failed" m)
  end.

Definition connect : M (list JsVal) :=
  st <- readState ;;
  match getStoredUser (storage st) with
  | Some stored => ret [su_address stored]
  | None =>
      _ <- call CallConnectWithModal ;;
      let connectResult := client_connectWithModal client in
      username <-
        (if truthy (get connectResult "success")
            && truthy (get connectResult "username")
         then ret (get connectResult "username")
         else if isStr (get connectResult "action") "switch" then
           _ <- call CallAuthWithModal ;;
           let authResult := client_authWithModal client in
           if negb (truthy (get authResult "success"))
              || negb (truthy (get authResult "username"))
           then throw (messageOr (get authResult "error") "Authentication failed")
           else ret (get authResult "username")
         else throw (messageOr (get connectResult "error") "Connection cancelled")) ;;
      address <- resolveAccountAddress username ;;
      _ <- setStoredUser {| su_username := username; su_address := address |} ;;
      _ <- emit "accountsChanged" [VArray [address]] ;;
      st' <- readState ;;
      match numberToHex (chainId st') with
      | None => throw "numberToHex"
      | Some hex =>
          _ <- emit "connect" [VObject [("chainId", VString hex)]] ;;
          ret [address]
      end
  end.

Definition disconnect : M unit :=
  _ <- clearStoredUser ;;
  _ <- emit "accountsChanged" [VArray []] ;;
  emit "disconnect" [].

Definition ensureUser : M StoredUser :=
  st <- readState ;;
  match getStoredUser (storage st) with
  | Some stored => ret stored
  | None =>
      addresses <- connect ;;
      st' <- readState ;;
      let username :=
        match getStoredUser (storage st') with
        | Some u => su_username u
        | None => VUndefined
        end in
      let address := hd VUndefined addresses in
      if negb (truthy username) || negb (truthy address)
      then throw "Failed to resolve user session"
      else ret {| su_username := username; su_address := address |}
  end.

Definition parseChainId (value : JsVal) : option JsNumber :=
  match value with
  | VNumber n => Some n
  | VString v =>
      if startsWith v "0x" then Some (parseInt16 v)
      else match toNumber v with
           | NaN => None
           | parsed => Some parsed
           end
  | _ => None
  end.

Definition normalizeValue (value : JsVal) : option string :=
  match value with
  | VUndefined | VNull => None
  | VBigInt z => Some (showZ z)
  | VNumber n => Some (showNumber n)       (* [Math.trunc] of an integer *)
  | VString v =>
      if startsWith v "0x" then
        match toBigInt v with
        | Some z => Some (showZ z)
        | None => Some "0"
        end
      else Some v
  | _ => None
  end.

(** One element of [calls.map(...)]; [None] when reading [c.to] throws. *)
Definition normalizeCall (c : JsVal) : option IntentCall :=
  match c with
  | VUndefined | VNull => None
  | _ =>
      Some {| call_to := get c "to";
              call_data := or (get c "data") (VString "0x");
              call_value := VString (orS (normalizeValue (get c "value")) "0");
              call_label := get c "label";
              call_sublabel := get c "sublabel" |}
  end.

Fixpoint normalizeCalls (calls : list JsVal) : option (list IntentCall) :=
  match calls with
  | [] => Some []
  | c :: rest =>
      match normalizeCall c, normalizeCalls rest with
      | Some x, Some xs => Some (x :: xs)
      | _, _ => None
      end
  end.

Definition waitForHashOption : bool := default true (opt_waitForHash options).

(** The options handed to [client.sendIntent]. *)
Definition intentOptions (username targetChain : JsVal) (calls : list IntentCall)
    (signed : option DeveloperSignedIntent) : SendIntentOptions :=
  {| username := match signed with Some _ => VUndefined | None => username end;
     targetChain := match signed with Some _ => VUndefined | None => targetChain end;
     calls := match signed with Some _ => None | None => Some calls end;
     tokenRequests := None;
     sourceAssets := None;
     sourceChainId := VUndefined;
     closeOn := Some (if waitForHashOption then Completed else Preconfirmed);
     signedIntent := signed;
     waitForHash := waitForHashOption;
     hashTimeoutMs := opt_hashTimeoutMs options;
     hashIntervalMs := opt_hashIntervalMs options |}.

(** The options the provider builds for a direct (unsigned) intent. *)
Definition directOptions (username : JsVal) (chain : Z) (calls : list IntentCall)
    : SendIntentOptions :=
  intentOptions username (VNumber (Int chain)) calls None.

(** The provider's [sendIntent] helper, [resolveIntentPayload] included. *)
Definition sendIntent (user : StoredUser) (targetChain : JsVal)
    (calls : list IntentCall) : M JsVal :=
  signed <-
    match opt_signIntent options with
    | None => ret None
    | Some signer =>
        let request :=
          {| sr_username := su_username user;
             sr_accountAddress := su_address user;
             sr_targetChain := targetChain;
             sr_calls := calls |} in
        _ <- call (CallSignIntent request) ;;
        ret (Some (signer request))
    end ;;
  let o := intentOptions (su_username user) targetChain calls signed in
  _ <- call (CallSendIntent o) ;;
  let result := client_sendIntent client o in
  if negb (success result)
  then throw (messageOr (error result) "Transaction failed")
  else
    (* Return intentId as callsId for EIP-5792 compatibility *)
    ret (VString (intentId result)).

Definition paramList (params : JsVal) : list JsVal :=
  match params with
  | VArray items => items
  | _ => []
  end.

Definition targetChainOf (value : JsVal) : M JsVal :=
  st <- readState ;;
  ret (VNumber (default (chainId st) (parseChainId value))).

(** [request({ method, params })] for the account and transaction methods;
    the signing, capability, asset, status and history methods are not
    part of this model. *)
Definition request (method : string) (params : JsVal) : M JsVal :=
  if method =? "eth_accounts" then
    st <- readState ;;
    ret (match getStoredUser (storage st) with
         | Some stored => VArray [su_address stored]
         | None => VArray []
         end)
  else if (method =? "eth_requestAccounts") || (method =? "wallet_connect") then
    accounts <- connect ;;
    ret (VArray accounts)
  else if method =? "wallet_disconnect" then
    _ <- disconnect ;;
    ret (VBool true)
  else if method =? "eth_sendTransaction" then
    let tx := or (hd VUndefined (paramList params)) (VObject []) in
    user <- ensureUser ;;
    targetChain <- targetChainOf (get tx "chainId") ;;
    match normalizeCalls [tx] with
    | None => throw "TypeError"
    | Some calls => sendIntent user targetChain calls
    end
  else if method =? "wallet_sendCalls" then
    let payload := or (hd VUndefined (paramList params)) (VObject []) in
    user <- ensureUser ;;
    targetChain <- targetChainOf (get payload "chainId") ;;
    match or (get payload "calls") (VArray []) with
    | VArray rawCalls =>
        match normalizeCalls rawCalls with
        | None => throw "TypeError"
        | Some [] => throw "No calls provided"
        | Some calls => sendIntent user targetChain calls
        end
    | _ => throw "TypeError"
    end
  else throw ("Unsupported method: " ++ method).

End WithPlatform.

Definition initialState (options : ProviderOptions)
    (store : gmap string string) : State :=
  {| chainId := opt_chainId options; storage := store; emitted := [];
     clientCalls := [] |}.

End Provider.

(* ===================================================================== *)
(** * Sample inputs *)
(* ===================================================================== *)

Module Samples.

Import Signer.

(** Sample inputs: the same intent written with checksummed and with
    lower-case addresses, and with defaulted fields left out. *)
Definition mixedCall : IntentCall :=
  {| to := "0xAbCdEf0000000000000000000000000000000001";
     data := Some "0xA9059CBB"; value := None; label := None;
     sublabel := Some "" |}.

Definition plainCall : IntentCall :=
  {| to := "0xabcdef0000000000000000000000000000000001";
     data := Some "0xa9059cbb"; value := Some "0"; label := Some "";
     sublabel := None |}.

Definition mixedParams : SignIntentParams :=
  {| p_username := None;
     p_accountAddress := Some "0xFFee000000000000000000000000000000000002";
     p_targetChain := Int 8453; p_calls := [mixedCall];
     p_tokenRequests := None |}.

Definition plainParams : SignIntentParams :=
  {| p_username := None;
     p_accountAddress := Some "0xffee000000000000000000000000000000000002";
     p_targetChain := Int 8453; p_calls := [plainCall];
     p_tokenRequests := None |}.

Definition sampleConfig : DeveloperConfig :=
  {| developerId := Some "app"; cfg_merchantId := None;
     privateKey := "key"; expiryMs := None |}.

(** A page configured with the default provider, and the origin of its
    dialog URL. *)
Definition pageConfig : Dialog.Config :=
  Dialog.normalizeConfig None None (Some "demo-app").

Definition sampleUrlOrigin (u : string) : option string :=
  if startsWith u "https://passkey.1auth.box"
  then Some "https://passkey.1auth.box" else None.

Definition sampleStorage : gmap string string :=
  {[ "1auth-user" := "alice-record" ]}.

Definition signingUrl : string :=
  "https://passkey.1auth.box/dialog/sign?mode=iframe".

Definition messageOf (from type : string) : Dialog.MessageEvent :=
  {| Dialog.origin := from;
     Dialog.data := VObject [("type", VString type)] |}.

(** The signing dialog just opened, and the same with the ready
    handshake listening. *)
Definition openedSession : Dialog.Session :=
  default (Dialog.pageSession sampleStorage)
    (Dialog.createModalDialog sampleUrlOrigin pageConfig signingUrl sampleStorage).

Definition waitingSession : Dialog.Session :=
  Dialog.waitForDialogReady [("mode", VString "iframe")] openedSession.

Definition quietEnv : Dialog.Env :=
  {| Dialog.refreshed := None; Dialog.refetch := Dialog.FetchThrows;
     Dialog.opens := true |}.

(** ** Intents *)

Definition aliceAddress : string := "0x1111111111111111111111111111111111111111".

Definition transferCall : Intent.IntentCall :=
  {| Intent.call_to := VString aliceAddress; Intent.call_data := VString "0x";
     Intent.call_value := VString "2"; Intent.call_label := VUndefined;
     Intent.call_sublabel := VUndefined |}.

Definition aliceIntent (c : option Intent.CloseOnStatus) (wait : bool)
    : Intent.SendIntentOptions :=
  {| Intent.username := VString "alice";
     Intent.targetChain := VNumber (Int 8453);
     Intent.calls := Some [transferCall];
     Intent.tokenRequests := None; Intent.sourceAssets := None;
     Intent.sourceChainId := VUndefined;
     Intent.closeOn := c; Intent.signedIntent := None;
     Intent.waitForHash := wait;
     Intent.hashTimeoutMs := None; Intent.hashIntervalMs := None |}.

(** The dialog executed the intent itself and handed back its id. *)
Definition dialogExecuted : JsVal :=
  VObject [("success", VBool true); ("intentId", VString "intent-1")].

Definition remote (status : string) (hash : option string)
    : Intent.Response Intent.StatusBody :=
  Intent.Ok {| Intent.st_status := status; Intent.st_transactionHash := hash |}.

(** A run in which the user signs, the status endpoint keeps giving one
    answer, and the hash wait gets the given rounds. *)
Definition envWith (prepared : Intent.Response JsVal)
    (answer : Intent.Response Intent.StatusBody)
    (rounds : list (Z * Intent.Response Intent.StatusBody)) : Intent.Env :=
  {| Intent.prepare := fun _ => prepared; Intent.ready := true;
     Intent.signing := dialogExecuted; Intent.execute := Intent.Throws None;
     Intent.polls := fun _ => answer; Intent.clock := 0;
     Intent.hashRounds := rounds |}.

Definition prepared : Intent.Response JsVal := Intent.Ok (VObject []).

Definition aliceBatch (username : string) : Intent.SendBatchIntentOptions :=
  {| Intent.b_username := VString username;
     Intent.intents :=
       Some [{| Intent.bi_targetChain := VNumber (Int 8453);
                Intent.bi_calls := Some [transferCall];
                Intent.bi_tokenRequests := None |}] |}.

Definition batchEnvWith (message : JsVal) : Intent.BatchEnv :=
  {| Intent.batchPrepare := prepared; Intent.batchReady := true;
     Intent.batchMessage := message |}.

(** ** Provider *)

Definition storedAlice (address : string) : JsVal :=
  VObject [("username", VString "alice"); ("address", VString address)].

Definition sendCallsParams (chain : Z) (to : string) (value : Z) : JsVal :=
  VArray [VObject [("chainId", VNumber (Int chain));
                   ("calls", VArray [VObject [("to", VString to);
                                              ("value", VNumber (Int value))]])]].

Definition normalizedCall (to : string) (value : Z) : Intent.IntentCall :=
  {| Intent.call_to := VString to; Intent.call_data := VString "0x";
     Intent.call_value := VString (showZ value);
     Intent.call_label := VUndefined; Intent.call_sublabel := VUndefined |}.

(** The text [setStoredUser] writes for alice, and a [JSON.parse] that
    reads it back. *)
Definition aliceRecord : string :=
  Provider.storedUserText
    {| Provider.su_username := VString "alice";
       Provider.su_address := VString aliceAddress |}.

Definition sampleParse (raw : string) : option JsVal :=
  if raw =? aliceRecord then Some (storedAlice aliceAddress) else None.

Definition providerOptions (key : option string) : Provider.ProviderOptions :=
  {| Provider.opt_chainId := Int 8453; Provider.opt_storageKey := key;
     Provider.opt_waitForHash := None; Provider.opt_hashTimeoutMs := None;
     Provider.opt_hashIntervalMs := None; Provider.opt_signIntent := None |}.

(** A client whose [sendIntent] settles with an intent id and a hash. *)
Definition settledResult : Intent.SendIntentResult :=
  {| Intent.success := true; Intent.intentId := "intent-1";
     Intent.status := "completed"; Intent.transactionHash := Some "0xabc";
     Intent.operationId := None; Intent.error := VUndefined |}.

Definition sampleClient : Provider.Client :=
  {| Provider.client_sendIntent := fun _ => settledResult;
     Provider.client_connectWithModal := VUndefined;
     Provider.client_authWithModal := VUndefined;
     Provider.client_accountLookup := fun _ => Intent.Throws None |}.

Definition aliceStore (key : string) : gmap string string :=
  {[ key := aliceRecord ]}.

(** ** Results and states the sample runs end in *)

Definition failedWithHash : Intent.SendIntentResult :=
  {| Intent.success := false; Intent.intentId := "intent-1";
     Intent.status := "failed"; Intent.transactionHash := Some "0xdead";
     Intent.operationId := None; Intent.error := VUndefined |}.

Definition pendingExec : Intent.ExecuteIntentResponse :=
  {| Intent.e_intentId := "intent-1"; Intent.e_operationId := None;
     Intent.e_status := "pending"; Intent.e_transactionHash := None;
     Intent.e_error := VUndefined |}.

(** A batch of two, the second of which the dialog reports as failed. *)
Definition mixedBatchResults : list JsVal :=
  [ VObject [("index", VNumber (Int 0)); ("intentId", VString "intent-a");
             ("status", VString "PENDING")];
    VObject [("index", VNumber (Int 1)); ("status", VString "FAILED");
             ("error", VString "simulation reverted")] ].

Definition batchResultMessage : JsVal :=
  VObject [("type", VString "PASSKEY_SIGNING_RESULT"); ("success", VBool true);
           ("data", VObject [("batchResults", VArray mixedBatchResults)])].

Definition closeMessage : JsVal := VObject [("type", VString "PASSKEY_CLOSE")].

End Samples.

(* ===================================================================== *)
(** * Runs of the dialog session: events, quiet pages, answers *)
(* ===================================================================== *)

Module DialogTraces.

Import Dialog.

(** An event that is not a [message] on [window]: a key, a click, or a
    [close] event of the dialog. *)
Definition isMessage (e : Event) : bool :=
  match e with
  | Message _ _ => true
  | _ => false
  end.

(** What a run can do to a page as seen from [s]: listeners and the dialog
    only go away, nothing is posted once the frame is detached, and the
    stored user is touched only through the host listener. *)
Record quiet (s s' : Session) : Prop := {
  q_host : hostListener (dom s') = true -> hostListener (dom s) = true;
  q_escape : escapeListener (dom s') = true -> escapeListener (dom s) = true;
  q_open : dialogOpen (dom s') = true -> dialogOpen (dom s) = true;
  q_attached : dialogAttached (dom s') = true -> dialogAttached (dom s) = true;
  q_posted : dialogAttached (dom s) = false -> posted s' = posted s;
  q_storage : hostListener (dom s) = false -> localStorage s' = localStorage s;
}.

(** The waiters that watch a popup: besides their message listener they
    set an interval timer that settles them once the popup is closed. *)
Definition watchesPopup (w : Waiter) : bool :=
  match w with
  | PopupAuth | PopupSigning _ => true
  | _ => false
  end.

(** The waiters of the modal dialog that take a [PASSKEY_CLOSE] message as
    the user cancelling. *)
Definition cancelsOnClose (w : Waiter) : bool :=
  match w with
  | IntentSigning _ | Signing | SigningWithRefresh | BatchSigning
  | ModalAuth | Authenticate | Connect | ModalSigning _ => true
  | _ => false
  end.

(** The answer [waitForSigningWithRefresh] posts to a refresh request. *)
Definition refreshAnswer (refreshed : option (list (string * JsVal))) : JsVal :=
  match refreshed with
  | Some fields =>
      VObject (spread [("type", VString "PASSKEY_REFRESH_COMPLETE")] fields)
  | None =>
      VObject [("type", VString "PASSKEY_REFRESH_ERROR");
               ("error", VString "Failed to refresh quote")]
  end.

Definition deliver (m : MessageEvent * Env) : Event := Message (fst m) (snd m).

(** ** Quote refresh, with the calls of [onRefresh] in flight

    [handleMessage] of [waitForSigningWithRefresh] is an [async] function:
    on a refresh request it calls [onRefresh()] and returns to the event
    loop; it posts its answer when that call settles, which may be after
    later messages, in any order among several calls, or never.  A page
    is followed here together with the number of calls in flight. *)

Record Refreshing := {
  page : Session;
  inFlight : nat;
}.

Inductive RefreshEvent :=
| Delivered (ev : MessageEvent) (env : Env)
                                  (* a [message] event reaches [window] *)
| Settles (refreshed : option (list (string * JsVal)))
                                  (* a call in flight resolves, [None] for [null] *)
| Fails.                          (* a call in flight rejects *)

(** What [step] does on a message, except that a refresh request only
    starts a call; a settling call posts its answer to the frame if the
    frame still has a window, whether or not the waiter still listens. *)
Definition refreshStep (cfg : Config) (dialogOrigin : string) (r : Refreshing)
    (e : RefreshEvent) : Refreshing :=
  match e with
  | Delivered ev env =>
      let s1 := if hostListener (dom (page r)) then hostHandleMessage (page r) ev
                else page r in
      match waiter (waiting s1) with
      | Some SigningWithRefresh =>
          if (origin ev =? dialogOrigin)
             && isStr (get (data ev) "type") "PASSKEY_REFRESH_QUOTE"
          then {| page := s1; inFlight := S (inFlight r) |}
          else {| page := step cfg dialogOrigin (page r) (Message ev env);
                  inFlight := inFlight r |}
      | _ => {| page := step cfg dialogOrigin (page r) (Message ev env);
                inFlight := inFlight r |}
      end
  | Settles refreshed =>
      match inFlight r with
      | O => r
      | S n => {| page := post (refreshAnswer refreshed) (page r); inFlight := n |}
      end
  | Fails =>
      match inFlight r with
      | O => r
      | S n => {| page := page r; inFlight := n |}
      end
  end.

Definition refreshRun (cfg : Config) (dialogOrigin : string) (s : Session)
    (trace : list RefreshEvent) : Refreshing :=
  fold_left (refreshStep cfg dialogOrigin) trace {| page := s; inFlight := 0 |}.

(** Every message of the trace is a refresh request of the dialog. *)
Definition refreshRequest (dialogOrigin : string) (e : RefreshEvent) : Prop :=
  match e with
  | Delivered ev _ => guarded dialogOrigin "PASSKEY_REFRESH_QUOTE" ev
  | _ => True
  end.

Fixpoint requests (trace : list RefreshEvent) : nat :=
  match trace with
  | [] => 0
  | Delivered _ _ :: rest => S (requests rest)
  | _ :: rest => requests rest
  end.

(** The answers of the calls that resolved while in flight, by the time
    each resolved; [n] calls are in flight at the start. *)
Fixpoint answers (n : nat) (trace : list RefreshEvent) : list JsVal :=
  match trace with
  | [] => []
  | Delivered _ _ :: rest => answers (S n) rest
  | Settles refreshed :: rest =>
      match n with
      | O => answers O rest
      | S m => refreshAnswer refreshed :: answers m rest
      end
  | Fails :: rest => answers (pred n) rest
  end.

End DialogTraces.

(* ===================================================================== *)
(** * Runs of the intent pipeline: status updates and rounds *)
(* ===================================================================== *)

Module IntentTraces.

Import Dialog Intent.

(** No entry of the list equals the one just before it. *)
Fixpoint distinctNeighbours (l : list string) : bool :=
  match l with
  | a :: (b :: _) as rest => negb (a =? b) && distinctNeighbours rest
  | _ => true
  end.


(** A round of the hash wait that lets the loop go on: read before the
    deadline, with no hash and no terminal status in it. *)
Definition inconclusive (deadline : Z) (round : Z * Response StatusBody) : Prop :=
  (fst round < deadline)%Z /\
  match snd round with
  | Ok body => truthyS (st_transactionHash body) = false /\
               isTerminal (st_status body) = false
  | _ => True
  end.

(** What the polling loop keeps true of its variables: the last status
    sent is [lastStatus], and no status was sent twice in a row. *)
Definition tracked (p : Polled) : Prop :=
  exists l, map fst (sent p) = (l ++ [lastStatus p])%list /\
            distinctNeighbours (l ++ [lastStatus p]) = true.

End IntentTraces.

(* ===================================================================== *)
(** * String conversion of values read from JSON *)
(* ===================================================================== *)

Module Coercions.

(** [String(v)], as template literals, property keys and [RegExp.test]
    apply it, for values that come out of [JSON.parse]; [None] when the
    conversion throws a [TypeError].  An array joins its elements with
    commas ([null] and [undefined] print as nothing).  A plain object
    prints through [Object.prototype.toString]; one that carries a
    [toString] member of its own, which JSON cannot make callable, has no
    primitive value. *)
Fixpoint toStringJs (v : JsVal) : option string :=
  match v with
  | VUndefined => Some "undefined"
  | VNull => Some "null"
  | VBool true => Some "true"
  | VBool false => Some "false"
  | VNumber n => Some (showNumber n)
  | VBigInt z => Some (showZ z)
  | VString s => Some s
  | VArray items =>
      let fix parts (l : list JsVal) : option (list string) :=
        match l with
        | [] => Some []
        | x :: rest =>
            match match x with
                  | VUndefined | VNull => Some ""
                  | _ => toStringJs x
                  end, parts rest with
            | Some s, Some ps => Some (s :: ps)
            | _, _ => None
            end
        end in
      match parts items with
      | Some ps => Some (joinComma ps)
      | None => None
      end
  | VObject fields =>
      if hasKey "toString" fields then None else Some "[object Object]"
  end.

(** The names every object inherits from [Object.prototype]. *)
Definition objectPrototypeKeys : list string :=
  [ "constructor"; "__defineGetter__"; "__defineSetter__"; "hasOwnProperty";
    "__lookupGetter__"; "__lookupSetter__"; "isPrototypeOf";
    "propertyIsEnumerable"; "toString"; "valueOf"; "__proto__";
    "toLocaleString" ].

Definition inList (s : string) (l : list string) : bool := existsb (String.eqb s) l.

End Coercions.

(* ===================================================================== *)
(** * EIP-1193 provider: chain, status, capability and listener methods *)
(* ===================================================================== *)

Module Rpc.

Import Dialog Intent Provider Coercions.

(** The cases of [request] that [Provider.request] leaves out, and the
    provider as the page runs it: its listener registry, [emit] calling
    the listeners one after the other, and [connect], [disconnect] and
    the chain switch with the listeners and the awaited client calls as
    code that runs on the page. *)

(** ** The page of a provider

    The provider calls code it does not own: the listeners registered
    with [on] run synchronously inside [emit], and the calls of the
    client are awaited.  Either may update anything the page holds - the
    storage, the registry (through [on] and [removeListener]), the chain
    (through a nested request) - and a listener may throw.  Both are
    parameters below, acting on the whole page. *)

(** A listener function is known by its identity, a number.  A [Set] of
    listeners is the list of its entries in insertion order, with a hole
    where an entry was deleted: iterating a [Set] walks that list by
    index, skips the holes and reaches the entries added meanwhile. *)
Fixpoint members (entries : list (option nat)) : list nat :=
  match entries with
  | [] => []
  | Some l :: rest => l :: members rest
  | None :: rest => members rest
  end.

Definition member (l : nat) (set : list nat) : bool :=
  existsb (Nat.eqb l) set.

(** [set.add(l)] *)
Definition setAdd (l : nat) (entries : list (option nat)) : list (option nat) :=
  if member l (members entries) then entries else (entries ++ [Some l])%list.

(** [set.delete(l)] *)
Definition setDelete (l : nat) (entries : list (option nat))
    : list (option nat) :=
  map (fun e => match e with
                | Some x => if (x =? l)%nat then None else Some x
                | None => None
                end) entries.

Record Page := {
  chain : JsNumber;                       (* [let chainId] *)
  stored : gmap string string;            (* [localStorage] *)
  listeners : gmap string nat;            (* the [Map]: an event to its [Set],
                                             a [Set] by its address *)
  sets : gmap nat (list (option nat));    (* the [Set]s *)
  allocated : nat;                        (* [Set]s created so far *)
  called : list (nat * list JsVal);       (* the listener calls [emit] made *)
}.

Definition withChain (n : JsNumber) (p : Page) : Page :=
  {| chain := n; stored := stored p; listeners := listeners p; sets := sets p;
     allocated := allocated p; called := called p |}.

Definition withStored (f : gmap string string -> gmap string string) (p : Page)
    : Page :=
  {| chain := chain p; stored := f (stored p); listeners := listeners p;
     sets := sets p; allocated := allocated p; called := called p |}.

Definition withSet (a : nat) (entries : list (option nat)) (p : Page) : Page :=
  {| chain := chain p; stored := stored p; listeners := listeners p;
     sets := <[a := entries]> (sets p); allocated := allocated p;
     called := called p |}.

Definition logCalls (more : list (nat * list JsVal)) (p : Page) : Page :=
  {| chain := chain p; stored := stored p; listeners := listeners p;
     sets := sets p; allocated := allocated p;
     called := (called p ++ more)%list |}.

(** The page of a provider just created. *)
Definition newPage (options : ProviderOptions) (store : gmap string string)
    : Page :=
  {| chain := opt_chainId options; stored := store; listeners := empty;
     sets := empty; allocated := 0; called := [] |}.

(** The entries of the [Set] at an address, and [listeners.get(event)]:
    the entries of the event's [Set] and its members. *)
Definition entriesAt (a : nat) (p : Page) : list (option nat) :=
  default [] (sets p !! a).

Definition entriesOf (event : string) (p : Page) : list (option nat) :=
  match listeners p !! event with
  | Some a => entriesAt a p
  | None => []
  end.

Definition listenersOf (event : string) (p : Page) : list nat :=
  members (entriesOf event p).


(** ** [on], [removeListener] *)

Definition on (event : string) (listener : nat) (p : Page) : Page :=
  match listeners p !! event with
  | Some a => withSet a (setAdd listener (entriesAt a p)) p
  | None =>
      (* [new Set()], [set.add(listener)], [listeners.set(event, set)] *)
      {| chain := chain p; stored := stored p;
         listeners := <[event := allocated p]> (listeners p);
         sets := <[allocated p := [Some listener]]> (sets p);
         allocated := S (allocated p); called := called p |}
  end.

Definition removeListener (event : string) (listener : nat) (p : Page) : Page :=
  match listeners p !! event with
  | None => p
  | Some a =>
      let entries := setDelete listener (entriesAt a p) in
      let p1 := withSet a entries p in
      if (length (members entries) =? 0)%nat
      then {| chain := chain p1; stored := stored p1;
              listeners := delete event (listeners p1);
              sets := sets p1; allocated := allocated p1; called := called p1 |}
      else p1
  end.

Inductive Subscription :=
| On (event : string) (listener : nat)
| Off (event : string) (listener : nat).

Definition applyOp (p : Page) (op : Subscription) : Page :=
  match op with
  | On event listener => on event listener p
  | Off event listener => removeListener event listener p
  end.

(** The page of a new provider after the given calls of [on] and
    [removeListener]. *)
Definition pageAfter (options : ProviderOptions) (store : gmap string string)
    (ops : list Subscription) : Page :=
  fold_left applyOp ops (newPage options store).


(** ** Runs of the provider

    A run ends resolved or rejected, in the page it leaves; [None] is a
    run cut short by [fuel], the bound on the steps of [emit]'s loop
    (listeners that keep adding listeners keep it going). *)
Definition Task (A : Type) : Type := Page -> option (Result A * Page).

Definition settle {A} (a : A) : Task A := fun p => Some (Value a, p).

Definition throwError {A} (message : string) : Task A :=
  fun p => Some (Rejects message, p).

Definition andThen {A B} (m : Task A) (k : A -> Task B) : Task B :=
  fun p =>
    match m p with
    | Some (Value a, p') => k a p'
    | Some (Rejects e, p') => Some (Rejects e, p')
    | None => None
    end.

Notation "x <~ m ;; k" := (andThen m (fun x => k))
  (at level 100, m at next level, right associativity).

Definition thePage : Task Page := fun p => Some (Value p, p).

Definition update (f : Page -> Page) : Task unit := fun p => Some (Value tt, f p).

(** [await call]: the run goes on in the page the call leaves. *)
Definition await {A} (call : Page -> Result A * Page) : Task A :=
  fun p => Some (call p).

(** [const [param] = (params as any[]) || []]: the first thing [params]
    iterates to; [None] when [params] is truthy and not iterable. *)
Definition firstParam (params : JsVal) : option JsVal :=
  if truthy params then
    match params with
    | VArray items => Some (hd VUndefined items)
    | VString (String c _) => Some (VString (String c EmptyString))
    | _ => None
    end
  else Some VUndefined.

Definition falsyNumber (n : option JsNumber) : bool :=
  match n with
  | Some (Int z) => (z =? 0)%Z
  | _ => true
  end.

Section WithPlatform.

Variable JSON_parse : string -> option JsVal.
Variable parseInt16 : string -> JsNumber.
Variable toNumber : string -> JsNumber.
Variable options : ProviderOptions.

(** What calling a listener does: it returns or throws, in the page it
    leaves. *)
Variable listener : nat -> list JsVal -> Page -> Result unit * Page.

(** The awaited calls of the client: [client.connectWithModal()],
    [client.authWithModal()] and the account request of
    [resolveAccountAddress], each with the page at the time the provider
    resumes. *)
Variable connectWithModal : Page -> Result JsVal * Page.
Variable authWithModal : Page -> Result JsVal * Page.
Variable accountLookup : JsVal -> Page -> Response JsVal * Page.

(** ** [emit] *)

(** [for (const listener of set) listener(...args)] from entry [index]
    on, on the [Set] at address [set]. *)
Fixpoint emitLoop (fuel : nat) (set index : nat) (args : list JsVal) (p : Page)
    : option (Result unit * Page) :=
  match fuel with
  | O => None
  | S fuel' =>
      match entriesAt set p !! index with
      | None => Some (Value tt, p)
      | Some None => emitLoop fuel' set (S index) args p
      | Some (Some l) =>
          match listener l args (logCalls [(l, args)] p) with
          | (Value _, p') => emitLoop fuel' set (S index) args p'
          | (Rejects e, p') => Some (Rejects e, p')
          end
      end
  end.

Definition emit (fuel : nat) (event : string) (args : list JsVal) : Task unit :=
  fun p =>
    match listeners p !! event with
    | None => Some (Value tt, p)
    | Some set => emitLoop fuel set 0 args p
    end.

(** ** [wallet_switchEthereumChain] and [eth_chainId] *)

(** The [wallet_switchEthereumChain] case of [request]. *)
Definition switchEthereumChain (fuel : nat) (params : JsVal) : Task JsVal :=
  match firstParam params with
  | None => throwError "TypeError"
  | Some param =>
      let next := parseChainId parseInt16 toNumber
                    (nullish (get param "chainId") param) in
      if falsyNumber next then throwError "Invalid chainId"
      else
        _ <~ update (withChain (default NaN next)) ;;
        p <~ thePage ;;
        match numberToHex (chain p) with
        | None => throwError "numberToHex"
        | Some hex =>
            _ <~ emit fuel "chainChanged" [VString hex] ;;
            settle VNull
        end
  end.

(** The [eth_chainId] case. *)
Definition ethChainId : Task JsVal :=
  p <~ thePage ;;
  match numberToHex (chain p) with
  | None => throwError "numberToHex"
  | Some hex => settle (VString hex)
  end.

(** ** [connect], [disconnect] and [eth_accounts] *)

(** [localStorage.setItem(storageKey, JSON.stringify(user))] *)
Definition setStoredUser (u : StoredUser) : Task unit :=
  match stringifyVal (VObject [("username", su_username u);
                               ("address", su_address u)]) with
  | SText text => update (withStored (insert (storageKey options) text))
  | _ => throwError "TypeError"
  end.

Definition clearStoredUser : Task unit :=
  update (withStored (delete (storageKey options))).

Definition resolveAccountAddress (username : JsVal) : Task JsVal :=
  answer <~ await (fun p => (Value (fst (accountLookup username p)),
                            snd (accountLookup username p))) ;;
  match answer with
  | Ok VUndefined | Ok VNull => throwError "TypeError"
  | Ok body => settle (get body "address")
  | NotOk err => throwError (orS err "Failed to resolve account address")
  | Throws m => throwError (default "fetch failed" m)
  end.

(** The first part of [connect] when there is no Stored User: the
    username the modals give and the address looked up for it. *)
Definition signIn : Task (JsVal * JsVal) :=
  connectResult <~ await connectWithModal ;;
  username <~
    match connectResult with
    | VUndefined | VNull => throwError "TypeError"
    | _ =>
        if truthy (get connectResult "success")
           && truthy (get connectResult "username")
        then settle (get connectResult "username")
        else if isStr (get connectResult "action") "switch" then
          authResult <~ await authWithModal ;;
          match authResult with
          | VUndefined | VNull => throwError "TypeError"
          | _ =>
              if negb (truthy (get authResult "success"))
                 || negb (truthy (get authResult "username"))
              then throwError (messageOr (get authResult "error")
                                 "Authentication failed")
              else settle (get authResult "username")
          end
        else throwError (messageOr (get connectResult "error")
                           "Connection cancelled")
    end ;;
  address <~ resolveAccountAddress username ;;
  settle (username, address).

Definition connect (fuel : nat) : Task (list JsVal) :=
  p <~ thePage ;;
  match getStoredUser JSON_parse options (stored p) with
  | Some user => settle [su_address user]
  | None =>
      user <~ signIn ;;
      _ <~ setStoredUser {| su_username := fst user; su_address := snd user |} ;;
      _ <~ emit fuel "accountsChanged" [VArray [snd user]] ;;
      p' <~ thePage ;;
      match numberToHex (chain p') with
      | None => throwError "numberToHex"
      | Some hex =>
          _ <~ emit fuel "connect" [VObject [("chainId", VString hex)]] ;;
          settle [snd user]
      end
  end.

Definition disconnect (fuel : nat) : Task unit :=
  _ <~ clearStoredUser ;;
  _ <~ emit fuel "accountsChanged" [VArray []] ;;
  emit fuel "disconnect" [].

(** The [eth_accounts] case. *)
Definition ethAccounts : Task JsVal :=
  p <~ thePage ;;
  settle (match getStoredUser JSON_parse options (stored p) with
        | Some user => VArray [su_address user]
        | None => VArray []
        end).

End WithPlatform.

(** A listener that returns and leaves the page as it found it, apart
    from the record of its call. *)
Definition inert (listener : nat -> list JsVal -> Page -> Result unit * Page)
    (l : nat) : Prop :=
  forall args p, listener l args p = (Value tt, p).

(** ** [wallet_getCallsStatus] *)

(** What reading [statusMap[key]] gives. *)
Inductive Looked :=
| Own (value : string)        (* a key of the literal *)
| Inherited                   (* a member of [Object.prototype] *)
| Missing.

Definition statusMap (key : string) : Looked :=
  if inList key ["pending"; "preconfirmed"] then Own "PENDING"
  else if inList key ["completed"; "failed"; "expired"] then Own "CONFIRMED"
  else if inList key objectPrototypeKeys then Inherited
  else Missing.

(** The [status] of the answer: a string of the map, or the inherited
    member the lookup ran into. *)
Inductive CallsStatus :=
| Status (s : string)
| Member (name : string).

Record Receipt := {
  rc_logs : list JsVal;
  rc_status : string;
  rc_blockHash : JsVal;
  rc_blockNumber : JsVal;
  rc_transactionHash : JsVal;
}.

Record CallsStatusResult := {
  cs_status : CallsStatus;
  cs_receipts : list Receipt;
}.

(** The answer built from the body of the status endpoint; [None] when
    building it throws. *)
Definition callsStatusOf (data : JsVal) : option CallsStatusResult :=
  match data with
  | VNull | VUndefined => None
  | _ =>
      match toStringJs (get data "status") with
      | None => None
      | Some key =>
          Some {| cs_status :=
                    match statusMap key with
                    | Own s => Status s
                    | Inherited => Member key
                    | Missing => Status "PENDING"
                    end;
                  cs_receipts :=
                    if truthy (get data "transactionHash") then
                      [{| rc_logs := [];
                          rc_status := if isStr (get data "status") "completed"
                                       then "0x1" else "0x0";
                          rc_blockHash := get data "blockHash";
                          rc_blockNumber := get data "blockNumber";
                          rc_transactionHash := get data "transactionHash" |}]
                    else [] |}
      end
  end.

(** The [wallet_getCallsStatus] case; [lookup] is the status endpoint. *)
Definition getCallsStatus (lookup : JsVal -> Response JsVal) (params : JsVal)
    : string + CallsStatusResult :=
  let callsId := hd VUndefined (paramList params) in
  if negb (truthy callsId) then inl "callsId is required"
  else
    match lookup callsId with
    | Throws m => inl (default "fetch failed" m)
    | NotOk err => inl (orS err "Failed to get calls status")
    | Ok data =>
        match callsStatusOf data with
        | Some r => inr r
        | None => inl "TypeError"
        end
    end.

(** ** [wallet_getCapabilities] *)

Definition hexOfChain (n : N) : string :=
  "0x" ++ HexadecimalString.NilZero.string_of_uint (N.to_hex_uint n).

(** [requestedChains && !requestedChains.includes(hexChainId)] negated:
    whether the chain is kept; [None] when [includes] is not a
    function. *)
Definition requestedChain (requestedChains : JsVal) (hex : string) : option bool :=
  if truthy requestedChains then
    match requestedChains with
    | VArray items => Some (existsb (fun v => isStr v hex) items)
    | VString s => Some (includes s hex)
    | _ => None
    end
  else Some true.

(** [capabilities[key] = ...]: a new key goes last, a known key keeps its
    place. *)
Definition assign (key : string) (capabilities : list string) : list string :=
  if inList key capabilities then capabilities else (capabilities ++ [key])%list.

(** The keys of the object the case returns (each maps to the same
    capability record); [None] when the loop throws. *)
Fixpoint capabilityKeys (requestedChains : JsVal) (chainIds : list N)
    (capabilities : list string) : option (list string) :=
  match chainIds with
  | [] => Some capabilities
  | chainId :: rest =>
      match requestedChain requestedChains (hexOfChain chainId) with
      | None => None
      | Some true =>
          capabilityKeys requestedChains rest (assign (hexOfChain chainId) capabilities)
      | Some false => capabilityKeys requestedChains rest capabilities
      end
  end.

Definition getCapabilities (supported : list N) (params : JsVal)
    : option (list string) :=
  capabilityKeys (nth 1 (paramList params) VUndefined) supported [].

End Rpc.

(* ===================================================================== *)
(** * Wallet client helpers: [encodeWebAuthnSignature] *)
(* ===================================================================== *)

Module Wallet.

(** The order of the P-256 curve. *)
Definition P256_N : Z :=
  0xFFFFFFFF00000000FFFFFFFFFFFFFFFFBCE6FAADA7179E84F3B9CAC2FC632551.

(** [P256_N / 2n]: division of big integers truncates. *)
Definition P256_N_DIV_2 : Z := Z.quot P256_N 2.

Record WebAuthnSignature := {
  authenticatorData : string;
  clientDataJSON : string;
  challengeIndex : JsNumber;
  typeIndex : JsNumber;
  r : string;
  s : string;
}.

(** The [WebAuthnAuth] tuple handed to the ABI encoder. *)
Record WebAuthnAuth := {
  a_authenticatorData : string;
  a_clientDataJSON : string;
  a_challengeIndex : Z;
  a_typeIndex : Z;
  a_r : Z;
  a_s : Z;
}.

(** [BigInt(n)] of a number: a [RangeError] when it is not an integer. *)
Definition bigIntOfNumber (n : JsNumber) : option Z :=
  match n with
  | Int z => Some z
  | NaN => None
  end.

Section WithViem.

(** [BigInt(text)], and viem's [encodeAbiParameters] for the
    [WebAuthnAuth] tuple; [None] when a call throws. *)
Variable toBigInt : string -> option Z.
Variable encodeAuth : WebAuthnAuth -> option string.

(** The signature with [s] brought to the lower half of the curve order. *)
Definition normalizedAuth (sig : WebAuthnSignature) : option WebAuthnAuth :=
  match toBigInt (s sig) with
  | None => None
  | Some s0 =>
      let s1 := if (s0 >? P256_N_DIV_2)%Z then (P256_N - s0)%Z else s0 in
      match bigIntOfNumber (challengeIndex sig),
            bigIntOfNumber (typeIndex sig), toBigInt (r sig) with
      | Some ci, Some ti, Some r0 =>
          Some {| a_authenticatorData := authenticatorData sig;
                  a_clientDataJSON := clientDataJSON sig;
                  a_challengeIndex := ci; a_typeIndex := ti;
                  a_r := r0; a_s := s1 |}
      | _, _, _ => None
      end
  end.

Definition encodeWebAuthnSignature (sig : WebAuthnSignature) : option string :=
  match normalizedAuth sig with
  | Some auth => encodeAuth auth
  | None => None
  end.

End WithViem.

End Wallet.

(* ===================================================================== *)
(** * Server-side intent signer: the HTTP handler *)
(* ===================================================================== *)

Module Handler.

Import Coercions.

(** The handler reads its request as JSON, so what reaches [signIntent]
    through it is not typed: the definitions below follow
    [createCanonicalMessage] and [signIntent] on arbitrary values.  A
    [None] is a thrown [TypeError]. *)

(** [v.toLowerCase()] *)
Definition lowerCased (v : JsVal) : option JsVal :=
  match v with
  | VString s => Some (VString (toLowerCase s))
  | _ => None
  end.

(** One element of [data.calls.map(...)]. *)
Definition canonicalCall (c : JsVal) : option JsVal :=
  match c with
  | VUndefined | VNull => None
  | _ =>
      match lowerCased (get c "to"),
            lowerCased (or (get c "data") (VString "0x")) with
      | Some to, Some data =>
          Some (VObject [ ("to", to); ("data", data);
                          ("value", or (get c "value") (VString "0"));
                          ("label", or (get c "label") (VString ""));
                          ("sublabel", or (get c "sublabel") (VString "")) ])
      | _, _ => None
      end
  end.

Fixpoint canonicalCalls (calls : list JsVal) : option (list JsVal) :=
  match calls with
  | [] => Some []
  | c :: rest =>
      match canonicalCall c, canonicalCalls rest with
      | Some x, Some xs => Some (x :: xs)
      | _, _ => None
      end
  end.

(** [data.accountAddress?.toLowerCase()] *)
Definition lowerCasedOptional (v : JsVal) : option JsVal :=
  match v with
  | VUndefined | VNull => Some VUndefined
  | _ => lowerCased v
  end.

(** [createCanonicalMessage] on the fields of [intentData]; the calls are
    an array here. *)
Definition createCanonicalMessage (merchantId : string) (targetChain : JsVal)
    (calls : list JsVal) (username accountAddress : JsVal) (nonce : string)
    (expiresAt : Z) : option string :=
  match canonicalCalls calls, lowerCasedOptional accountAddress with
  | Some cs, Some address =>
      match stringifyVal
              (VObject [ ("merchantId", VString merchantId);
                         ("targetChain", targetChain);
                         ("calls", VArray cs);
                         ("username", username);
                         ("accountAddress", address);
                         ("nonce", VString nonce);
                         ("expiresAt", VNumber (Int expiresAt)) ]) with
      | SText message => Some message
      | _ => None
      end
  | _, _ => None
  end.

(** The [SignedIntent] object [signIntent] returns. *)
Definition signedIntent (developerId : string) (targetChain : JsVal)
    (calls : list JsVal) (username accountAddress : JsVal) (nonce : string)
    (expiresAt : Z) (signature : string) (tokenRequests : JsVal) : JsVal :=
  VObject [ ("merchantId", VString developerId);
            ("targetChain", targetChain);
            ("calls", VArray calls);
            ("username", username);
            ("accountAddress", accountAddress);
            ("nonce", VString nonce);
            ("expiresAt", VNumber (Int expiresAt));
            ("signature", VString signature);
            ("developerId", VString developerId);
            ("tokenRequests", tokenRequests) ].

(** [/^0x[a-fA-F0-9]{40}$/.test(s)] *)
Definition isHexDigit (c : ascii) : bool :=
  let n := N_of_ascii c in
  (((48 <=? n) && (n <=? 57)) || ((65 <=? n) && (n <=? 70))
   || ((97 <=? n) && (n <=? 102)))%N.

Fixpoint allHex (s : string) : bool :=
  match s with
  | EmptyString => true
  | String c rest => isHexDigit c && allHex rest
  end.

Definition isAddress (s : string) : bool :=
  match s with
  | String "0" (String "x" digits) => (String.length digits =? 40)%nat && allHex digits
  | _ => false
  end.

(** A response: the status and the JSON body. *)
Definition HttpResponse : Type := nat * JsVal.

Definition errorResponse (status : nat) (message : string) : HttpResponse :=
  (status, VObject [("error", VString message)]).

(** The loop over the calls: [Some] is the response it returns early. *)
Fixpoint checkCalls (calls : list JsVal) : option HttpResponse :=
  match calls with
  | [] => None
  | call :: rest =>
      match call with
      | VUndefined | VNull => Some (errorResponse 500 "Failed to sign intent")
      | _ =>
          if negb (truthy (get call "to"))
          then Some (errorResponse 400 "Each call must have a valid 'to' address")
          else
            match toStringJs (get call "to") with
            | None => Some (errorResponse 500 "Failed to sign intent")
            | Some text =>
                if isAddress text then checkCalls rest
                else Some (errorResponse 400 "Each call must have a valid 'to' address")
            end
      end
  end.

Section WithCrypto.

(** [signMessage(message, privateKey)]; [None] when [crypto.sign]
    throws. *)
Variable signMessage : string -> string -> option string.

(** [signIntent] as the handler calls it: [calls] is a non-empty array by
    then, and [config.developerId] is set.  [inl] is the message of the
    error thrown. *)
Definition signIntent (developerId privateKey : string) (expiryMs : option Z)
    (username accountAddress targetChain : JsVal) (calls : list JsVal)
    (tokenRequests : JsVal) (uuid : string) (now : Z) : string + JsVal :=
  if (developerId =? "") || (privateKey =? "") then
    inl "Missing developerId (clientId) or privateKey in config"
  else if negb (truthy username) && negb (truthy accountAddress) then
    inl "Either username or accountAddress is required"
  else if negb (truthy targetChain) || (length calls =? 0)%nat then
    inl "targetChain and calls are required"
  else
    let expiresAt := (now + default (5 * 60 * 1000) expiryMs)%Z in
    match createCanonicalMessage developerId targetChain calls username
            accountAddress uuid expiresAt with
    | None => inl "TypeError"
    | Some message =>
        match signMessage message privateKey with
        | None => inl "crypto.sign"
        | Some signature =>
            inr (signedIntent developerId targetChain calls username
                   accountAddress uuid expiresAt signature tokenRequests)
        end
    end.

(** The handler [createSignIntentHandler(config)] returns.  [body] is
    what [request.json()] gave, [None] when it threw; [uuid] and [now]
    are the draws of [crypto.randomUUID()] and [Date.now()]. *)
Definition handler (config : Signer.DeveloperConfig) (body : option JsVal)
    (uuid : string) (now : Z) : HttpResponse :=
  let developerId :=
    orS (Signer.developerId config) (default "" (Signer.cfg_merchantId config)) in
  if (developerId =? "") || (Signer.privateKey config =? "") then
    errorResponse 500 "Server misconfiguration: missing developer credentials"
  else
    match body with
    | None | Some VUndefined | Some VNull => errorResponse 500 "Failed to sign intent"
    | Some body =>
        let targetChain := get body "targetChain" in
        let calls := get body "calls" in
        let username := get body "username" in
        let accountAddress := get body "accountAddress" in
        if negb (truthy targetChain)
           || negb (match targetChain with VNumber _ => true | _ => false end)
        then errorResponse 400 "targetChain is required and must be a number"
        else
          match calls with
          | VArray (first :: others) =>
              if negb (truthy username) && negb (truthy accountAddress)
              then errorResponse 400 "Either username or accountAddress is required"
              else
                match checkCalls (first :: others) with
                | Some response => response
                | None =>
                    match signIntent developerId (Signer.privateKey config)
                            (Signer.expiryMs config) username accountAddress
                            targetChain (first :: others)
                            (get body "tokenRequests") uuid now with
                    | inr intent => (200, intent)
                    | inl _ => errorResponse 500 "Failed to sign intent"
                    end
                end
          | _ => errorResponse 400 "calls is required and must be a non-empty array"
          end
    end.

End WithCrypto.

(** A typed call and typed parameters as the values they are. *)
Definition callVal (c : Signer.IntentCall) : JsVal :=
  VObject [ ("to", VString (Signer.to c));
            ("data", Signer.optString (Signer.data c));
            ("value", Signer.optString (Signer.value c));
            ("label", Signer.optString (Signer.label c));
            ("sublabel", Signer.optString (Signer.sublabel c)) ].

Definition tokenRequestVal (r : string * string) : JsVal :=
  VObject [("token", VString (fst r)); ("amount", VString (snd r))].

Definition tokenRequestsVal (rs : option (list (string * string))) : JsVal :=
  match rs with
  | Some l => VArray (map tokenRequestVal l)
  | None => VUndefined
  end.

(** The JSON body a typed client posts for [params]. *)
Definition requestVal (p : Signer.SignIntentParams) : JsVal :=
  VObject [ ("targetChain", VNumber (Signer.p_targetChain p));
            ("calls", VArray (map callVal (Signer.p_calls p)));
            ("username", Signer.optString (Signer.p_username p));
            ("accountAddress", Signer.optString (Signer.p_accountAddress p));
            ("tokenRequests", tokenRequestsVal (Signer.p_tokenRequests p)) ].

(** A typed [SignedIntent] as the JSON object the handler answers with. *)
Definition intentVal (i : Signer.SignedIntent) : JsVal :=
  VObject [ ("merchantId", VString (Signer.si_merchantId i));
            ("targetChain", VNumber (Signer.si_targetChain i));
            ("calls", VArray (map callVal (Signer.si_calls i)));
            ("username", Signer.optString (Signer.si_username i));
            ("accountAddress", Signer.optString (Signer.si_accountAddress i));
            ("nonce", VString (Signer.si_nonce i));
            ("expiresAt", VNumber (Signer.si_expiresAt i));
            ("signature", VString (Signer.si_signature i));
            ("developerId", VString (Signer.si_developerId i));
            ("tokenRequests", tokenRequestsVal (Signer.si_tokenRequests i)) ].

End Handler.

(* ===================================================================== *)
(** * Message hashes: [hashMessage], [verifyMessageHash] *)
(* ===================================================================== *)

Module Verify.

(** ["\x19Ethereum Signed Message:\n"] *)
Definition ETHEREUM_MESSAGE_PREFIX : string :=
  String (ascii_of_N 25)
    ("Ethereum Signed Message:" ++ String (ascii_of_N 10) EmptyString).

Section WithViem.

(** viem's [keccak256(toBytes(text))], printed as [0x] and hex digits. *)
Variable keccak256 : string -> string.

Definition hashMessage (message : string) : string :=
  keccak256 (ETHEREUM_MESSAGE_PREFIX
             ++ showZ (Z.of_nat (String.length message)) ++ message).

Definition verifyMessageHash (message : string) (signedHash : option string)
    : bool :=
  if negb (truthyS signedHash) then false
  else toLowerCase (hashMessage message) =? toLowerCase (default "" signedHash).

End WithViem.

End Verify.

(* ===================================================================== *)
(** * The redirect flow: [handleRedirectCallback], [fetchSigningResult] *)
(* ===================================================================== *)

Module Redirect.

Import Dialog Intent Coercions.

(** [new URLSearchParams(window.location.search).get(name)] on the
    decoded pairs of the query, in order: the first value under the name,
    [null] when there is none. *)
Fixpoint searchParam (query : list (string * string)) (name : string)
    : option string :=
  match query with
  | [] => None
  | (k, v) :: rest => if k =? name then Some v else searchParam rest name
  end.

(** [fetchSigningResult(requestId)], given what the signing-request
    endpoint answers ([Throws]: [fetch] or [response.json()] throws).
    [None]: the promise rejects. *)
Definition fetchSigningResult (answer : Response JsVal) (requestId : string)
    : option JsVal :=
  match answer with
  | Throws _ => None
  | NotOk _ =>
      Some (failureFor requestId
              (errorObject "NETWORK_ERROR" "Failed to fetch signing result"))
  | Ok VUndefined | Ok VNull => None       (* [data.status] of no object *)
  | Ok data =>
      if isStr (get data "status") "COMPLETED" && truthy (get data "signature")
      then Some (VObject [("success", VBool true);
                          ("requestId", VString requestId);
                          ("signature", get data "signature")])
      else
        let errorCode := or (get (get data "error") "code") (VString "UNKNOWN") in
        if truthy (get (get data "error") "message") then
          Some (failureFor requestId
                  (VObject [("code", errorCode);
                            ("message", get (get data "error") "message")]))
        else
          match toStringJs (get data "status") with
          | Some status =>
              Some (failureFor requestId
                      (VObject [("code", errorCode);
                                ("message", VString ("Request status: " ++ status))]))
          | None => None
          end
  end.

(** [handleRedirectCallback()], on the query of the callback URL. *)
Definition handleRedirectCallback (query : list (string * string))
    (answer : Response JsVal) : option JsVal :=
  let requestId := searchParam query "request_id" in
  let status := searchParam query "status" in
  let error := searchParam query "error" in
  let errorMessage := searchParam query "error_message" in
  if truthyS error then
    Some (VObject [("success", VBool false);
                   ("requestId",
                    if truthyS requestId then VString (default "" requestId)
                    else VUndefined);
                   ("error", errorObject (default "" error)
                               (orS errorMessage "Unknown error"))])
  else if negb (truthyS requestId) then
    Some (failure (errorObject "INVALID_REQUEST"
                     "No request_id found in callback URL"))
  else if negb (match status with
                | Some s => s =? "completed"
                | None => false
                end) then
    Some (failureFor (default "" requestId)
            (errorObject "UNKNOWN"
               ("Unexpected status: " ++ default "null" status)))
  else fetchSigningResult answer (default "" requestId).

End Redirect.

(* ===================================================================== *)
(** * The chain and token registry *)
(* ===================================================================== *)

Module Registry.

Definition isLower (c : ascii) : bool :=
  ((97 <=? N_of_ascii c) && (N_of_ascii c <=? 122))%N.

Definition upperChar (c : ascii) : ascii :=
  if isLower c then ascii_of_N (N_of_ascii c - 32) else c.

(** [s.toUpperCase()] on the ASCII letters. *)
Fixpoint toUpperCase (s : string) : string :=
  match s with
  | EmptyString => EmptyString
  | String c rest => String (upperChar c) (toUpperCase rest)
  end.

Record TokenConfig := {
  symbol : string;
  address : string;
  decimals : Z;
}.

Record ChainFilterOptions := {
  includeTestnetsOption : option bool;      (* [includeTestnets] *)
  chainIdsOption : option (list JsNumber);  (* [chainIds] *)
}.

(** A call that returns, or throws; [message] is the message of what was
    thrown when that is an [Error]. *)
Inductive Attempt (A : Type) :=
| Returned (a : A)
| Thrown (message : option string).

Arguments Returned {A} a.
Arguments Thrown {A} message.

(** Equality of the keys of a [Set] or a [Map] (SameValueZero). *)
Definition sameValueZero (a b : JsNumber) : bool :=
  match a, b with
  | NaN, NaN => true
  | Int x, Int y => (x =? y)%Z
  | _, _ => false
  end.

Section WithSdk.

(** viem's chains by id ([VIEM_CHAIN_BY_ID.get]) and [isAddress]; the
    chain ids, the token table and the two lookups of [@rhinestone/sdk]. *)
Variable Chain : Type.
Variable VIEM_CHAIN_BY_ID : JsNumber -> option Chain.
Variable SUPPORTED_CHAIN_IDS : list JsNumber.
Variable isAddress : string -> bool.
Variable getSupportedTokensRaw : JsNumber -> Attempt (list TokenConfig).
Variable getTokenAddress : string -> JsNumber -> Attempt string.

Definition unsupportedChain (chainId : JsNumber) : string :=
  "Unsupported chain ID: " ++ showNumber chainId.

Definition getChainById (chainId : JsNumber) : Attempt Chain :=
  if negb (existsb (sameValueZero chainId) SUPPORTED_CHAIN_IDS) then
    Thrown (Some (unsupportedChain chainId))
  else
    match VIEM_CHAIN_BY_ID chainId with
    | None => Thrown (Some (unsupportedChain chainId))
    | Some chain => Returned chain
    end.

Definition getSupportedTokens (chainId : JsNumber) : Attempt (list TokenConfig) :=
  getSupportedTokensRaw chainId.

Definition resolveTokenAddress (token : string) (chainId : JsNumber)
    : Attempt string :=
  if isAddress token then Returned token
  else
    match getSupportedTokens chainId with
    | Thrown e => Thrown e
    | Returned tokens =>
        match find (fun t => toUpperCase (symbol t) =? toUpperCase token) tokens with
        | None => getTokenAddress token chainId
        | Some matched => Returned (address matched)
        end
    end.

Definition getTokenSymbol (tokenAddress : string) (chainId : JsNumber)
    : Attempt string :=
  match getSupportedTokens chainId with
  | Thrown e => Thrown e
  | Returned tokens =>
      match find (fun entry => toLowerCase (address entry) =? toLowerCase tokenAddress)
              tokens with
      | None =>
          Thrown (Some ("Unsupported token: " ++ tokenAddress ++ " on chain "
                        ++ showNumber chainId))
      | Some token => Returned (symbol token)
      end
  end.

Definition isTokenAddressSupported (tokenAddress : string) (chainId : JsNumber)
    : bool :=
  match getSupportedTokens chainId with
  | Thrown _ => false
  | Returned tokens =>
      existsb (fun entry => toLowerCase (address entry) =? toLowerCase tokenAddress)
        tokens
  end.

(** [chain.testnet] and the variables of [process.env] ([{}] without a
    [process]). *)
Variable testnet : Chain -> option bool.
Variable env : string -> option string.

Definition parseBool (value : option string) : option bool :=
  match value with
  | Some text =>
      if (text =? "true") || (text =? "1") then Some true
      else if (text =? "false") || (text =? "0") then Some false
      else None
  | None => None
  end.

Definition resolveIncludeTestnets (explicit : option bool) : bool :=
  match explicit with
  | Some b => b
  | None =>
      default false
        (match parseBool (env "NEXT_PUBLIC_ORCHESTRATOR_USE_TESTNETS") with
         | Some b => Some b
         | None => parseBool (env "ORCHESTRATOR_USE_TESTNETS")
         end)
  end.

Definition isTestnet (chainId : JsNumber) : bool :=
  match getChainById chainId with
  | Returned chain => default false (testnet chain)
  | Thrown _ => false
  end.

(** [options?.includeTestnets] and [options?.chainIds] *)
Definition includeTestnetsOf (options : option ChainFilterOptions) : option bool :=
  match options with
  | Some o => includeTestnetsOption o
  | None => None
  end.

Definition chainIdsOf (options : option ChainFilterOptions)
    : option (list JsNumber) :=
  match options with
  | Some o => chainIdsOption o
  | None => None
  end.

Definition applyChainFilters (chainIds : list JsNumber)
    (options : option ChainFilterOptions) : list JsNumber :=
  let includeTestnets := resolveIncludeTestnets (includeTestnetsOf options) in
  let allowlist := chainIdsOf options in
  let filtered :=
    if negb includeTestnets
    then List.filter (fun chainId => negb (isTestnet chainId)) chainIds
    else chainIds in
  match allowlist with
  | Some (first :: others) =>
      List.filter (fun chainId => existsb (sameValueZero chainId) (first :: others))
        filtered
  | _ => filtered
  end.

(** [Array.from(SUPPORTED_CHAIN_IDS)] is the members of the set in
    insertion order. *)
Definition getSupportedChainIds (options : option ChainFilterOptions)
    : list JsNumber :=
  applyChainFilters SUPPORTED_CHAIN_IDS options.

End WithSdk.

End Registry.

(* ===================================================================== *)
(** * Swaps: [sendSwap] *)
(* ===================================================================== *)

Module Swap.

Import Dialog Intent Registry.

Record SendSwapOptions := {
  sw_username : JsVal;
  sw_targetChain : JsNumber;
  fromToken : string;
  toToken : string;
  sw_amount : string;
  sw_sourceAssets : option (list string);
  sw_sourceChainId : JsVal;
  sw_closeOn : option CloseOnStatus;
  sw_waitForHash : bool;
  sw_hashTimeoutMs : option Z;
  sw_hashIntervalMs : option Z;
}.

Record SwapQuote := {
  q_fromToken : string;
  q_toToken : string;
  amountIn : string;
  amountOut : string;
  rate : string;
}.

(** [{...result, quote}] *)
Record SendSwapResult := {
  result : SendIntentResult;
  quote : option SwapQuote;
}.

Record SwapRun := {
  swapOutcome : option SendSwapResult;   (* [None]: the promise rejects *)
  swapStorage : gmap string string;
  swapStatuses : list (string * option string);
}.

(** The object [resolveToken] returns: [{ address }] or [{ error }]. *)
Record Resolution := {
  res_address : option string;
  res_error : option string;
}.

(** [KNOWN_DECIMALS[upperSymbol]]; the key is upper-cased, so that no
    name inherited from [Object.prototype] is ever read. *)
Definition KNOWN_DECIMALS (upperSymbol : string) : option Z :=
  if upperSymbol =? "ETH" then Some 18%Z
  else if upperSymbol =? "WETH" then Some 18%Z
  else if upperSymbol =? "USDC" then Some 6%Z
  else if upperSymbol =? "USDT" then Some 6%Z
  else if upperSymbol =? "USDT0" then Some 6%Z
  else None.

(** [s.slice(0, 6)] and [s.slice(-4)] *)
Definition firstSix (s : string) : string := String.substring 0 6 s.

Definition lastFour (s : string) : string :=
  String.substring (String.length s - 4) 4 s.

(** What [sendSwap] does before it calls [sendIntent]. *)
Inductive Plan :=
| Refused (code message : string)         (* returns a failed result *)
| Aborted                                 (* [parseUnits] throws *)
| Planned (fromTokenAddress toTokenAddress : string)
    (intent : SendIntentOptions).

Section WithSdk.

Variable Chain : Type.
Variable VIEM_CHAIN_BY_ID : JsNumber -> option Chain.
Variable SUPPORTED_CHAIN_IDS : list JsNumber.
Variable isAddress : string -> bool.
Variable getSupportedTokensRaw : JsNumber -> Attempt (list TokenConfig).
Variable getTokenAddress : string -> JsNumber -> Attempt string.
(** [getTokenDecimals] of [@rhinestone/sdk] and viem's [parseUnits]. *)
Variable getTokenDecimals : string -> JsNumber -> Attempt Z.
Variable parseUnits : string -> Z -> option Z.

Definition resolveToken (options : SendSwapOptions) (token label : string)
    : Resolution :=
  let unsupported :=
    "Unsupported " ++ label ++ ": " ++ token ++ " on chain "
    ++ showNumber (sw_targetChain options) in
  match resolveTokenAddress isAddress getSupportedTokensRaw getTokenAddress
          token (sw_targetChain options) with
  | Returned address =>
      if negb (isTokenAddressSupported getSupportedTokensRaw address
                 (sw_targetChain options))
      then {| res_address := None; res_error := Some unsupported |}
      else {| res_address := Some address; res_error := None |}
  | Thrown (Some message) => {| res_address := None; res_error := Some message |}
  | Thrown None => {| res_address := None; res_error := Some unsupported |}
  end.

Definition formatTokenLabel (options : SendSwapOptions) (token fallback : string)
    : string :=
  if negb (startsWith token "0x") then toUpperCase token
  else
    match getTokenSymbol getSupportedTokensRaw token (sw_targetChain options) with
    | Returned s => s
    | Thrown _ => fallback
    end.

Definition getDecimals (symbol : string) (chainId : JsNumber) : Z :=
  let upperSymbol := toUpperCase symbol in
  match getTokenDecimals upperSymbol chainId with
  | Returned decimals => decimals
  | Thrown _ => default 18%Z (KNOWN_DECIMALS upperSymbol)
  end.

(** [sendSwap] up to its call of [sendIntent].  The label and the
    decimals of [fromToken], the native-token flags and [isBridge] are
    computed between the same steps and only reach [console.log]. *)
Definition plan (options : SendSwapOptions) : Plan :=
  match getChainById Chain VIEM_CHAIN_BY_ID SUPPORTED_CHAIN_IDS
          (sw_targetChain options) with
  | Thrown _ =>
      Refused "INVALID_CHAIN"
        ("Unsupported chain: " ++ showNumber (sw_targetChain options))
  | Returned _ =>
      let fromTokenResult := resolveToken options (fromToken options) "fromToken" in
      if negb (truthyS (res_address fromTokenResult)) then
        Refused "INVALID_TOKEN"
          (orS (res_error fromTokenResult)
             ("Unknown fromToken: " ++ fromToken options))
      else
        let toTokenResult := resolveToken options (toToken options) "toToken" in
        if negb (truthyS (res_address toTokenResult)) then
          Refused "INVALID_TOKEN"
            (orS (res_error toTokenResult)
               ("Unknown toToken: " ++ toToken options))
        else
          let fromTokenAddress := default "" (res_address fromTokenResult) in
          let toTokenAddress := default "" (res_address toTokenResult) in
          let toSymbol :=
            formatTokenLabel options (toToken options)
              (firstSix (toToken options) ++ "..." ++ lastFour (toToken options)) in
          let toDecimals := getDecimals (toToken options) (sw_targetChain options) in
          match parseUnits (sw_amount options) toDecimals with
          | None => Aborted
          | Some units =>
              Planned fromTokenAddress toTokenAddress
                {| username := sw_username options;
                   targetChain := VNumber (sw_targetChain options);
                   calls :=
                     Some [{| call_to := VString toTokenAddress;
                              call_data := VUndefined;
                              call_value := VString "0";
                              call_label := VString ("Buy " ++ toSymbol);
                              call_sublabel :=
                                VString (sw_amount options ++ " " ++ toSymbol) |}];
                   tokenRequests :=
                     Some [{| token := toTokenAddress; amount := units |}];
                   sourceAssets :=
                     Some (default [toUpperCase (fromToken options)]
                             (sw_sourceAssets options));
                   sourceChainId := sw_sourceChainId options;
                   closeOn := Some (default Preconfirmed (sw_closeOn options));
                   signedIntent := None;
                   waitForHash := sw_waitForHash options;
                   hashTimeoutMs := sw_hashTimeoutMs options;
                   hashIntervalMs := sw_hashIntervalMs options |}
          end
  end.

Variable urlOrigin : string -> option string.

Definition sendSwap (cfg : Config) (env : Env) (store : gmap string string)
    (options : SendSwapOptions) : SwapRun :=
  match plan options with
  | Refused code message =>
      {| swapOutcome :=
           Some {| result := failedResult code message; quote := None |};
         swapStorage := store; swapStatuses := [] |}
  | Aborted => {| swapOutcome := None; swapStorage := store; swapStatuses := [] |}
  | Planned fromTokenAddress toTokenAddress intent =>
      let run := sendIntent urlOrigin cfg env store intent in
      {| swapOutcome :=
           (fun r =>
              {| result := r;
                 quote :=
                   if success r
                   then Some {| q_fromToken := fromTokenAddress;
                                q_toToken := toTokenAddress;
                                amountIn := sw_amount options;
                                amountOut := ""; rate := "" |}
                   else None |}) <$> outcome run;
         swapStorage := storage run;
         swapStatuses := statuses run |}
  end.

End WithSdk.

End Swap.


(* ===================================================================== *)
(** * Further sample inputs *)
(* ===================================================================== *)

Module Scenarios.

Import Wallet Registry Swap.

(** ** Signatures *)

(** A [BigInt] that reads two names for a high and a low [s]. *)
Definition sampleBigInt (text : string) : option Z :=
  if text =? "hi" then Some (P256_N - 5)%Z
  else if text =? "lo" then Some 5%Z
  else Some 1%Z.

Definition sampleEncodeAuth (auth : WebAuthnAuth) : option string :=
  Some (showZ (a_r auth) ++ ":" ++ showZ (a_s auth)).

Definition sampleSignature (sText : string) : WebAuthnSignature :=
  {| authenticatorData := "0x01"; clientDataJSON := "{}";
     challengeIndex := Int 23; typeIndex := Int 1; r := "1"; s := sText |}.

(** ** Tokens and swaps *)


Definition usdc : TokenConfig :=
  {| symbol := "USDC"; address := "0x833589fCD6eDb6E08f4c7C32D4f71b54bdA02913";
     decimals := 6 |}.

Definition ether : TokenConfig :=
  {| symbol := "ETH"; address := "0x0000000000000000000000000000000000000000";
     decimals := 18 |}.

(** A registry that knows Base and two of its tokens. *)
Definition tokensOf (chainId : JsNumber) : Attempt (list TokenConfig) :=
  if sameValueZero chainId (Int 8453) then Returned [ether; usdc]
  else Thrown (Some "Unsupported chain").

Definition chainNamed (chainId : JsNumber) : option string :=
  if sameValueZero chainId (Int 8453) then Some "Base" else None.

Definition looksLikeAddress (s : string) : bool :=
  startsWith s "0x" && (String.length s =? 42)%nat.

Definition unknownSymbol (token : string) (chainId : JsNumber) : Attempt string :=
  Thrown (Some ("Unsupported token " ++ token)).

Definition noDecimals (symbol : string) (chainId : JsNumber) : Attempt Z :=
  Thrown None.

Definition wholeUnits (amount : string) (decimals : Z) : option Z :=
  if amount =? "100" then Some (100 * 10 ^ decimals)%Z else None.

Definition swapOptions : SendSwapOptions :=
  {| sw_username := VString "alice"; sw_targetChain := Int 8453;
     fromToken := "eth"; toToken := "usdc"; sw_amount := "100";
     sw_sourceAssets := None; sw_sourceChainId := VUndefined;
     sw_closeOn := None; sw_waitForHash := false;
     sw_hashTimeoutMs := None; sw_hashIntervalMs := None |}.

(** ** Listeners and the client of the provider *)

(** A listener that returns. *)
Definition quietListener (l : nat) (args : list JsVal) (p : Rpc.Page)
    : Provider.Result unit * Rpc.Page :=
  (Provider.Value tt, p).

(** Listener [bad] throws; the others return. *)
Definition throwingListener (bad : nat) (l : nat) (args : list JsVal)
    (p : Rpc.Page) : Provider.Result unit * Rpc.Page :=
  if (l =? bad)%nat then (Provider.Rejects "listener failed", p)
  else (Provider.Value tt, p).

(** Listener 1 removes itself from [chainChanged] and adds listener 9. *)
Definition swappingListener (l : nat) (args : list JsVal) (p : Rpc.Page)
    : Provider.Result unit * Rpc.Page :=
  if (l =? 1)%nat
  then (Provider.Value tt,
        Rpc.on "chainChanged" 9 (Rpc.removeListener "chainChanged" 1 p))
  else (Provider.Value tt, p).

(** Calls of [on] and [removeListener]: listener 1 is added twice,
    listener 2 moves from [chainChanged] to [accountsChanged]. *)
Definition subscriptions : list Rpc.Subscription :=
  [Rpc.On "chainChanged" 1; Rpc.On "chainChanged" 2; Rpc.On "chainChanged" 1;
   Rpc.Off "chainChanged" 2; Rpc.On "chainChanged" 3;
   Rpc.On "accountsChanged" 2; Rpc.On "disconnect" 4; Rpc.On "connect" 5].

(** A connect modal that confirms alice, and the account request that
    gives her address; neither touches the page. *)
Definition confirmingModal (p : Rpc.Page) : Provider.Result JsVal * Rpc.Page :=
  (Provider.Value (VObject [("success", VBool true);
                            ("username", VString "alice")]), p).

Definition aliceLookup (username : JsVal) (p : Rpc.Page)
    : Intent.Response JsVal * Rpc.Page :=
  (Intent.Ok (VObject [("address", VString Samples.aliceAddress)]), p).

End Scenarios.

(* ===================================================================== *)
(** * Properties of the intent signer *)
(* ===================================================================== *)

Module SignerProofs.

Import Signer Samples.

Lemma lowerChar_sameLetter c d : sameLetter c d -> lowerChar c = lowerChar d.
Proof.
  intros [-> | [[Hc Hd] | [Hd Hc]]]; [reflexivity | |].
  - unfold lowerChar. rewrite Hc.
    assert (isUpper d = false) as ->.
    { unfold isUpper in *. rewrite Hd.
      apply andb_true_iff in Hc as [Hc%N.leb_le _].
      apply andb_false_iff. right. apply N.leb_gt. lia. }
    rewrite <- Hd. apply ascii_N_embedding.
  - unfold lowerChar. rewrite Hd.
    assert (isUpper c = false) as ->.
    { unfold isUpper in *. rewrite Hc.
      apply andb_true_iff in Hd as [Hd%N.leb_le _].
      apply andb_false_iff. right. apply N.leb_gt. lia. }
    rewrite <- Hc. symmetry. apply ascii_N_embedding.
Qed.

Lemma toLowerCase_sameModuloCase s t :
  sameModuloCase s t -> toLowerCase s = toLowerCase t.
Proof.
  induction 1 as [| c d s t Hcd _ IH]; [reflexivity |].
  cbn. f_equal; [now apply lowerChar_sameLetter | exact IH].
Qed.

Lemma sameModuloCase_empty s t :
  sameModuloCase s t -> (s =? "") = (t =? "").
Proof. destruct 1; reflexivity. Qed.

Lemma orS_some (a d : string) : orS (Some a) d = if a =? "" then d else a.
Proof. unfold orS, truthyS. destruct (a =? ""); reflexivity. Qed.

(** A field that is absent, or holds the default up to case, is filled in
    the same way as its variant. *)
Lemma orS_variant_case dflt a b :
  dflt <> "" ->
  optVariant sameModuloCase dflt a b ->
  toLowerCase (orS a dflt) = toLowerCase (orS b dflt).
Proof.
  intros Hd [| x y Hxy | y Hy | x Hx]; [reflexivity | | |].
  - rewrite !orS_some, (sameModuloCase_empty _ _ Hxy).
    destruct (y =? ""); [reflexivity | now apply toLowerCase_sameModuloCase].
  - rewrite orS_some. pose proof (sameModuloCase_empty _ _ Hy) as E.
    apply String.eqb_neq in Hd. rewrite Hd in E. rewrite <- E.
    now apply toLowerCase_sameModuloCase.
  - rewrite orS_some. pose proof (sameModuloCase_empty _ _ Hx) as E.
    apply String.eqb_neq in Hd. rewrite Hd in E. rewrite E.
    now apply toLowerCase_sameModuloCase.
Qed.

Lemma orS_variant_eq dflt a b :
  optVariant eq dflt a b -> orS a dflt = orS b dflt.
Proof.
  intros [| x y -> | y <- | x ->]; try reflexivity.
  - rewrite orS_some. unfold orS. cbn. destruct (dflt =? ""); reflexivity.
  - rewrite orS_some. unfold orS. cbn. destruct (dflt =? ""); reflexivity.
Qed.

Lemma canonicalCall_variant c d :
  callVariant c d -> canonicalCall c = canonicalCall d.
Proof.
  intros [Hto Hdata Hvalue Hlabel Hsub]. unfold canonicalCall.
  rewrite (toLowerCase_sameModuloCase _ _ Hto).
  rewrite (orS_variant_case "0x" _ _ ltac:(discriminate) Hdata).
  rewrite (orS_variant_eq _ _ _ Hvalue), (orS_variant_eq _ _ _ Hlabel),
    (orS_variant_eq _ _ _ Hsub).
  reflexivity.
Qed.

Lemma canonicalCalls_variant cs ds :
  Forall2 callVariant cs ds -> map canonicalCall cs = map canonicalCall ds.
Proof.
  induction 1 as [| c d cs ds H _ IH]; [reflexivity |].
  cbn. now rewrite (canonicalCall_variant _ _ H), IH.
Qed.

Lemma address_variant a b :
  addressVariant a b -> toLowerCase <$> a = toLowerCase <$> b.
Proof.
  intros [| x y H]; [reflexivity |]. cbn.
  now rewrite (toLowerCase_sameModuloCase _ _ H).
Qed.

Lemma address_variant_truthy a b :
  addressVariant a b -> truthyS a = truthyS b.
Proof.
  intros [| x y H]; [reflexivity |]. cbn.
  now rewrite (sameModuloCase_empty _ _ H).
Qed.

Lemma canonicalObject_variant d e :
  dataVariant d e -> canonicalObject d = canonicalObject e.
Proof.
  intros [Hm Ht Hc Hu Ha Hn He]. unfold canonicalObject.
  rewrite Hm, Ht, Hu, Hn, He, (canonicalCalls_variant _ _ Hc),
    (address_variant _ _ Ha).
  reflexivity.
Qed.

Lemma sameModuloCase_refl s : sameModuloCase s s.
Proof. induction s; constructor; [now left | assumption]. Qed.

Lemma createCanonicalMessage_variant d e :
  dataVariant d e -> createCanonicalMessage d = createCanonicalMessage e.
Proof.
  intros H. unfold createCanonicalMessage.
  now rewrite (canonicalObject_variant _ _ H).
Qed.

Lemma paramsVariant_data developer uuid expires p q :
  paramsVariant p q ->
  dataVariant (intentDataOf developer p uuid expires)
              (intentDataOf developer q uuid expires).
Proof. intros [Hu Ha Ht Hc]. now constructor. Qed.

(** The canonical message is always a text: [JSON.stringify] neither
    throws on it nor returns [undefined]. *)
Lemma createCanonicalMessage_text d : exists m, createCanonicalMessage d = SText m.
Proof.
  unfold createCanonicalMessage, canonicalObject.
  assert (exists ps,
    (fix elems (l : list JsVal) : option (list string) :=
       match l with
       | [] => Some []
       | x :: rest =>
           match stringifyVal x, elems rest with
           | SThrow, _ | _, None => None
           | SOmit, Some ps => Some ("null" :: ps)
           | SText s, Some ps => Some (s :: ps)
           end
       end) (map canonicalCall (calls d)) = Some ps) as [ps Hps].
  { induction (calls d) as [| c cs [ps IH]]; [now exists [] |].
    cbn in *. rewrite IH. eauto. }
  cbn. rewrite Hps.
  destruct (targetChain d), (username d), (accountAddress d), (expiresAt d);
    cbn; eauto.
Qed.

(** C9.  Two signing-intent parameter sets that differ only in the letter
    casing of call [to] addresses, call [data] fields or the account
    address, and in optional call fields being absent or holding their
    defaults, yield the identical canonical JSON string; [signIntent]
    therefore produces the same signature for both, and a signature
    verifies against one exactly when it verifies against the other. *)
Theorem canonical_message_ignores_casing
    (ed25519_sign : string -> string -> option string)
    (ed25519_verify : string -> string -> string -> bool)
    (p q : SignIntentParams) (config : DeveloperConfig)
    (uuid : string) (now : Z) (publicKey : string) :
  paramsVariant p q ->
  (forall developer expires,
      createCanonicalMessage (intentDataOf developer p uuid expires)
      = createCanonicalMessage (intentDataOf developer q uuid expires)) /\
  sameSignature (signIntent ed25519_sign p config uuid now)
                (signIntent ed25519_sign q config uuid now) /\
  (forall i j,
      signIntent ed25519_sign p config uuid now = inr i ->
      signIntent ed25519_sign q config uuid now = inr j ->
      verifyIntent ed25519_verify publicKey i
      = verifyIntent ed25519_verify publicKey j).
Proof.
  intros Hpq.
  assert (forall developer expires,
      createCanonicalMessage (intentDataOf developer p uuid expires)
      = createCanonicalMessage (intentDataOf developer q uuid expires)) as Hmsg.
  { intros. apply createCanonicalMessage_variant. now apply paramsVariant_data. }
  pose proof Hpq as [Hu Ha Ht Hc].
  assert (length (p_calls p) = length (p_calls q)) as Hlen
    by (clear - Hc; induction Hc; cbn; congruence).
  split; [exact Hmsg |].
  unfold signIntent. rewrite <- Hu, <- Ht, <- Hlen, <- (address_variant_truthy _ _ Ha).
  destruct (negb _ || _); [split; [reflexivity | discriminate] |].
  destruct (negb _ && _); [split; [reflexivity | discriminate] |].
  destruct (negb _ || _); [split; [reflexivity | discriminate] |].
  cbn zeta. rewrite <- Hmsg.
  destruct (createCanonicalMessage_text
              (intentDataOf
                 (default ""
                    (if truthyS (developerId config) then developerId config
                     else cfg_merchantId config))
                 p uuid (Int (now + default (5 * 60 * 1000)%Z (expiryMs config)))))
    as [m Hm].
  rewrite Hm. unfold signMessage.
  destruct (ed25519_sign m (privateKey config)) as [sg |];
    [| split; [reflexivity | discriminate]].
  split; [cbn; auto |].
  intros i j [= <-] [= <-]. unfold verifyIntent. cbn.
  change (createCanonicalMessage (intentDataOf
            (default "" (if truthyS (developerId config) then developerId config
                         else cfg_merchantId config))
            p uuid (Int (now + default (5 * 60 * 1000)%Z (expiryMs config))))
          = SText m) in Hm.
  pose proof (Hmsg (default "" (if truthyS (developerId config) then developerId config
                                else cfg_merchantId config))
                   (Int (now + default (5 * 60 * 1000)%Z (expiryMs config)))) as E.
  unfold intentDataOf in Hm, E. cbn in Hm, E. rewrite <- E, Hm. reflexivity.
Qed.

Ltac same_letter :=
  first [ left; reflexivity
        | right; left; split; reflexivity
        | right; right; split; reflexivity ].

Ltac same_modulo_case :=
  repeat first [ apply smc_nil | apply smc_cons; [same_letter |] ].

Lemma canonical_message_ignores_casing_witness :
  paramsVariant mixedParams plainParams /\
  createCanonicalMessage (intentDataOf "app" mixedParams "nonce-1" (Int 1000))
  = createCanonicalMessage (intentDataOf "app" plainParams "nonce-1" (Int 1000)).
Proof.
  assert (paramsVariant mixedParams plainParams) as H.
  { constructor; cbn.
    - reflexivity.
    - constructor. same_modulo_case.
    - reflexivity.
    - constructor; [constructor; cbn | constructor].
      + same_modulo_case.
      + apply ov_present. same_modulo_case.
      + apply ov_left. reflexivity.
      + apply ov_left. reflexivity.
      + apply ov_right. reflexivity. }
  split; [exact H |].
  exact (proj1 (canonical_message_ignores_casing
                  (fun m _ => Some m) (fun _ _ _ => true)
                  mixedParams plainParams sampleConfig "nonce-1" 0 "pk" H)
           "app" (Int 1000)).
Defined.

End SignerProofs.

(* ===================================================================== *)
(** * Properties of the dialog session *)
(* ===================================================================== *)

Module DialogProofs.

Import Dialog Samples.

(** ** The message channel guard *)

Lemma guard_rejects (o : string) (ev : MessageEvent) :
  origin ev <> o -> negb (origin ev =? o) = true.
Proof. intros H. apply negb_true_iff. now apply String.eqb_neq. Qed.

Lemma hostHandleMessage_foreign s ev :
  origin ev <> hostOrigin (dom s) -> hostHandleMessage s ev = s.
Proof. intros H. unfold hostHandleMessage. now rewrite guard_rejects. Qed.

Lemma waiterHandleMessage_foreign cfg o env w s ev :
  origin ev <> o -> waiterHandleMessage cfg o env w s ev = s.
Proof.
  intros H. pose proof (guard_rejects o ev H) as G.
  destruct w; cbn;
    unfold readyHandleMessage, intentSigningHandleMessage, signingHandleMessage,
      refreshHandleMessage, batchHandleMessage, closeHandleMessage,
      modalAuthHandleMessage, popupAuthHandleMessage, authenticateHandleMessage,
      connectHandleMessage, modalSigningHandleMessage, popupSigningHandleMessage,
      embedHandleMessage;
    cbn zeta; now rewrite G.
Qed.

Lemma step_foreign cfg o s ev env :
  hostGuards o s -> origin ev <> o -> step cfg o s (Message ev env) = s.
Proof.
  intros G H. unfold step. destruct (hostListener (dom s)) eqn:L.
  - rewrite hostHandleMessage_foreign by now rewrite (G L).
    destruct (waiter (waiting s)); auto using waiterHandleMessage_foreign.
  - destruct (waiter (waiting s)); auto using waiterHandleMessage_foreign.
Qed.

(** ** The host origin is fixed for the life of the dialog *)

Lemma keepsOrigin_post m : keepsOrigin (post m).
Proof. intros s. unfold post. now destruct (dialogAttached (dom s)). Qed.

Lemma keepsOrigin_cleanup : keepsOrigin cleanup.
Proof. intros s. reflexivity. Qed.

Lemma keepsOrigin_resolve v : keepsOrigin (resolve v).
Proof. intros s. reflexivity. Qed.

Lemma keepsOrigin_resolveClose : keepsOrigin resolveClose.
Proof.
  intros s. unfold resolveClose.
  destruct (pendingBatch (promises s)); [| reflexivity].
  now destruct (closeResolved (promises s) =? 0)%nat.
Qed.

Lemma keepsOrigin_teardown : keepsOrigin teardown.
Proof. intros s. unfold teardown. now destruct (settled (waiting s)). Qed.

Lemma keepsOrigin_withWaiting f : keepsOrigin (withWaiting f).
Proof. intros s. reflexivity. Qed.

Lemma keepsOrigin_withPromises f : keepsOrigin (withPromises f).
Proof. intros s. reflexivity. Qed.

Lemma keepsOrigin_withSurfaces f : keepsOrigin (withSurfaces f).
Proof. intros s. reflexivity. Qed.

Lemma keepsOrigin_withStorage f : keepsOrigin (withStorage f).
Proof. intros s. reflexivity. Qed.

(** Rewrites the host origin of a state built from the session
    primitives down to the host origin of the state it started from. *)
Ltac origin_of_primitives :=
  repeat first
    [ rewrite keepsOrigin_post | rewrite keepsOrigin_cleanup
    | rewrite keepsOrigin_resolve | rewrite keepsOrigin_resolveClose
    | rewrite keepsOrigin_teardown | rewrite keepsOrigin_withWaiting
    | rewrite keepsOrigin_withPromises | rewrite keepsOrigin_withSurfaces
    | rewrite keepsOrigin_withStorage ].

Ltac case_on_branches :=
  repeat match goal with
         | |- context [if ?b then _ else _] => destruct b
         | |- context [match ?x with _ => _ end] => destruct x
         end.

Lemma hostHandleMessage_origin ev : keepsOrigin (fun s => hostHandleMessage s ev).
Proof.
  intros s. unfold hostHandleMessage.
  case_on_branches; origin_of_primitives; reflexivity.
Qed.

Lemma waiterHandleMessage_origin cfg o env w ev :
  keepsOrigin (fun s => waiterHandleMessage cfg o env w s ev).
Proof.
  intros s.
  destruct w; cbn;
    unfold readyHandleMessage, intentSigningHandleMessage, signingHandleMessage,
      refreshHandleMessage, batchHandleMessage, closeHandleMessage,
      modalAuthHandleMessage, popupAuthHandleMessage, authenticateHandleMessage,
      connectHandleMessage, modalSigningHandleMessage, popupSigningHandleMessage,
      embedHandleMessage, waitForDialogClose, waitForPopupAuthResponse,
      unsubscribe, subscribe, onClose, markReady, holdBatch, clearTimer,
      closePopup, openPopup, embedCleanup;
    cbn zeta;
    repeat match goal with
           | |- context [if ?b then _ else _] => destruct b
           end;
    try reflexivity;
    repeat match goal with
           | |- context [match ?x with _ => _ end] => destruct x
           end;
    origin_of_primitives; reflexivity.
Qed.

Lemma fireClose_origin : keepsOrigin fireClose.
Proof.
  intros s. unfold fireClose, readyHandleClose, closeHandleClose, onClose, unsubscribe.
  case_on_branches; origin_of_primitives; reflexivity.
Qed.

Lemma step_origin cfg o e : keepsOrigin (fun s => step cfg o s e).
Proof.
  intros s. destruct e as [ev env | key | onDialog | |]; unfold step.
  - destruct (hostListener (dom s)).
    + destruct (waiter (waiting (hostHandleMessage s ev))) eqn:E.
      * rewrite (waiterHandleMessage_origin cfg o env w ev).
        apply hostHandleMessage_origin.
      * apply hostHandleMessage_origin.
    + destruct (waiter (waiting s)); [| reflexivity].
      apply waiterHandleMessage_origin.
  - unfold handleEscape. now case_on_branches.
  - unfold handleClick. now case_on_branches.
  - destruct (0 <? closeTasks (dom s))%nat; [| reflexivity].
    now rewrite fireClose_origin.
  - destruct (dialogOpen (dom s)); [| reflexivity].
    now rewrite fireClose_origin.
Qed.

Lemma run_origin cfg o trace : keepsOrigin (fun s => run cfg o s trace).
Proof.
  induction trace as [| e trace IH]; intros s; [reflexivity |].
  cbn. unfold run in IH. rewrite IH. apply step_origin.
Qed.

(** ** Listeners are only ever removed *)

Lemma stillListens_refl s : stillListens s s.
Proof. intros H. exact H. Qed.

Lemma stillListens_post s x m : stillListens s x -> stillListens s (post m x).
Proof. unfold stillListens, post. now destruct (dialogAttached (dom x)). Qed.

Lemma stillListens_cleanup s x : stillListens s x -> stillListens s (cleanup x).
Proof. unfold stillListens. cbn. discriminate. Qed.

Lemma stillListens_resolve s x v :
  stillListens s x -> stillListens s (resolve v x).
Proof. exact (fun H => H). Qed.

Lemma stillListens_resolveClose s x :
  stillListens s x -> stillListens s (resolveClose x).
Proof.
  unfold stillListens, resolveClose.
  destruct (pendingBatch (promises x)); [| auto].
  now destruct (closeResolved (promises x) =? 0)%nat.
Qed.

Lemma stillListens_teardown s x :
  stillListens s x -> stillListens s (teardown x).
Proof. unfold stillListens, teardown. now destruct (settled (waiting x)). Qed.

Lemma stillListens_withWaiting s x f :
  stillListens s x -> stillListens s (withWaiting f x).
Proof. exact (fun H => H). Qed.

Lemma stillListens_withPromises s x f :
  stillListens s x -> stillListens s (withPromises f x).
Proof. exact (fun H => H). Qed.

Lemma stillListens_withSurfaces s x f :
  stillListens s x -> stillListens s (withSurfaces f x).
Proof. exact (fun H => H). Qed.

Lemma stillListens_withStorage s x f :
  stillListens s x -> stillListens s (withStorage f x).
Proof. exact (fun H => H). Qed.

Lemma stillListens_withDom s x f :
  (forall d, hostListener (f d) = hostListener d) ->
  stillListens s x -> stillListens s (withDom f x).
Proof. unfold stillListens. cbn. intros Hf H. now rewrite Hf. Qed.

Create HintDb listeners.

#[local] Hint Resolve stillListens_refl stillListens_post stillListens_cleanup
  stillListens_resolve stillListens_resolveClose stillListens_teardown
  stillListens_withWaiting stillListens_withPromises stillListens_withSurfaces
  stillListens_withStorage : listeners.

#[local] Hint Extern 1 (stillListens _ (withDom _ _)) =>
  apply stillListens_withDom; [reflexivity |] : listeners.

Lemma hostHandleMessage_listens s ev : stillListens s (hostHandleMessage s ev).
Proof.
  unfold hostHandleMessage. case_on_branches; auto 6 with listeners.
Qed.

Lemma waiterHandleMessage_listens cfg o env w s ev :
  stillListens s (waiterHandleMessage cfg o env w s ev).
Proof.
  destruct w; cbn;
    unfold readyHandleMessage, intentSigningHandleMessage, signingHandleMessage,
      refreshHandleMessage, batchHandleMessage, closeHandleMessage,
      modalAuthHandleMessage, popupAuthHandleMessage, authenticateHandleMessage,
      connectHandleMessage, modalSigningHandleMessage, popupSigningHandleMessage,
      embedHandleMessage, waitForDialogClose, waitForPopupAuthResponse,
      onClose, markReady, holdBatch, clearTimer, closePopup, openPopup,
      embedCleanup;
    unfold unsubscribe, subscribe;
    cbn zeta;
    repeat match goal with
           | |- context [if ?b then _ else _] => destruct b
           end;
    auto 8 with listeners;
    repeat match goal with
           | |- context [match ?x with _ => _ end] => destruct x
           end;
    auto 8 with listeners.
Qed.

Lemma fireClose_listens s x : stillListens s x -> stillListens s (fireClose x).
Proof.
  unfold fireClose, readyHandleClose, closeHandleClose, onClose, unsubscribe.
  intros H. case_on_branches; auto 8 with listeners.
Qed.

Lemma step_listens cfg o s e : stillListens s (step cfg o s e).
Proof.
  destruct e as [ev env | key | onDialog | |]; unfold step.
  - destruct (hostListener (dom s)) eqn:L; [intros _; exact L |].
    destruct (waiter (waiting s)); [| auto with listeners].
    apply waiterHandleMessage_listens.
  - unfold handleEscape. case_on_branches; auto with listeners.
  - unfold handleClick. case_on_branches; auto with listeners.
  - destruct (0 <? closeTasks (dom s))%nat; [| auto with listeners].
    apply fireClose_listens. auto with listeners.
  - destruct (dialogOpen (dom s)); [| auto with listeners].
    apply fireClose_listens. auto with listeners.
Qed.

Lemma step_hostGuards cfg o s e :
  hostGuards o s -> hostGuards o (step cfg o s e).
Proof.
  intros G L. rewrite step_origin. apply G. now apply (step_listens cfg o s e).
Qed.

(** A run is unchanged when the messages of other origins are taken out
    of it. *)
Lemma run_filter_trusted cfg o trace s :
  hostGuards o s ->
  run cfg o s (List.filter (trusted o) trace) = run cfg o s trace.
Proof.
  revert s. induction trace as [| e trace IH]; intros s G; [reflexivity |].
  cbn. destruct (trusted o e) eqn:T.
  - cbn. apply IH. now apply step_hostGuards.
  - destruct e as [ev env | | | |]; try discriminate. cbn in T.
    apply String.eqb_neq in T.
    rewrite (step_foreign cfg o s ev env G T). now apply IH.
Qed.

Lemma createModalDialog_origin urlOrigin cfg url store s :
  createModalDialog urlOrigin cfg url store = Some s ->
  hostOrigin (dom s) = getDialogOrigin urlOrigin cfg.
Proof.
  unfold createModalDialog, getDialogOrigin.
  destruct (urlOrigin (getDialogUrl cfg)); [| discriminate].
  now intros [= <-].
Qed.

(** Both kinds of session the client starts from satisfy the guard
    invariant: the one [createModalDialog] opens, and the bare page on
    which a popup or an embed is shown. *)
Lemma createModalDialog_hostGuards urlOrigin cfg url store s :
  createModalDialog urlOrigin cfg url store = Some s ->
  hostGuards (getDialogOrigin urlOrigin cfg) s.
Proof. intros H _. exact (createModalDialog_origin urlOrigin cfg url store s H). Qed.

Lemma pageSession_hostGuards o store : hostGuards o (pageSession store).
Proof. intros L. discriminate L. Qed.

(** C1.  A message whose origin differs from the dialog origin computed
    from the configured dialog URL is discarded by every listener of a
    session: the resize/disconnect listener of the dialog host, while it
    is subscribed, and each waiter (ready handshake, signing, quote
    refresh, batch, close, auth, authenticate, connect, popup and embed
    waiters) return the session state they were given, so nothing is
    posted, resolved, stored or unsubscribed; and any run of the session
    ends in the same state as the run from which those messages were never
    delivered.  The session is any one whose host listener, if it has one,
    was subscribed by [createModalDialog] for this configuration
    ([createModalDialog_hostGuards], [pageSession_hostGuards]). *)
Theorem foreign_origin_messages_are_discarded
    (urlOrigin : string -> option string) (cfg : Config) (s : Session) :
  hostGuards (getDialogOrigin urlOrigin cfg) s ->
  (forall ev,
      hostListener (dom s) = true ->
      origin ev <> getDialogOrigin urlOrigin cfg -> hostHandleMessage s ev = s) /\
  (forall env w ev,
      origin ev <> getDialogOrigin urlOrigin cfg ->
      waiterHandleMessage cfg (getDialogOrigin urlOrigin cfg) env w s ev = s) /\
  (forall ev env,
      origin ev <> getDialogOrigin urlOrigin cfg ->
      step cfg (getDialogOrigin urlOrigin cfg) s (Message ev env) = s) /\
  (forall trace,
      run cfg (getDialogOrigin urlOrigin cfg) s trace
      = run cfg (getDialogOrigin urlOrigin cfg) s
          (List.filter (trusted (getDialogOrigin urlOrigin cfg)) trace)).
Proof.
  intros G. repeat split.
  - intros ev L H. apply hostHandleMessage_foreign. now rewrite (G L).
  - intros env w ev H. now apply waiterHandleMessage_foreign.
  - intros ev env H. now apply step_foreign.
  - intros trace. symmetry. now apply run_filter_trusted.
Qed.

Lemma foreign_origin_messages_are_discarded_witness :
  hostGuards (getDialogOrigin sampleUrlOrigin pageConfig) waitingSession /\
  run pageConfig (getDialogOrigin sampleUrlOrigin pageConfig) waitingSession
    [ Message (messageOf "https://evil.example" "PASSKEY_READY") quietEnv;
      Message (messageOf "https://evil.example" "PASSKEY_DISCONNECT") quietEnv;
      Message (messageOf "https://passkey.1auth.box" "PASSKEY_CLOSE") quietEnv ]
  = run pageConfig (getDialogOrigin sampleUrlOrigin pageConfig) waitingSession
      [ Message (messageOf "https://passkey.1auth.box" "PASSKEY_CLOSE") quietEnv ].
Proof.
  split; [intros _; reflexivity |].
  exact (proj2 (proj2 (proj2
           (foreign_origin_messages_are_discarded sampleUrlOrigin pageConfig
              waitingSession (fun _ => eq_refl))))
           [ Message (messageOf "https://evil.example" "PASSKEY_READY") quietEnv;
             Message (messageOf "https://evil.example" "PASSKEY_DISCONNECT") quietEnv;
             Message (messageOf "https://passkey.1auth.box" "PASSKEY_CLOSE") quietEnv ]).
Defined.

(** ** The ready handshake *)

Lemma teardown_waiting init s :
  waitingForReady init s ->
  handshakeOver (teardown s) /\ promises (teardown s) = promises s /\
  posted (teardown s) = posted s /\ dom (teardown s) = dom s /\
  localStorage (teardown s) = localStorage s.
Proof.
  intros (Hw & Hc & Hs). unfold teardown, handshakeOver. rewrite Hs. cbn.
  rewrite Hw, Hc. cbn. auto 10.
Qed.

Lemma post_posted m s :
  posted (post m s) = if dialogAttached (dom s) then (posted s ++ [m])%list else posted s.
Proof. unfold post. now destruct (dialogAttached (dom s)). Qed.

Lemma post_rest m s :
  waiting (post m s) = waiting s /\ promises (post m s) = promises s /\
  dom (post m s) = dom s /\ localStorage (post m s) = localStorage s.
Proof. unfold post. now destruct (dialogAttached (dom s)). Qed.

Lemma resolve_parts v s :
  waiting (resolve v s) = waiting s /\
  resolved (promises (resolve v s)) = (resolved (promises s) ++ [v])%list /\
  posted (resolve v s) = posted s /\ dom (resolve v s) = dom s.
Proof. auto. Qed.

Lemma handshakeOver_waiting s s' :
  waiting s' = waiting s -> handshakeOver s -> handshakeOver s'.
Proof. unfold handshakeOver. now intros ->. Qed.

(** The host listener leaves the handshake's view and the frame alone. *)
Lemma host_turn s ev :
  let s1 := if hostListener (dom s) then hostHandleMessage s ev else s in
  waiting s1 = waiting s /\ promises s1 = promises s /\ posted s1 = posted s /\
  dialogAttached (dom s1) = dialogAttached (dom s) /\
  dialogOpen (dom s1) = dialogOpen (dom s) /\
  hostListener (dom s1) = hostListener (dom s) /\
  escapeListener (dom s1) = escapeListener (dom s) /\
  closeTasks (dom s1) = closeTasks (dom s).
Proof.
  cbn zeta. destruct (hostListener (dom s)) eqn:E; [| auto 10].
  unfold hostHandleMessage. case_on_branches; cbn; auto 10.
Qed.

(** A guarded ready signal settles a waiting handshake with [true] and
    posts the init payload into the frame. *)
Lemma ready_settles cfg o init s ev env :
  waitingForReady init s -> guarded o "PASSKEY_READY" ev ->
  let s' := step cfg o s (Message ev env) in
  handshakeOver s' /\
  resolved (promises s') = (resolved (promises s) ++ [VBool true])%list /\
  posted s' = (if dialogAttached (dom s)
               then (posted s ++ [initPayload init])%list else posted s).
Proof.
  intros Hw [Ho Ht]. cbn zeta. unfold step.
  destruct (host_turn s ev) as (Vw & Vp & Vq & A & _).
  set (s1 := if hostListener (dom s) then hostHandleMessage s ev else s) in *.
  assert (waitingForReady init s1) as Hw1.
  { unfold waitingForReady. now rewrite Vw. }
  destruct (teardown_waiting init s1 Hw1) as (Hover & Tp & Tq & Td & _).
  destruct Hw1 as (W1 & C1 & S1). rewrite W1.
  unfold waiterHandleMessage, readyHandleMessage.
  rewrite Ho, String.eqb_refl, Ht. cbn [negb].
  set (m := VObject (spread [("type", VString "PASSKEY_INIT")] init)).
  destruct (post_rest m (teardown s1)) as (Pw & Pp & Pd & _).
  destruct (resolve_parts (VBool true) (post m (teardown s1))) as (Rw & Rr & Rq & _).
  split; [| split].
  - eapply handshakeOver_waiting; [| exact Hover]. now rewrite Rw, Pw.
  - now rewrite Rr, Pp, Tp, Vp.
  - rewrite Rq, post_posted, Td, A, Tq, Vq. reflexivity.
Qed.

Lemma cleanup_parts s :
  waiting (cleanup s) = waiting s /\ promises (cleanup s) = promises s /\
  posted (cleanup s) = posted s /\ cleaned (dom (cleanup s)).
Proof. unfold cleaned. cbn. auto 10. Qed.

(** A guarded close signal cancels a waiting handshake: [cleanup] runs
    and the promise resolves with [false]. *)
Lemma close_signal_cancels cfg o init s ev env :
  waitingForReady init s -> guarded o "PASSKEY_CLOSE" ev ->
  let s' := step cfg o s (Message ev env) in
  handshakeOver s' /\
  resolved (promises s') = (resolved (promises s) ++ [VBool false])%list /\
  posted s' = posted s /\ cleaned (dom s').
Proof.
  intros Hw [Ho Ht]. cbn zeta. unfold step.
  destruct (host_turn s ev) as (Vw & Vp & Vq & A & _).
  set (s1 := if hostListener (dom s) then hostHandleMessage s ev else s) in *.
  assert (waitingForReady init s1) as Hw1.
  { unfold waitingForReady. now rewrite Vw. }
  destruct (teardown_waiting init s1 Hw1) as (Hover & Tp & Tq & Td & _).
  destruct Hw1 as (W1 & C1 & S1). rewrite W1.
  unfold waiterHandleMessage, readyHandleMessage.
  rewrite Ho, String.eqb_refl. cbn [negb].
  assert (isStr (get (data ev) "type") "PASSKEY_READY" = false) as ->.
  { destruct (get (data ev) "type"); try discriminate. cbn in *.
    apply String.eqb_eq in Ht. now subst. }
  rewrite Ht.
  destruct (cleanup_parts (teardown s1)) as (Cw & Cp & Cq & Cc).
  destruct (resolve_parts (VBool false) (cleanup (teardown s1))) as (Rw & Rr & Rq & Rd).
  split; [| split; [| split]].
  - eapply handshakeOver_waiting; [| exact Hover]. now rewrite Rw, Cw.
  - now rewrite Rr, Cp, Tp, Vp.
  - now rewrite Rq, Cq, Tq, Vq.
  - now rewrite Rd.
Qed.

(** A native close event cancels a waiting handshake; the handler itself
    leaves the dialog host as it is. *)
Lemma native_close_cancels cfg o init s e :
  waitingForReady init s -> nativeClose s e ->
  let s' := step cfg o s e in
  handshakeOver s' /\
  resolved (promises s') = (resolved (promises s) ++ [VBool false])%list /\
  posted s' = posted s /\
  hostListener (dom s') = hostListener (dom s) /\
  escapeListener (dom s') = escapeListener (dom s) /\
  dialogAttached (dom s') = dialogAttached (dom s).
Proof.
  intros Hw [[-> Hq] | [-> Hopen]]; cbn zeta; unfold step.
  - apply Nat.ltb_lt in Hq. rewrite Hq.
    set (s1 := withDom takeCloseTask s).
    assert (waitingForReady init s1) as Hw1 by exact Hw.
    destruct (teardown_waiting init s1 Hw1) as (Hover & Tp & Tq & Td & _).
    unfold fireClose. destruct Hw1 as (_ & -> & _). unfold readyHandleClose.
    destruct (resolve_parts (VBool false) (teardown s1)) as (Rw & Rr & Rq & Rd).
    rewrite Rr, Rq, Rd, Td, Tp, Tq.
    split; [eapply handshakeOver_waiting; [exact Rw | exact Hover] | auto 10].
  - rewrite Hopen.
    set (s1 := withDom closeByUserAgent s).
    assert (waitingForReady init s1) as Hw1 by exact Hw.
    destruct (teardown_waiting init s1 Hw1) as (Hover & Tp & Tq & Td & _).
    unfold fireClose. destruct Hw1 as (_ & -> & _). unfold readyHandleClose.
    destruct (resolve_parts (VBool false) (teardown s1)) as (Rw & Rr & Rq & Rd).
    rewrite Rr, Rq, Rd, Td, Tp, Tq.
    split; [eapply handshakeOver_waiting; [exact Rw | exact Hover] | auto 10].
Qed.

Lemma isStr_true v t : isStr v t = true -> v = VString t.
Proof.
  destruct v; try discriminate. cbn. intros H%String.eqb_eq. now subst.
Qed.

Lemma step_waiting cfg o init s e :
  waitingForReady init s -> Turn o init s e (step cfg o s e).
Proof.
  intros Hw. destruct e as [ev env | key | onDialog | |].
  - destruct (String.eqb_spec (origin ev) o) as [Ho | Ho].
    + destruct (isStr (get (data ev) "type") "PASSKEY_READY") eqn:Tr.
      { destruct (ready_settles cfg o init s ev env Hw (conj Ho Tr)) as (? & ? & ?).
        eapply BecameReady; eauto. now split. }
      destruct (isStr (get (data ev) "type") "PASSKEY_CLOSE") eqn:Tc.
      { destruct (close_signal_cancels cfg o init s ev env Hw (conj Ho Tc))
          as (? & ? & ? & ?).
        now apply Cancelled. }
      unfold step. destruct (host_turn s ev) as (Vw & Vp & Vq & _).
      set (s1 := if hostListener (dom s) then hostHandleMessage s ev else s) in *.
      destruct Hw as (W & C & S). rewrite Vw, W.
      unfold waiterHandleMessage, readyHandleMessage.
      rewrite Tr, Tc. destruct (negb _); apply StillWaiting; auto;
        unfold waitingForReady; now rewrite Vw.
    + unfold step. destruct (host_turn s ev) as (Vw & Vp & Vq & _).
      set (s1 := if hostListener (dom s) then hostHandleMessage s ev else s) in *.
      pose proof Hw as (W & C & S). rewrite Vw, W.
      rewrite waiterHandleMessage_foreign by exact Ho.
      apply StillWaiting; auto. unfold waitingForReady. now rewrite Vw.
  - unfold step, handleEscape. case_on_branches; now apply StillWaiting.
  - unfold step, handleClick. case_on_branches; now apply StillWaiting.
  - destruct (0 <? closeTasks (dom s))%nat eqn:Q.
    + destruct (native_close_cancels cfg o init s CloseTask Hw) as (? & ? & ? & _).
      { left. split; [reflexivity | now apply Nat.ltb_lt]. }
      now apply Cancelled.
    + unfold step. rewrite Q. now apply StillWaiting.
  - destruct (dialogOpen (dom s)) eqn:Q.
    + destruct (native_close_cancels cfg o init s UserAgentClose Hw) as (? & ? & ? & _).
      { right. now split. }
      now apply Cancelled.
    + unfold step. rewrite Q. now apply StillWaiting.
Qed.

(** Once the handshake is over, no event reaches it again. *)
Lemma step_over cfg o s e :
  handshakeOver s ->
  let s' := step cfg o s e in
  handshakeOver s' /\ promises s' = promises s /\ posted s' = posted s.
Proof.
  intros (W & C & S). cbn zeta. destruct e as [ev env | key | onDialog | |]; unfold step.
  - destruct (host_turn s ev) as (Vw & Vp & Vq & _).
    set (s1 := if hostListener (dom s) then hostHandleMessage s ev else s) in *.
    rewrite Vw, W. unfold handshakeOver. now rewrite Vw, Vp, Vq.
  - unfold handleEscape. case_on_branches; unfold handshakeOver; cbn; auto.
  - unfold handleClick. case_on_branches; unfold handshakeOver; cbn; auto.
  - destruct (0 <? closeTasks (dom s))%nat; [| unfold handshakeOver; auto].
    unfold fireClose. cbn. rewrite C. unfold handshakeOver. cbn. auto.
  - destruct (dialogOpen (dom s)); [| unfold handshakeOver; auto].
    unfold fireClose. cbn. rewrite C. unfold handshakeOver. cbn. auto.
Qed.

Lemma run_snoc cfg o s trace e :
  run cfg o s (trace ++ [e]) = step cfg o (run cfg o s trace) e.
Proof. unfold run. now rewrite fold_left_app. Qed.

Lemma run_handshake cfg o init s trace :
  waitingForReady init s -> Handshake cfg o init s trace (run cfg o s trace).
Proof.
  intros Hw. induction trace as [| e trace IH] using rev_ind.
  - now apply Waits.
  - rewrite run_snoc.
    destruct IH as [Hw' Hr Hq | before ev env after Ht Hg Hb Hover Hr Hq | Hover Hr Hq].
    + destruct (step_waiting cfg o init (run cfg o s trace) e Hw')
        as [Hw2 Hp2 Hq2 | ev env He Hg Hover Hr2 Hq2 | Hover Hr2 Hq2].
      * apply Waits; [assumption | now rewrite Hp2 | now rewrite Hq2].
      * subst e. eapply Ready with (before := trace) (ev := ev) (env := env) (after := []); eauto.
        -- now rewrite Hr2, Hr.
        -- now rewrite Hq2, Hq.
      * apply Cancels; [assumption | now rewrite Hr2, Hr | now rewrite Hq2, Hq].
    + destruct (step_over cfg o (run cfg o s trace) e Hover) as (Hover' & Hp & Hq').
      eapply Ready with (before := before) (ev := ev) (env := env) (after := (after ++ [e])%list); eauto.
      * rewrite Ht. now rewrite <- app_assoc.
      * now rewrite Hp.
      * now rewrite Hq'.
    + destruct (step_over cfg o (run cfg o s trace) e Hover) as (Hover' & Hp & Hq').
      apply Cancels; [assumption | now rewrite Hp | now rewrite Hq'].
Qed.

(** C2 (code bug).  A native close event reaching a handshake that still
    waits resolves it with [false], but the session cleanup is not
    invoked: the host listeners stay subscribed and the dialog stays in
    the document.  [handleClose] of [waitForDialogClose] does call
    [cleanup] on the same event. *)
Lemma native_close_event_skips_cleanup :
  waitingForReady [("mode", VString "iframe")] waitingSession /\
  nativeClose waitingSession UserAgentClose /\
  resolved (promises (step pageConfig "https://passkey.1auth.box"
                        waitingSession UserAgentClose)) = [VBool false] /\
  ~ cleaned (dom (step pageConfig "https://passkey.1auth.box"
                    waitingSession UserAgentClose)).
Proof.
  repeat split; try reflexivity.
  - right. split; reflexivity.
  - intros (H & _). discriminate H.
Qed.

(** The sibling listener: [handleClose] of [waitForDialogClose], on the
    same native close event, runs the session cleanup. *)
Lemma dialog_close_waiter_cleans_on_native_close :
  nativeClose (waitForDialogClose openedSession) UserAgentClose /\
  cleaned (dom (step pageConfig "https://passkey.1auth.box"
                  (waitForDialogClose openedSession) UserAgentClose)).
Proof.
  split; [right; split; reflexivity |]. repeat split.
Qed.

(** What the ready handshake does keep.  From a handshake that waits:
    (1) over any run the
    handshake either still waits with nothing posted or resolved, or it
    resolved exactly once with both listeners removed in that same
    transition -- with [true] after a guarded PASSKEY_READY received while
    it still waited, the init payload being posted then and only then, or
    with [false] and nothing posted; (2) a guarded PASSKEY_READY posts
    PASSKEY_INIT to the frame's window and resolves [true]; (3) a guarded
    PASSKEY_CLOSE invokes the session cleanup and resolves [false]; (4) a
    native close event resolves [false] with the listeners removed, the
    handshake itself leaving the dialog host untouched. *)
Theorem ready_handshake_protocol
    (cfg : Config) (o : string) (init : list (string * JsVal)) (s : Session) :
  waitingForReady init s ->
  (forall trace, Handshake cfg o init s trace (run cfg o s trace)) /\
  (forall ev env,
      guarded o "PASSKEY_READY" ev ->
      handshakeOver (step cfg o s (Message ev env)) /\
      resolved (promises (step cfg o s (Message ev env)))
      = (resolved (promises s) ++ [VBool true])%list /\
      posted (step cfg o s (Message ev env))
      = (if dialogAttached (dom s)
         then (posted s ++ [initPayload init])%list else posted s)) /\
  (forall ev env,
      guarded o "PASSKEY_CLOSE" ev ->
      handshakeOver (step cfg o s (Message ev env)) /\
      resolved (promises (step cfg o s (Message ev env)))
      = (resolved (promises s) ++ [VBool false])%list /\
      posted (step cfg o s (Message ev env)) = posted s /\
      cleaned (dom (step cfg o s (Message ev env)))) /\
  (forall e,
      nativeClose s e ->
      handshakeOver (step cfg o s e) /\
      resolved (promises (step cfg o s e))
      = (resolved (promises s) ++ [VBool false])%list /\
      posted (step cfg o s e) = posted s /\
      hostListener (dom (step cfg o s e)) = hostListener (dom s) /\
      escapeListener (dom (step cfg o s e)) = escapeListener (dom s) /\
      dialogAttached (dom (step cfg o s e)) = dialogAttached (dom s)).
Proof.
  intros Hw. split; [| split; [| split]].
  - intros trace. now apply run_handshake.
  - intros ev env Hg. exact (ready_settles cfg o init s ev env Hw Hg).
  - intros ev env Hg. exact (close_signal_cancels cfg o init s ev env Hw Hg).
  - intros e He. exact (native_close_cancels cfg o init s e Hw He).
Qed.

Lemma ready_handshake_protocol_witness :
  waitingForReady [("mode", VString "iframe")] waitingSession /\
  posted (step pageConfig "https://passkey.1auth.box" waitingSession
            (Message (messageOf "https://passkey.1auth.box" "PASSKEY_READY") quietEnv))
  = (if dialogAttached (dom waitingSession)
     then (posted waitingSession ++ [initPayload [("mode", VString "iframe")]])%list
     else posted waitingSession).
Proof.
  assert (waitingForReady [("mode", VString "iframe")] waitingSession) as H
    by (repeat split; reflexivity).
  split; [exact H |].
  exact (proj2 (proj2 (proj1 (proj2
           (ready_handshake_protocol pageConfig "https://passkey.1auth.box"
              [("mode", VString "iframe")] waitingSession H))
           (messageOf "https://passkey.1auth.box" "PASSKEY_READY") quietEnv
           (conj eq_refl eq_refl)))).
Defined.

(** ** Cleanup *)

Lemma cleanup_cleanup s : cleanup (cleanup s) = cleanup s.
Proof. reflexivity. Qed.

Lemma cleanup_iter n s : Nat.iter (S n) cleanup s = cleanup s.
Proof.
  induction n as [| n IH]; [reflexivity |].
  change (Nat.iter (S (S n)) cleanup s) with (cleanup (Nat.iter (S n) cleanup s)).
  now rewrite IH, cleanup_cleanup.
Qed.

Lemma cleanupVia_cleanup t s : cleanupVia t (cleanup s) = cleanup s.
Proof. destruct t; reflexivity. Qed.

Lemma cleanupVia_run ts s :
  fold_left (fun x t => cleanupVia t x) ts (cleanup s) = cleanup s.
Proof.
  induction ts as [| t ts IH]; [reflexivity |].
  cbn [fold_left]. now rewrite cleanupVia_cleanup.
Qed.

(** C8.  Invoking [cleanup] more than once leaves the session in the
    state one invocation leaves it in: the message and keydown listeners
    are removed, the dialog is closed and detached, a single [close]
    event is queued at most, and the promises, the waiter and the posted
    messages are not touched; further triggers (escape key, backdrop
    click, a waiter's direct call) change nothing, so every later run is
    the one that follows a single invocation. *)
Theorem cleanup_is_idempotent (s : Session) (n : nat) :
  1 < n ->
  Nat.iter n cleanup s = cleanup s /\
  cleaned (dom (cleanup s)) /\
  (forall triggers,
      fold_left (fun x t => cleanupVia t x) triggers (cleanup s) = cleanup s) /\
  (forall cfg o trace,
      run cfg o (Nat.iter n cleanup s) trace = run cfg o (cleanup s) trace) /\
  promises (Nat.iter n cleanup s) = promises s /\
  waiting (Nat.iter n cleanup s) = waiting s /\
  posted (Nat.iter n cleanup s) = posted s /\
  closeTasks (dom (Nat.iter n cleanup s))
  = (if dialogOpen (dom s) then S (closeTasks (dom s)) else closeTasks (dom s)).
Proof.
  intros Hn. destruct n as [| n]; [lia |].
  rewrite cleanup_iter.
  repeat split; try reflexivity.
  intros triggers. apply cleanupVia_run.
Qed.

Lemma cleanup_is_idempotent_witness :
  1 < 3 /\ Nat.iter 3 cleanup waitingSession = cleanup waitingSession.
Proof.
  split; [lia |].
  exact (proj1 (cleanup_is_idempotent waitingSession 3 ltac:(lia))).
Defined.

End DialogProofs.

(* ===================================================================== *)
(** * Properties of the intent pipeline *)
(* ===================================================================== *)

Module IntentProofs.

Import Dialog Intent Samples.

Lemma meetsCloseOn_completed st :
  meetsCloseOn (Some Completed) st = (st =? "completed").
Proof. unfold meetsCloseOn. cbn. now rewrite orb_false_r. Qed.

Lemma meetsCloseOn_claimed st :
  In st ["claimed"; "preconfirmed"; "filled"; "completed"] ->
  meetsCloseOn (Some Claimed) st = true.
Proof.
  unfold meetsCloseOn. cbn.
  intros [<- | [<- | [<- | [<- | []]]]]; reflexivity.
Qed.

Lemma finish_success o env exec p :
  success (fst (finish o env exec p))
  = meetsCloseOn (closeOn o) (finalStatus p) && negb (hashWaitFails o env p).
Proof.
  unfold finish, hashWaitFails.
  destruct (waitForHash o && negb (truthyS (finalTxHash p))); cbn.
  - destruct (truthyS (waitForTransactionHash env (hashTimeoutMs o))); cbn;
      [now rewrite andb_true_r | now rewrite andb_false_r].
  - now rewrite andb_true_r.
Qed.

Lemma finish_statuses o env exec p :
  snd (finish o env exec p) = (sent p ++ [(displayStatus o p, finalTxHash p)])%list.
Proof.
  unfold finish, displayStatus.
  destruct (waitForHash o && negb (truthyS (finalTxHash p)));
    [destruct (truthyS (waitForTransactionHash env (hashTimeoutMs o))) |];
    reflexivity.
Qed.

(** [finish] reports [failed] with a hash only when that is what the
    remote status said. *)
Lemma finish_failed_with_hash o env exec p :
  status (fst (finish o env exec p)) = "failed" ->
  truthyS (transactionHash (fst (finish o env exec p))) = true ->
  finalStatus p = "failed" /\
  transactionHash (fst (finish o env exec p)) = finalTxHash p.
Proof.
  unfold finish.
  destruct (waitForHash o && negb (truthyS (finalTxHash p))) eqn:W.
  - destruct (truthyS (waitForTransactionHash env (hashTimeoutMs o))); cbn.
    + discriminate.
    + intros _ H. apply andb_true_iff in W as [_ W].
      apply negb_true_iff in W. congruence.
  - cbn. auto.
Qed.

Lemma finish_hash_found o env exec p h :
  waitForHash o = true -> truthyS (finalTxHash p) = false ->
  waitForTransactionHash env (hashTimeoutMs o) = Some h -> h <> "" ->
  fst (finish o env exec p)
  = {| success := meetsCloseOn (closeOn o) (finalStatus p);
       intentId := e_intentId exec;
       status := "completed";
       transactionHash := Some h;
       operationId := e_operationId exec;
       error := e_error exec |}.
Proof.
  intros W F H Hne. unfold finish. rewrite W, F, H. cbn.
  apply String.eqb_neq in Hne. now rewrite Hne.
Qed.

Lemma pollLoop_stops c polls fuel attempt p body :
  polls attempt = Ok body ->
  isTerminal (st_status body) || meetsCloseOn c (st_status body) = true ->
  finalStatus (pollLoop c polls (S fuel) attempt p) = st_status body /\
  finalTxHash (pollLoop c polls (S fuel) attempt p) = st_transactionHash body.
Proof. intros H Hs. cbn. now rewrite H, Hs. Qed.

Section Pipeline.

Variable urlOrigin : string -> option string.
Variable cfg : Config.

(** A result produced before polling is a local failure: no hash. *)
Lemma early_result env store o run r :
  beforePolling urlOrigin cfg env store o = Early run ->
  outcome run = Some r ->
  success r = false /\ status r = "failed" /\ transactionHash r = None /\
  intentId r = "".
Proof.
  unfold beforePolling.
  destruct (validate o) as [v |] eqn:V.
  { intros [= <-] [= <-]. unfold validate in V.
    repeat match type of V with
           | (if ?b then _ else _) = _ => destruct b
           end; inversion V; subst; cbn; auto. }
  destruct (prepare env (requestBody cfg o)) as [m | err | body].
  - intros [= <-] [= <-]. cbn. auto.
  - intros [= <-] [= <-]. cbn. auto.
  - destruct (urlOrigin (getDialogUrl cfg)); [| intros [= <-]; discriminate].
    destruct (negb (ready env)); [intros [= <-] [= <-]; cbn; auto |].
    destruct (negb (truthy (get (signing env) "success")));
      [intros [= <-] [= <-]; cbn; auto |].
    unfold executeStage.
    destruct (truthy (get (signing env) "intentId")); [discriminate |].
    destruct (execute env); [| | discriminate];
      intros [= <-] [= <-]; cbn; auto.
Qed.

(** Every result is an early local failure or the result [finish] builds
    from the observed status. *)
Lemma sendIntent_cases env store o r :
  outcome (sendIntent urlOrigin cfg env store o) = Some r ->
  (exists run, beforePolling urlOrigin cfg env store o = Early run /\
               outcome run = Some r) \/
  (exists exec posts,
      beforePolling urlOrigin cfg env store o = Polling exec posts /\
      r = fst (finish o env exec (pollPhase o env exec))).
Proof.
  unfold sendIntent.
  destruct (beforePolling urlOrigin cfg env store o) as [run | exec posts].
  - intros H. left. eauto.
  - destruct (finish o env exec (pollPhase o env exec)) as [r' posts'] eqn:F.
    cbn. intros [= <-]. right. exists exec, posts. now rewrite F.
Qed.

(** C5 (amended).  A result of [sendIntent] whose status is [failed] was
    either produced locally before polling (validation, prepare, cancelled
    handshake, rejected signing, execute failure), and then carries no
    transaction hash, or it comes from the polled run; there it carries a
    hash only when the remote status observed at the end of polling was
    itself [failed] with that very hash, which [sendIntent] passes
    through (the HASH_TIMEOUT result never carries one). *)
Theorem failed_result_hash_is_remote env store o r :
  outcome (sendIntent urlOrigin cfg env store o) = Some r ->
  status r = "failed" ->
  (beforePolling urlOrigin cfg env store o
   = Early (sendIntent urlOrigin cfg env store o) /\ transactionHash r = None) \/
  (exists exec posts,
      beforePolling urlOrigin cfg env store o = Polling exec posts /\
      (truthyS (transactionHash r) = true ->
       finalStatus (pollPhase o env exec) = "failed" /\
       finalTxHash (pollPhase o env exec) = transactionHash r)).
Proof.
  intros Hr Hs. destruct (sendIntent_cases env store o r Hr)
    as [(run & Hb & Ho) | (exec & posts & Hb & ->)].
  - left. destruct (early_result env store o run r Hb Ho) as (_ & _ & Hh & _).
    split; [| exact Hh]. unfold sendIntent. now rewrite Hb.
  - right. exists exec, posts. split; [exact Hb |]. intros Ht.
    destruct (finish_failed_with_hash o env exec _ Hs Ht) as [? ?]. auto.
Qed.

(** C3 (amended).  With [closeOn = "completed"], [success] is [true] only
    if the remote status observed when polling ended is exactly
    [completed].  With [closeOn = "claimed"], an observed status among
    claimed, preconfirmed, filled and completed makes the final display
    status sent to the dialog [confirmed], and [success] is [true] unless
    the hash wait was requested, no hash was known and none arrived
    (HASH_TIMEOUT), in which case it is [false].  Polling stops at the
    first answer whose status meets the threshold. *)
Theorem close_on_threshold_decides_success env store o r :
  outcome (sendIntent urlOrigin cfg env store o) = Some r ->
  (closeOn o = Some Completed -> success r = true ->
   observedStatus urlOrigin cfg env store o = Some "completed") /\
  (closeOn o = Some Claimed ->
   forall exec posts st,
     beforePolling urlOrigin cfg env store o = Polling exec posts ->
     finalStatus (pollPhase o env exec) = st ->
     In st ["claimed"; "preconfirmed"; "filled"; "completed"] ->
     success r = negb (hashWaitFails o env (pollPhase o env exec)) /\
     last (statuses (sendIntent urlOrigin cfg env store o))
     = Some ("confirmed", finalTxHash (pollPhase o env exec))) /\
  (forall fuel attempt p body,
      polls env attempt = Ok body ->
      meetsCloseOn (closeOn o) (st_status body) = true ->
      finalStatus (pollLoop (closeOn o) (polls env) (S fuel) attempt p)
      = st_status body).
Proof.
  intros Hr. split; [| split].
  3: { intros fuel attempt p body Hp Hm.
       apply pollLoop_stops; [exact Hp |]. rewrite Hm. apply orb_true_r. }
  - intros Hc Hs. unfold observedStatus.
    destruct (sendIntent_cases env store o r Hr)
      as [(run & Hb & Ho) | (exec & posts & Hb & ->)].
    + destruct (early_result env store o run r Hb Ho) as (Hf & _). congruence.
    + rewrite Hb. rewrite finish_success, Hc, meetsCloseOn_completed in Hs.
      apply andb_true_iff in Hs as [Hs%String.eqb_eq _]. now rewrite Hs.
  - intros Hc exec posts st Hb Hst Hin.
    pose proof (meetsCloseOn_claimed st Hin) as Hm.
    destruct (sendIntent_cases env store o r Hr)
      as [(run & Hb' & Ho) | (exec' & posts' & Hb' & ->)]; [congruence |].
    rewrite Hb in Hb'. injection Hb' as <- <-.
    split.
    + now rewrite finish_success, Hc, Hst, Hm.
    + unfold sendIntent. rewrite Hb.
      destruct (finish o env exec (pollPhase o env exec)) as [r' posts'] eqn:F.
      cbn. pose proof (finish_statuses o env exec (pollPhase o env exec)) as Hp.
      rewrite F in Hp. cbn in Hp. rewrite Hp, app_assoc, last_snoc.
      unfold displayStatus. now rewrite Hc, Hst, Hm.
Qed.

(** C10.  When [waitForHash] is set, no hash is known once the dialog is
    closed and the hash poll returns one, the result has status
    [completed] and that hash, while [success] is what the status
    observed before the dialog closed gives against the [closeOn]
    threshold: [false], next to [completed] and a hash, when that status
    had not met it. *)
Theorem hash_wait_completes_without_success env store o exec posts h :
  beforePolling urlOrigin cfg env store o = Polling exec posts ->
  waitForHash o = true ->
  truthyS (finalTxHash (pollPhase o env exec)) = false ->
  waitForTransactionHash env (hashTimeoutMs o) = Some h -> h <> "" ->
  exists r,
    outcome (sendIntent urlOrigin cfg env store o) = Some r /\
    status r = "completed" /\ transactionHash r = Some h /\
    success r = meetsCloseOn (closeOn o) (finalStatus (pollPhase o env exec)) /\
    (meetsCloseOn (closeOn o) (finalStatus (pollPhase o env exec)) = false ->
     success r = false /\ status r = "completed" /\ transactionHash r = Some h).
Proof.
  intros Hb W F H Hne.
  pose proof (finish_hash_found o env exec _ h W F H Hne) as E.
  unfold sendIntent. rewrite Hb.
  destruct (finish o env exec (pollPhase o env exec)) as [r posts'] eqn:Fi.
  cbn in E. subst r. eexists. split; [reflexivity |]. cbn.
  repeat split; auto.
Qed.

(** A non-OK prepare response: the key [1auth-user] is removed exactly when
    the message contains "User not found". *)
Theorem prepare_failure_clears_default_key env store o err :
  validate o = None ->
  prepare env (requestBody cfg o) = NotOk err ->
  let message := orS err "Failed to prepare intent" in
  let run := sendIntent urlOrigin cfg env store o in
  (includes message "User not found" = true ->
   outcome run = Some (failedResult "USER_NOT_FOUND" message) /\
   storage run = delete "1auth-user" store) /\
  (includes message "User not found" = false ->
   outcome run = Some (failedResult "PREPARE_FAILED" message) /\
   storage run = store).
Proof.
  intros V P. cbn zeta. unfold sendIntent, beforePolling. rewrite V, P.
  split; intros ->; cbn; auto.
Qed.

End Pipeline.

Lemma aggregateBatch_counts raw :
  successCount (aggregateBatch raw) + failureCount (aggregateBatch raw)
  = length (results (aggregateBatch raw)) /\
  (batch_success (aggregateBatch raw) = true <-> failureCount (aggregateBatch raw) = 0).
Proof.
  unfold aggregateBatch. cbn.
  set (rs := map batchItem raw).
  pose proof (List.filter_length_le (fun r => truthy (item_success r)) rs) as Hle.
  split; [lia |].
  rewrite Nat.eqb_eq. lia.
Qed.

Lemma batchSigned_cases message r :
  batchSigned message = Some r ->
  r = emptyBatch \/ exists raw, r = aggregateBatch raw.
Proof.
  unfold batchSigned.
  repeat match goal with
         | |- context [if ?b then _ else _] => destruct b
         | |- context [match ?x with _ => _ end] => destruct x
         end; intros [= <-]; eauto.
Qed.

Section Batch.

Variable urlOrigin : string -> option string.
Variable cfg : Config.

Lemma sendBatchIntent_cases env store o r :
  batchOutcome (sendBatchIntent urlOrigin cfg env store o) = Some r ->
  r = emptyBatch \/ exists raw, r = aggregateBatch raw.
Proof.
  unfold sendBatchIntent.
  destruct (negb (truthy (b_username o))); [intros [= <-]; auto |].
  destruct (match intents o with Some (_ :: _) => false | _ => true end);
    [intros [= <-]; auto |].
  destruct (batchPrepare env); try (intros [= <-]; auto; fail).
  destruct (urlOrigin (getDialogUrl cfg)); [| discriminate].
  destruct (negb (batchReady env)); [intros [= <-]; auto |].
  cbn. apply batchSigned_cases.
Qed.

(** C6 (amended).  Every result of [sendBatchIntent] has
    [successCount + failureCount = results.length], and [success] true
    implies [failureCount = 0].  The result is either the aggregation of
    the dialog's per-intent results, where [success] is true if and only
    if [failureCount] is 0, or the empty result of the branches that
    return early (validation, prepare failure, cancelled handshake,
    rejected or closed signing), where [failureCount] is 0 and [success]
    is false. *)
Theorem batch_counts_add_up env store o r :
  batchOutcome (sendBatchIntent urlOrigin cfg env store o) = Some r ->
  successCount r + failureCount r = length (results r) /\
  (batch_success r = true -> failureCount r = 0) /\
  ((exists raw, r = aggregateBatch raw /\
                (batch_success r = true <-> failureCount r = 0)) \/
   (r = emptyBatch /\ batch_success r = false /\ results r = [] /\
    successCount r = 0 /\ failureCount r = 0)).
Proof.
  intros H.
  destruct (sendBatchIntent_cases env store o r H) as [-> | [raw ->]].
  - split; [reflexivity |]. split; [discriminate |]. right. auto.
  - destruct (aggregateBatch_counts raw) as [Hsum Hiff].
    split; [exact Hsum |]. split; [apply Hiff |]. left. eauto.
Qed.

End Batch.

(** The stored keys other than [1auth-user] survive every prepare
    failure. *)
Lemma prepare_failure_keeps_other_keys urlOrigin cfg env store o err key :
  validate o = None ->
  prepare env (requestBody cfg o) = NotOk err ->
  key <> "1auth-user" ->
  storage (sendIntent urlOrigin cfg env store o) !! key = store !! key.
Proof.
  intros V P Hk. unfold sendIntent, beforePolling. rewrite V, P. cbn.
  destruct (includes _ _); [| reflexivity].
  now apply lookup_delete_ne.
Qed.

(** C7 (code at the failing input).  A provider configured with the
    storage key [my-app-user] keeps its Stored User there.  When prepare
    answers "User not found", [sendIntent] reports USER_NOT_FOUND and
    removes the key [1auth-user]: the record under [my-app-user] is still
    in place and the provider still reads alice from it. *)
Lemma user_not_found_misses_custom_key :
  Provider.storageKey (providerOptions (Some "my-app-user")) = "my-app-user" /\
  outcome (sendIntent sampleUrlOrigin pageConfig
             (envWith (NotOk (Some "User not found")) (remote "pending" None) [])
             (aliceStore "my-app-user") (aliceIntent None false))
  = Some (failedResult "USER_NOT_FOUND" "User not found") /\
  storage (sendIntent sampleUrlOrigin pageConfig
             (envWith (NotOk (Some "User not found")) (remote "pending" None) [])
             (aliceStore "my-app-user") (aliceIntent None false))
  !! "my-app-user" = Some aliceRecord /\
  Provider.getStoredUser sampleParse (providerOptions (Some "my-app-user"))
    (storage (sendIntent sampleUrlOrigin pageConfig
                (envWith (NotOk (Some "User not found")) (remote "pending" None) [])
                (aliceStore "my-app-user") (aliceIntent None false)))
  = Some {| Provider.su_username := VString "alice";
            Provider.su_address := VString aliceAddress |}.
Proof. repeat split; vm_compute; reflexivity. Qed.

(** C5 (as stated, refuted).  The status endpoint answers [failed]
    together with the hash of the failed transaction; the result of
    [sendIntent] has status [failed] and that hash. *)
Lemma failed_result_may_carry_hash :
  outcome (sendIntent sampleUrlOrigin pageConfig
             (envWith prepared (remote "failed" (Some "0xdead")) [])
             sampleStorage (aliceIntent None false))
  = Some failedWithHash /\
  status failedWithHash = "failed" /\
  truthyS (transactionHash failedWithHash) = true.
Proof. repeat split; vm_compute; reflexivity. Qed.

Lemma failed_result_hash_is_remote_witness :
  outcome (sendIntent sampleUrlOrigin pageConfig
             (envWith prepared (remote "failed" (Some "0xdead")) [])
             sampleStorage (aliceIntent None false))
  = Some failedWithHash /\
  status failedWithHash = "failed" /\
  ((beforePolling sampleUrlOrigin pageConfig
      (envWith prepared (remote "failed" (Some "0xdead")) [])
      sampleStorage (aliceIntent None false)
    = Early (sendIntent sampleUrlOrigin pageConfig
               (envWith prepared (remote "failed" (Some "0xdead")) [])
               sampleStorage (aliceIntent None false)) /\
    transactionHash failedWithHash = None) \/
   (exists exec posts,
       beforePolling sampleUrlOrigin pageConfig
         (envWith prepared (remote "failed" (Some "0xdead")) [])
         sampleStorage (aliceIntent None false) = Polling exec posts /\
       (truthyS (transactionHash failedWithHash) = true ->
        finalStatus (pollPhase (aliceIntent None false)
                       (envWith prepared (remote "failed" (Some "0xdead")) []) exec)
        = "failed" /\
        finalTxHash (pollPhase (aliceIntent None false)
                       (envWith prepared (remote "failed" (Some "0xdead")) []) exec)
        = transactionHash failedWithHash))).
Proof.
  split; [reflexivity |]. split; [reflexivity |].
  exact (failed_result_hash_is_remote sampleUrlOrigin pageConfig
           (envWith prepared (remote "failed" (Some "0xdead")) [])
           sampleStorage (aliceIntent None false) failedWithHash
           eq_refl eq_refl).
Defined.

(** C3 (as stated, refuted).  With [closeOn = "claimed"] and [waitForHash]
    set, the observed status is [claimed] but no hash ever arrives: the
    result is the HASH_TIMEOUT failure, with [success] false. *)
Lemma claimed_status_without_hash_fails :
  closeOn (aliceIntent (Some Claimed) true) = Some Claimed /\
  observedStatus sampleUrlOrigin pageConfig
    (envWith prepared (remote "claimed" None) [])
    sampleStorage (aliceIntent (Some Claimed) true) = Some "claimed" /\
  (success <$> outcome (sendIntent sampleUrlOrigin pageConfig
                          (envWith prepared (remote "claimed" None) [])
                          sampleStorage (aliceIntent (Some Claimed) true)))
  = Some false.
Proof. repeat split; vm_compute; reflexivity. Qed.

Lemma close_on_threshold_decides_success_witness :
  outcome (sendIntent sampleUrlOrigin pageConfig
             (envWith prepared (remote "completed" (Some "0xabc")) [])
             sampleStorage (aliceIntent (Some Completed) false))
  = Some settledResult /\
  observedStatus sampleUrlOrigin pageConfig
    (envWith prepared (remote "completed" (Some "0xabc")) [])
    sampleStorage (aliceIntent (Some Completed) false) = Some "completed".
Proof.
  split; [reflexivity |].
  exact (proj1 (close_on_threshold_decides_success sampleUrlOrigin pageConfig
                  (envWith prepared (remote "completed" (Some "0xabc")) [])
                  sampleStorage (aliceIntent (Some Completed) false)
                  settledResult eq_refl)
           eq_refl eq_refl).
Defined.

Lemma hash_wait_completes_without_success_witness :
  beforePolling sampleUrlOrigin pageConfig
    (envWith prepared (remote "filled" None) [(0%Z, remote "filled" (Some "0xabc"))])
    sampleStorage (aliceIntent (Some Completed) true) = Polling pendingExec [] /\
  exists r,
    outcome (sendIntent sampleUrlOrigin pageConfig
               (envWith prepared (remote "filled" None)
                  [(0%Z, remote "filled" (Some "0xabc"))])
               sampleStorage (aliceIntent (Some Completed) true)) = Some r /\
    status r = "completed" /\ transactionHash r = Some "0xabc" /\
    success r
    = meetsCloseOn (closeOn (aliceIntent (Some Completed) true))
        (finalStatus (pollPhase (aliceIntent (Some Completed) true)
                        (envWith prepared (remote "filled" None)
                           [(0%Z, remote "filled" (Some "0xabc"))]) pendingExec)) /\
    (meetsCloseOn (closeOn (aliceIntent (Some Completed) true))
       (finalStatus (pollPhase (aliceIntent (Some Completed) true)
                       (envWith prepared (remote "filled" None)
                          [(0%Z, remote "filled" (Some "0xabc"))]) pendingExec))
     = false ->
     success r = false /\ status r = "completed" /\
     transactionHash r = Some "0xabc").
Proof.
  split; [reflexivity |].
  apply (hash_wait_completes_without_success sampleUrlOrigin pageConfig
           (envWith prepared (remote "filled" None)
              [(0%Z, remote "filled" (Some "0xabc"))])
           sampleStorage (aliceIntent (Some Completed) true) pendingExec []
           "0xabc").
  - reflexivity.
  - reflexivity.
  - vm_compute. reflexivity.
  - vm_compute. reflexivity.
  - discriminate.
Defined.

(** C6 (as stated, refuted).  The validation branch and the branch where
    the user closes the signing dialog both return the empty result:
    [failureCount] is 0 while [success] is false. *)
Lemma empty_batch_result_is_not_success :
  batchOutcome (sendBatchIntent sampleUrlOrigin pageConfig
                  (batchEnvWith closeMessage) sampleStorage (aliceBatch ""))
  = Some emptyBatch /\
  batchOutcome (sendBatchIntent sampleUrlOrigin pageConfig
                  (batchEnvWith closeMessage) sampleStorage (aliceBatch "alice"))
  = Some emptyBatch /\
  failureCount emptyBatch = 0 /\ batch_success emptyBatch = false.
Proof. repeat split. Qed.

Lemma batch_counts_add_up_witness :
  batchOutcome (sendBatchIntent sampleUrlOrigin pageConfig
                  (batchEnvWith batchResultMessage) sampleStorage
                  (aliceBatch "alice"))
  = Some (aggregateBatch mixedBatchResults) /\
  successCount (aggregateBatch mixedBatchResults)
  + failureCount (aggregateBatch mixedBatchResults)
  = length (results (aggregateBatch mixedBatchResults)).
Proof.
  split; [reflexivity |].
  exact (proj1 (batch_counts_add_up sampleUrlOrigin pageConfig
                  (batchEnvWith batchResultMessage) sampleStorage
                  (aliceBatch "alice") (aggregateBatch mixedBatchResults)
                  eq_refl)).
Defined.

End IntentProofs.

(* ===================================================================== *)
(** * Properties of the provider *)
(* ===================================================================== *)

Module ProviderProofs.

Import Dialog Intent Provider Samples.

Section Scenario.

Variable JSON_parse : string -> option JsVal.
Variable parseInt16 : string -> JsNumber.
Variable toNumber : string -> JsNumber.
Variable toBigInt : string -> option Z.
Variable options : ProviderOptions.
Variable client : Client.

Lemma showZ_nonempty z : (showZ z =? "") = false.
Proof.
  unfold showZ. destruct z as [| p | p]; cbn; try reflexivity.
  pose proof (DecimalPos.Unsigned.to_uint_nonnil p) as H.
  destruct (Pos.to_uint p); [contradiction | reflexivity ..].
Qed.

Lemma bind_value {A B} (m : M A) (k : A -> M B) st a st' :
  m st = (Value a, st') -> bind m k st = k a st'.
Proof. unfold bind. now intros ->. Qed.

Lemma ensureUser_stored st u :
  getStoredUser JSON_parse options (storage st) = Some u ->
  ensureUser JSON_parse options client st = (Value u, st).
Proof. intros H. unfold ensureUser, bind, readState. now rewrite H. Qed.

Lemma request_wallet_sendCalls params :
  request JSON_parse parseInt16 toNumber toBigInt options client
    "wallet_sendCalls" params
  = (let payload := or (hd VUndefined (paramList params)) (VObject []) in
     bind (ensureUser JSON_parse options client) (fun user =>
     bind (targetChainOf parseInt16 toNumber (get payload "chainId")) (fun targetChain =>
       match or (get payload "calls") (VArray []) with
       | VArray rawCalls =>
           match normalizeCalls toBigInt rawCalls with
           | None => throw "TypeError"
           | Some [] => throw "No calls provided"
           | Some calls => Provider.sendIntent options client user targetChain calls
           end
       | _ => throw "TypeError"
       end))).
Proof. reflexivity. Qed.

End Scenario.

(** The first half of C4, at its input: a Stored User for alice, the call
    [{to, value: 2}] and the chain override 10, no custom signer.  The
    provider makes one client call, [sendIntent] with the normalized call
    [{to, data: "0x", value: "2"}], chain 10 and username alice, unsigned,
    so that the prepare body is the direct one. *)
Lemma wallet_sendCalls_forwards_alice_intent :
  clientCalls
    (snd (request sampleParse (fun _ => NaN) (fun _ => NaN) (fun _ => None)
            (providerOptions None) sampleClient "wallet_sendCalls"
            (sendCallsParams 10 aliceAddress 2)
            (initialState (providerOptions None) (aliceStore "1auth-user"))))
  = [CallSendIntent
       (directOptions (providerOptions None) (VString "alice") 10
          [normalizedCall aliceAddress 2])] /\
  normalizedCall aliceAddress 2
  = {| call_to := VString aliceAddress; call_data := VString "0x";
       call_value := VString "2"; call_label := VUndefined;
       call_sublabel := VUndefined |} /\
  requestBody pageConfig
    (directOptions (providerOptions None) (VString "alice") 10
       [normalizedCall aliceAddress 2])
  = DirectBody (VString "alice") (VNumber (Int 10))
      (Some [normalizedCall aliceAddress 2]) None None VUndefined
      (if truthyS (clientId pageConfig) then clientId pageConfig else None).
Proof.
  split; [vm_compute; reflexivity |]. split; reflexivity.
Qed.

(** C4 (code bug).  The client settles with the intent id [intent-1] and
    the transaction hash [0xabc]; the [wallet_sendCalls] request resolves
    with [intent-1], not with the hash. *)
Lemma wallet_sendCalls_returns_intent_id :
  transactionHash
    (client_sendIntent sampleClient
       (directOptions (providerOptions None) (VString "alice") 10
          [normalizedCall aliceAddress 2]))
  = Some "0xabc" /\
  fst (request sampleParse (fun _ => NaN) (fun _ => NaN) (fun _ => None)
         (providerOptions None) sampleClient "wallet_sendCalls"
         (sendCallsParams 10 aliceAddress 2)
         (initialState (providerOptions None) (aliceStore "1auth-user")))
  = Value (VString "intent-1") /\
  VString "intent-1" <> VString "0xabc".
Proof.
  split; [reflexivity |]. split; [vm_compute; reflexivity | discriminate].
Qed.

End ProviderProofs.

(* ===================================================================== *)
(** * Properties of runs of the dialog session *)
(* ===================================================================== *)

Module DialogTraceProofs.

Import Dialog Samples DialogTraces DialogProofs.

Lemma quiet_refl s : quiet s s.
Proof. split; auto. Qed.

Lemma quiet_post s x m : quiet s x -> quiet s (post m x).
Proof.
  intros H. unfold post.
  destruct (dialogAttached (dom x)) eqn:A; [| exact H].
  destruct H as [H1 H2 H3 H4 H5 H6]. split; cbn; auto.
  intros As. rewrite (H4 A) in As. discriminate.
Qed.

Lemma quiet_cleanup s x : quiet s x -> quiet s (cleanup x).
Proof. intros [H1 H2 H3 H4 H5 H6]. split; cbn; auto; discriminate. Qed.

Lemma quiet_resolve s x v : quiet s x -> quiet s (resolve v x).
Proof. intros [H1 H2 H3 H4 H5 H6]. split; cbn; auto. Qed.

Lemma quiet_withPromises s x f : quiet s x -> quiet s (withPromises f x).
Proof. intros [H1 H2 H3 H4 H5 H6]. split; cbn; auto. Qed.

Lemma quiet_withWaiting s x f : quiet s x -> quiet s (withWaiting f x).
Proof. intros [H1 H2 H3 H4 H5 H6]. split; cbn; auto. Qed.

Lemma quiet_withSurfaces s x f : quiet s x -> quiet s (withSurfaces f x).
Proof. intros [H1 H2 H3 H4 H5 H6]. split; cbn; auto. Qed.

Lemma quiet_resolveClose s x : quiet s x -> quiet s (resolveClose x).
Proof.
  intros H. unfold resolveClose.
  destruct (pendingBatch (promises x)); [| now apply quiet_withPromises].
  destruct (closeResolved (promises x) =? 0)%nat.
  - now apply quiet_resolve, quiet_withPromises.
  - now apply quiet_withPromises.
Qed.

Lemma quiet_teardown s x : quiet s x -> quiet s (teardown x).
Proof.
  intros H. unfold teardown. destruct (settled (waiting x)); [exact H |].
  now apply quiet_withWaiting.
Qed.

Lemma quiet_withDom s x f :
  (forall d, hostListener (f d) = hostListener d) ->
  (forall d, escapeListener (f d) = escapeListener d) ->
  (forall d, dialogOpen (f d) = true -> dialogOpen d = true) ->
  (forall d, dialogAttached (f d) = dialogAttached d) ->
  quiet s x -> quiet s (withDom f x).
Proof.
  intros F1 F2 F3 F4 [H1 H2 H3 H4 H5 H6]. split; cbn; auto.
  - rewrite F1. exact H1.
  - rewrite F2. exact H2.
  - rewrite F4. exact H4.
Qed.

Create HintDb quiet.

#[local] Hint Resolve quiet_refl quiet_post quiet_cleanup quiet_resolve
  quiet_withPromises quiet_withWaiting quiet_withSurfaces quiet_resolveClose
  quiet_teardown : quiet.

#[local] Hint Extern 1 (quiet _ (withDom _ _)) =>
  apply quiet_withDom; [reflexivity | reflexivity | cbn; auto | reflexivity |] : quiet.

Lemma quiet_waiterHandleMessage cfg o env w s x ev :
  quiet s x -> quiet s (waiterHandleMessage cfg o env w x ev).
Proof.
  intros H.
  destruct w; cbn;
    unfold readyHandleMessage, intentSigningHandleMessage, signingHandleMessage,
      refreshHandleMessage, batchHandleMessage, closeHandleMessage,
      modalAuthHandleMessage, popupAuthHandleMessage, authenticateHandleMessage,
      connectHandleMessage, modalSigningHandleMessage, popupSigningHandleMessage,
      embedHandleMessage, waitForDialogClose, waitForPopupAuthResponse,
      onClose, markReady, holdBatch, clearTimer, closePopup, openPopup,
      embedCleanup;
    unfold unsubscribe, subscribe;
    cbn zeta;
    repeat match goal with
           | |- context [if ?b then _ else _] => destruct b
           end;
    auto 8 with quiet;
    repeat match goal with
           | |- context [match ?x with _ => _ end] => destruct x
           end;
    auto 8 with quiet.
Qed.

Lemma quiet_fireClose s x : quiet s x -> quiet s (fireClose x).
Proof.
  unfold fireClose, readyHandleClose, closeHandleClose, onClose, unsubscribe.
  intros H. case_on_branches; auto 8 with quiet.
Qed.

Lemma quiet_hostHandleMessage s ev :
  hostListener (dom s) = true -> quiet s (hostHandleMessage s ev).
Proof.
  intros L. unfold hostHandleMessage.
  case_on_branches; auto 6 with quiet.
  split; cbn; auto. rewrite L. discriminate.
Qed.

Lemma quiet_step cfg o s e : quiet s (step cfg o s e).
Proof.
  destruct e as [ev env | key | onDialog | |]; unfold step.
  - destruct (hostListener (dom s)) eqn:L.
    + pose proof (quiet_hostHandleMessage s ev L) as H.
      destruct (waiter (waiting (hostHandleMessage s ev))); [| exact H].
      now apply quiet_waiterHandleMessage.
    + destruct (waiter (waiting s)); [| auto with quiet].
      apply quiet_waiterHandleMessage. auto with quiet.
  - unfold handleEscape. case_on_branches; auto with quiet.
  - unfold handleClick. case_on_branches; auto with quiet.
  - destruct (0 <? closeTasks (dom s))%nat; [| auto with quiet].
    apply quiet_fireClose. auto with quiet.
  - destruct (dialogOpen (dom s)); [| auto with quiet].
    apply quiet_fireClose.
    apply quiet_withDom; auto with quiet. cbn. discriminate.
Qed.

Lemma quiet_trans s x y : quiet s x -> quiet x y -> quiet s y.
Proof.
  intros [H1 H2 H3 H4 H5 H6] [K1 K2 K3 K4 K5 K6]. split; auto.
  - intros A. rewrite K5, H5; auto.
    destruct (dialogAttached (dom x)) eqn:E; [| reflexivity].
    rewrite (H4 eq_refl) in A. discriminate.
  - intros L. rewrite K6, H6; auto.
    destruct (hostListener (dom x)) eqn:E; [| reflexivity].
    rewrite (H1 eq_refl) in L. discriminate.
Qed.

Lemma quiet_run cfg o trace s : quiet s (run cfg o s trace).
Proof.
  revert s. induction trace as [| e trace IH]; intros s; [apply quiet_refl |].
  cbn. eapply quiet_trans; [apply quiet_step | apply IH].
Qed.

Lemma run_cleaned cfg o s trace :
  cleaned (dom s) ->
  cleaned (dom (run cfg o s trace)) /\
  posted (run cfg o s trace) = posted s /\
  localStorage (run cfg o s trace) = localStorage s.
Proof.
  intros (L & E & O & A).
  destruct (quiet_run cfg o trace s) as [H1 H2 H3 H4 H5 H6].
  repeat split; auto.
  - destruct (hostListener (dom (run cfg o s trace))); [| reflexivity].
    rewrite H1 in L; auto.
  - destruct (escapeListener (dom (run cfg o s trace))); [| reflexivity].
    rewrite H2 in E; auto.
  - destruct (dialogOpen (dom (run cfg o s trace))); [| reflexivity].
    rewrite H3 in O; auto.
  - destruct (dialogAttached (dom (run cfg o s trace))); [| reflexivity].
    rewrite H4 in A; auto.
Qed.

(** X1.  After [cleanup] the page stays as [cleanup] left it: whatever
    events follow, the host and Escape listeners stay removed and the
    dialog closed and detached, nothing more is posted to the frame, and
    local storage is not touched. *)
Theorem cleaned_page_stays_quiet cfg o s trace :
  cleaned (dom s) ->
  cleaned (dom (run cfg o s trace)) /\
  posted (run cfg o s trace) = posted s /\
  localStorage (run cfg o s trace) = localStorage s.
Proof.
  intros K. destruct (run_cleaned cfg o s trace K) as (C & P & L).
  split; [exact C | split; [exact P | exact L]].
Qed.

Lemma cleaned_page_stays_quiet_witness :
  cleaned (dom (cleanup waitingSession)) /\
  posted (run pageConfig "https://passkey.1auth.box" (cleanup waitingSession)
            [ Message (messageOf "https://passkey.1auth.box" "PASSKEY_READY") quietEnv;
              Message (messageOf "https://passkey.1auth.box" "PASSKEY_DISCONNECT")
                quietEnv ])
  = posted (cleanup waitingSession).
Proof.
  assert (K : cleaned (dom (cleanup waitingSession))) by (repeat split).
  split; [exact K |].
  exact (proj1 (proj2 (cleaned_page_stays_quiet pageConfig
           "https://passkey.1auth.box" (cleanup waitingSession)
           [ Message (messageOf "https://passkey.1auth.box" "PASSKEY_READY") quietEnv;
             Message (messageOf "https://passkey.1auth.box" "PASSKEY_DISCONNECT")
               quietEnv ] K))).
Defined.

(** ** Events other than messages *)

Lemma step_silent cfg o s e :
  closeListener (waiting s) = None -> isMessage e = false ->
  waiting (step cfg o s e) = waiting s /\
  promises (step cfg o s e) = promises s /\
  posted (step cfg o s e) = posted s /\
  localStorage (step cfg o s e) = localStorage s.
Proof.
  intros C M. destruct e as [ev env | key | onDialog | |]; try discriminate;
    unfold step, handleEscape, handleClick, fireClose; cbn.
  - now case_on_branches.
  - now case_on_branches.
  - rewrite C. now case_on_branches.
  - rewrite C. now case_on_branches.
Qed.

(** Without a close listener, an event that is not a message leaves the
    page with the Escape listener on, or cleaned. *)
Lemma step_escape_or_cleaned cfg o s e :
  closeListener (waiting s) = None -> isMessage e = false ->
  escapeListener (dom s) = true \/ cleaned (dom s) ->
  escapeListener (dom (step cfg o s e)) = true \/ cleaned (dom (step cfg o s e)).
Proof.
  intros C M [E | K].
  - destruct e as [ev env | key | onDialog | |]; try discriminate;
      unfold step, handleEscape, handleClick, fireClose, cleaned; cbn;
      rewrite ?C, ?E; case_on_branches; cbn; auto 10.
  - right. exact (proj1 (run_cleaned cfg o s [e] K)).
Qed.

Lemma step_cleans cfg o s e :
  closeListener (waiting s) = None ->
  (e = Keydown "Escape" /\ escapeListener (dom s) = true) \/ e = Click true ->
  cleaned (dom (step cfg o s e)).
Proof.
  intros C [[-> E] | ->]; unfold step, cleaned; cbn; rewrite ?E; cbn; auto.
Qed.

Lemma run_silent cfg o trace s :
  closeListener (waiting s) = None ->
  Forall (fun e => isMessage e = false) trace ->
  waiting (run cfg o s trace) = waiting s /\
  promises (run cfg o s trace) = promises s /\
  posted (run cfg o s trace) = posted s /\
  localStorage (run cfg o s trace) = localStorage s /\
  (escapeListener (dom s) = true \/ cleaned (dom s) ->
   escapeListener (dom (run cfg o s trace)) = true \/
   cleaned (dom (run cfg o s trace))).
Proof.
  revert s. induction trace as [| e trace IH]; intros s C F; [cbn; auto 10 |].
  inversion F as [| ? ? M F']; subst.
  destruct (step_silent cfg o s e C M) as (W & P & Q & L).
  assert (C' : closeListener (waiting (step cfg o s e)) = None) by now rewrite W.
  destruct (IH (step cfg o s e) C' F') as (W' & P' & Q' & L' & K').
  unfold run in *. cbn. repeat (split; [congruence |]).
  intros H. apply K'. now apply step_escape_or_cleaned.
Qed.

(** X2.  A waiter that sets no timer and has no [close] listener on the
    dialog (the waiters of the modal dialog after the ready handshake,
    [waitForDialogClose] apart, and the embed waiter) is settled by
    messages only: keys, clicks and [close] events leave its listener
    subscribed and its promise as it was, post nothing and keep local
    storage.  Yet an Escape key press or a click on the backdrop among
    those events closes and detaches the dialog for good.  (The two popup
    waiters are left out: a timer settles them when the popup is
    closed.) *)
Theorem only_messages_settle_waiter cfg o s trace :
  (forall w, waiter (waiting s) = Some w -> watchesPopup w = false) ->
  closeListener (waiting s) = None ->
  Forall (fun e => isMessage e = false) trace ->
  waiting (run cfg o s trace) = waiting s /\
  promises (run cfg o s trace) = promises s /\
  posted (run cfg o s trace) = posted s /\
  localStorage (run cfg o s trace) = localStorage s /\
  ((escapeListener (dom s) = true /\ In (Keydown "Escape") trace) \/
   In (Click true) trace ->
   cleaned (dom (run cfg o s trace))).
Proof.
  intros _ C F. destruct (run_silent cfg o trace s C F) as (W & P & Q & L & _).
  repeat (split; [assumption |]).
  intros H.
  assert (exists before e after,
             trace = (before ++ e :: after)%list /\
             ((e = Keydown "Escape" /\ escapeListener (dom s) = true) \/
              e = Click true)) as (before & e & after & -> & He).
  { destruct H as [[E [before [after ->]]%in_split] | [before [after ->]]%in_split];
      exists before; eexists; exists after; split; eauto. }
  apply Forall_app in F as [Fb Fa]. inversion Fa as [| ? ? M Fa']; subst.
  unfold run. rewrite fold_left_app. cbn. fold (run cfg o s before).
  destruct (run_silent cfg o before s C Fb) as (Wb & _ & _ & _ & Kb).
  assert (Cb : closeListener (waiting (run cfg o s before)) = None) by now rewrite Wb.
  apply run_cleaned.
  destruct He as [[-> E] | ->].
  - destruct (Kb (or_introl E)) as [E' | K'].
    + apply step_cleans; auto.
    + exact (proj1 (run_cleaned cfg o _ [Keydown "Escape"] K')).
  - apply step_cleans; auto.
Qed.

Lemma only_messages_settle_waiter_witness :
  closeListener (waiting (subscribe Signing openedSession)) = None /\
  promises (run pageConfig "https://passkey.1auth.box"
              (subscribe Signing openedSession) [Keydown "Escape"; CloseTask])
  = promises (subscribe Signing openedSession) /\
  cleaned (dom (run pageConfig "https://passkey.1auth.box"
                  (subscribe Signing openedSession) [Keydown "Escape"; CloseTask])).
Proof.
  assert (F : Forall (fun e => isMessage e = false) [Keydown "Escape"; CloseTask])
    by (repeat constructor).
  pose proof (only_messages_settle_waiter pageConfig "https://passkey.1auth.box"
                (subscribe Signing openedSession) [Keydown "Escape"; CloseTask]
                (fun w H => match H in _ = x
                                  return match x with
                                         | Some v => watchesPopup v = false
                                         | None => True
                                         end with
                            | eq_refl => eq_refl
                            end)
                eq_refl F)
    as (_ & P & _ & _ & K).
  split; [reflexivity | split; [exact P |]].
  apply K. left. split; [reflexivity | now left].
Defined.

(** ** A page with no waiter *)

Lemma step_idle cfg o s e :
  waiter (waiting s) = None -> closeListener (waiting s) = None ->
  waiting (step cfg o s e) = waiting s /\
  promises (step cfg o s e) = promises s /\
  posted (step cfg o s e) = posted s.
Proof.
  intros W C. destruct e as [ev env | key | onDialog | |].
  - unfold step. destruct (hostListener (dom s)).
    + assert (H : waiting (hostHandleMessage s ev) = waiting s /\
                  promises (hostHandleMessage s ev) = promises s /\
                  posted (hostHandleMessage s ev) = posted s).
      { unfold hostHandleMessage. now case_on_branches. }
      destruct H as (Hw & Hp & Hq). rewrite Hw, W. auto.
    + rewrite W. auto.
  - destruct (step_silent cfg o s (Keydown key) C eq_refl) as (? & ? & ? & _); auto.
  - destruct (step_silent cfg o s (Click onDialog) C eq_refl) as (? & ? & ? & _); auto.
  - destruct (step_silent cfg o s CloseTask C eq_refl) as (? & ? & ? & _); auto.
  - destruct (step_silent cfg o s UserAgentClose C eq_refl) as (? & ? & ? & _); auto.
Qed.

(** X3.  Once no waiter is subscribed, the client reacts to nothing but
    resize and disconnect messages and the triggers of [cleanup]: whatever
    events follow, no promise is resolved, nothing is posted to the frame
    and no listener comes back.  So a [PASSKEY_CLOSE] that the dialog
    sends after a waiter has resolved is ignored. *)
Theorem idle_page_resolves_nothing cfg o s trace :
  waiter (waiting s) = None -> closeListener (waiting s) = None ->
  waiting (run cfg o s trace) = waiting s /\
  promises (run cfg o s trace) = promises s /\
  posted (run cfg o s trace) = posted s.
Proof.
  revert s. induction trace as [| e trace IH]; intros s W C; [auto |].
  destruct (step_idle cfg o s e W C) as (Hw & Hp & Hq).
  assert (W' : waiter (waiting (step cfg o s e)) = None) by now rewrite Hw.
  assert (C' : closeListener (waiting (step cfg o s e)) = None) by now rewrite Hw.
  destruct (IH (step cfg o s e) W' C') as (Iw & Ip & Iq).
  unfold run in *. cbn. repeat split; congruence.
Qed.

Lemma idle_page_resolves_nothing_witness :
  waiter (waiting openedSession) = None /\
  promises (run pageConfig "https://passkey.1auth.box" openedSession
              [Message (messageOf "https://passkey.1auth.box" "PASSKEY_CLOSE") quietEnv])
  = promises openedSession.
Proof.
  split; [reflexivity |].
  exact (proj1 (proj2 (idle_page_resolves_nothing pageConfig
           "https://passkey.1auth.box" openedSession
           [Message (messageOf "https://passkey.1auth.box" "PASSKEY_CLOSE") quietEnv]
           eq_refl eq_refl))).
Defined.

(** ** The close message *)

Lemma hostHandleMessage_close s ev :
  isStr (get (data ev) "type") "PASSKEY_CLOSE" = true -> hostHandleMessage s ev = s.
Proof.
  intros T%isStr_true. unfold hostHandleMessage. rewrite T. cbn.
  now destruct (negb (origin ev =? hostOrigin (dom s))).
Qed.

Lemma host_step_close cfg o s ev env :
  isStr (get (data ev) "type") "PASSKEY_CLOSE" = true ->
  step cfg o s (Message ev env)
  = match waiter (waiting s) with
    | Some w => waiterHandleMessage cfg o env w s ev
    | None => s
    end.
Proof.
  intros T. unfold step. rewrite hostHandleMessage_close by exact T.
  now destruct (hostListener (dom s)).
Qed.

(** X4.  Every waiter of the modal dialog takes a guarded [PASSKEY_CLOSE]
    as the user cancelling: in that one turn it removes its message
    listener, runs [cleanup] (listeners off, dialog closed and detached),
    posts nothing, and resolves its promise once with a result whose
    [success] is not set.  [waitForModalAuthResponse] does so once the
    dialog has signalled ready. *)
Theorem close_message_cancels_waiter cfg o env w s ev :
  waiter (waiting s) = Some w -> cancelsOnClose w = true ->
  (w = ModalAuth -> dialogReady (waiting s) = true) ->
  guarded o "PASSKEY_CLOSE" ev ->
  waiter (waiting (step cfg o s (Message ev env))) = None /\
  cleaned (dom (step cfg o s (Message ev env))) /\
  posted (step cfg o s (Message ev env)) = posted s /\
  exists v,
    resolved (promises (step cfg o s (Message ev env)))
    = (resolved (promises s) ++ [v])%list /\
    truthy (get v "success") = false.
Proof.
  intros W K R [O T]. rewrite host_step_close by exact T. rewrite W.
  apply isStr_true in T.
  destruct w; try discriminate; cbn;
    unfold intentSigningHandleMessage, signingHandleMessage, refreshHandleMessage,
      batchHandleMessage, modalAuthHandleMessage, authenticateHandleMessage,
      connectHandleMessage, modalSigningHandleMessage, isResultFor;
    cbn zeta; rewrite T, O, String.eqb_refl; cbn;
    rewrite ?(R eq_refl); cbn;
    (repeat split; [eexists; split; [reflexivity | reflexivity]]).
Qed.

Lemma close_message_cancels_waiter_witness :
  cleaned (dom (step pageConfig "https://passkey.1auth.box"
                  (subscribe Connect openedSession)
                  (Message (messageOf "https://passkey.1auth.box" "PASSKEY_CLOSE")
                     quietEnv))).
Proof.
  exact (proj1 (proj2 (close_message_cancels_waiter pageConfig
           "https://passkey.1auth.box" quietEnv Connect
           (subscribe Connect openedSession)
           (messageOf "https://passkey.1auth.box" "PASSKEY_CLOSE")
           eq_refl eq_refl (fun H => ltac:(discriminate H))
           (conj eq_refl eq_refl)))).
Defined.

(** ** [waitForModalAuthResponse] before the dialog is ready *)

(** X5.  Until the dialog has signalled ready, [waitForModalAuthResponse]
    ignores [PASSKEY_CLOSE]: any number of guarded close messages leave
    the session as it was (a stale close of an earlier dialog cannot
    cancel the new one).  The first guarded [PASSKEY_READY] posts
    [PASSKEY_INIT] with [mode: "iframe"] to the frame and arms the
    waiter, resolving nothing. *)
Theorem modal_auth_ignores_early_close cfg o s :
  waiter (waiting s) = Some ModalAuth -> dialogReady (waiting s) = false ->
  (forall closes,
      Forall (fun m => guarded o "PASSKEY_CLOSE" (fst m)) closes ->
      run cfg o s (map deliver closes) = s) /\
  (forall ev env,
      guarded o "PASSKEY_READY" ev ->
      step cfg o s (Message ev env)
      = post (VObject [("type", VString "PASSKEY_INIT"); ("mode", VString "iframe")])
          (markReady s)).
Proof.
  intros W R. split.
  - intros closes F. induction F as [| [ev env] closes [O T] F IH]; [reflexivity |].
    unfold run in *. cbn [map fold_left]. cbn [fst] in O, T.
    change (deliver (ev, env)) with (Message ev env).
    rewrite host_step_close by exact T. rewrite W.
    cbn [waiterHandleMessage]. unfold modalAuthHandleMessage. cbn zeta.
    apply isStr_true in T. rewrite T, O, String.eqb_refl, R. cbn. exact IH.
  - intros ev env [O T]. apply isStr_true in T.
    assert (H : hostHandleMessage s ev = s).
    { unfold hostHandleMessage. rewrite T. cbn.
      now destruct (negb (origin ev =? hostOrigin (dom s))). }
    unfold step. rewrite H.
    replace (waiter (waiting (if hostListener (dom s) then s else s)))
      with (Some ModalAuth) by now destruct (hostListener (dom s)).
    cbn. unfold modalAuthHandleMessage. cbn zeta.
    rewrite T, O, String.eqb_refl. cbn. now destruct (hostListener (dom s)).
Qed.

Lemma modal_auth_ignores_early_close_witness :
  run pageConfig "https://passkey.1auth.box" (subscribe ModalAuth openedSession)
    (map deliver
       [ (messageOf "https://passkey.1auth.box" "PASSKEY_CLOSE", quietEnv);
         (messageOf "https://passkey.1auth.box" "PASSKEY_CLOSE", quietEnv) ])
  = subscribe ModalAuth openedSession.
Proof.
  apply (proj1 (modal_auth_ignores_early_close pageConfig
           "https://passkey.1auth.box" (subscribe ModalAuth openedSession)
           eq_refl eq_refl)).
  repeat constructor.
Defined.

(** ** Quote refresh *)

Lemma refresh_step cfg o s ev env :
  waiter (waiting s) = Some SigningWithRefresh ->
  guarded o "PASSKEY_REFRESH_QUOTE" ev ->
  step cfg o s (Message ev env) = post (refreshAnswer (refreshed env)) s.
Proof.
  intros W [O T]. apply isStr_true in T.
  assert (H : hostHandleMessage s ev = s).
  { unfold hostHandleMessage. rewrite T. cbn.
    now destruct (negb (origin ev =? hostOrigin (dom s))). }
  unfold step. rewrite H.
  replace (waiter (waiting (if hostListener (dom s) then s else s)))
    with (Some SigningWithRefresh) by now destruct (hostListener (dom s)).
  cbn. unfold refreshHandleMessage. rewrite T, O, String.eqb_refl. cbn.
  destruct (hostListener (dom s)), (refreshed env); reflexivity.
Qed.

(** A request answered before anything else happens is the step of
    [Dialog.step]. *)
Lemma refresh_settled_at_once cfg o s ev env n :
  waiter (waiting s) = Some SigningWithRefresh ->
  guarded o "PASSKEY_REFRESH_QUOTE" ev ->
  refreshStep cfg o
    (refreshStep cfg o {| page := s; inFlight := n |} (Delivered ev env))
    (Settles (refreshed env))
  = {| page := step cfg o s (Message ev env); inFlight := n |}.
Proof.
  intros W G. rewrite (refresh_step cfg o s ev env W G).
  destruct G as [O T]. pose proof T as T'. apply isStr_true in T'.
  assert (H : hostHandleMessage s ev = s).
  { unfold hostHandleMessage. rewrite T'. cbn.
    now destruct (negb (origin ev =? hostOrigin (dom s))). }
  unfold refreshStep. cbn [page inFlight]. rewrite H.
  replace (if hostListener (dom s) then s else s) with s
    by now destruct (hostListener (dom s)).
  rewrite W, O, String.eqb_refl, T. reflexivity.
Qed.

Lemma refresh_request_step cfg o r ev env :
  waiter (waiting (page r)) = Some SigningWithRefresh ->
  guarded o "PASSKEY_REFRESH_QUOTE" ev ->
  refreshStep cfg o r (Delivered ev env)
  = {| page := page r; inFlight := S (inFlight r) |}.
Proof.
  intros W [O T]. pose proof T as T'. apply isStr_true in T'.
  assert (H : hostHandleMessage (page r) ev = page r).
  { unfold hostHandleMessage. rewrite T'. cbn.
    now destruct (negb (origin ev =? hostOrigin (dom (page r)))). }
  unfold refreshStep. rewrite H.
  replace (if hostListener (dom (page r)) then page r else page r) with (page r)
    by now destruct (hostListener (dom (page r))).
  now rewrite W, O, String.eqb_refl, T.
Qed.

Lemma refresh_run_from cfg o trace r :
  waiter (waiting (page r)) = Some SigningWithRefresh ->
  Forall (refreshRequest o) trace ->
  let r' := fold_left (refreshStep cfg o) trace r in
  waiting (page r') = waiting (page r) /\
  promises (page r') = promises (page r) /\
  dom (page r') = dom (page r) /\
  posted (page r')
  = (if dialogAttached (dom (page r))
     then (posted (page r) ++ answers (inFlight r) trace)%list
     else posted (page r)) /\
  length (answers (inFlight r) trace) + inFlight r' <= inFlight r + requests trace.
Proof.
  intros W F. revert r W.
  induction F as [| e trace G F IH]; intros r W.
  - cbn. rewrite app_nil_r. repeat split; try lia.
    now destruct (dialogAttached (dom (page r))).
  - cbn [fold_left]. destruct e as [ev env | refreshed |].
    + rewrite refresh_request_step by assumption.
      destruct (IH {| page := page r; inFlight := S (inFlight r) |} W)
        as (Iw & Ip & Id & Iq & Il).
      cbn [page inFlight answers requests] in *. repeat split; auto. lia.
    + destruct (inFlight r) as [| n] eqn:N; cbn [refreshStep]; rewrite N.
      * destruct (IH r W) as (Iw & Ip & Id & Iq & Il).
        rewrite N in Iq, Il. cbn [answers requests]. repeat split; auto.
      * destruct (post_rest (refreshAnswer refreshed) (page r)) as (Pw & Pp & Pd & _).
        assert (W' : waiter (waiting (page {| page := post (refreshAnswer refreshed) (page r);
                                             inFlight := n |}))
                     = Some SigningWithRefresh) by (cbn [page]; now rewrite Pw).
        destruct (IH _ W') as (Iw & Ip & Id & Iq & Il).
        cbn [page inFlight answers requests length] in *.
        rewrite Iw, Ip, Id, Iq, Pw, Pp, Pd, post_posted.
        repeat split; try lia.
        destruct (dialogAttached (dom (page r))); [| reflexivity].
        now rewrite <- app_assoc.
    + destruct (inFlight r) as [| n] eqn:N; cbn [refreshStep]; rewrite N.
      * destruct (IH r W) as (Iw & Ip & Id & Iq & Il).
        rewrite N in Iq, Il. cbn [answers requests pred]. repeat split; auto.
      * destruct (IH {| page := page r; inFlight := n |} W)
          as (Iw & Ip & Id & Iq & Il).
        cbn [page inFlight answers requests pred] in *. repeat split; auto. lia.
Qed.

(** X6.  Quote refresh requests never settle [waitForSigningWithRefresh].
    Over any interleaving of refresh requests of the dialog with the
    settling of the [onRefresh] calls they start, the waiter stays
    subscribed and its promise and the page stay as they were; the frame
    (while it is in the document) is posted one answer for each call that
    resolves, when it resolves: [PASSKEY_REFRESH_COMPLETE] with the
    refreshed quote, or [PASSKEY_REFRESH_ERROR] when the call gave
    [null].  The answers posted and the calls still in flight never
    outnumber the requests; a call that rejects is never answered. *)
Theorem refresh_requests_never_settle cfg o s trace :
  waiter (waiting s) = Some SigningWithRefresh ->
  Forall (refreshRequest o) trace ->
  waiting (page (refreshRun cfg o s trace)) = waiting s /\
  promises (page (refreshRun cfg o s trace)) = promises s /\
  dom (page (refreshRun cfg o s trace)) = dom s /\
  posted (page (refreshRun cfg o s trace))
  = (if dialogAttached (dom s) then (posted s ++ answers 0 trace)%list
     else posted s) /\
  length (answers 0 trace) + inFlight (refreshRun cfg o s trace) <= requests trace.
Proof.
  intros W F.
  exact (refresh_run_from cfg o trace {| page := s; inFlight := 0 |} W F).
Qed.

Lemma refresh_requests_never_settle_witness :
  promises
    (page (refreshRun pageConfig "https://passkey.1auth.box"
             (subscribe SigningWithRefresh openedSession)
             [ Delivered (messageOf "https://passkey.1auth.box" "PASSKEY_REFRESH_QUOTE")
                 quietEnv;
               Delivered (messageOf "https://passkey.1auth.box" "PASSKEY_REFRESH_QUOTE")
                 quietEnv;
               Settles None; Fails ]))
  = promises (subscribe SigningWithRefresh openedSession) /\
  answers 0
    [ Delivered (messageOf "https://passkey.1auth.box" "PASSKEY_REFRESH_QUOTE")
        quietEnv;
      Delivered (messageOf "https://passkey.1auth.box" "PASSKEY_REFRESH_QUOTE")
        quietEnv;
      Settles None; Fails ]
  = [refreshAnswer None].
Proof.
  split; [| reflexivity].
  apply (refresh_requests_never_settle pageConfig "https://passkey.1auth.box"
           (subscribe SigningWithRefresh openedSession)
           [ Delivered (messageOf "https://passkey.1auth.box" "PASSKEY_REFRESH_QUOTE")
               quietEnv;
             Delivered (messageOf "https://passkey.1auth.box" "PASSKEY_REFRESH_QUOTE")
               quietEnv;
             Settles None; Fails ]
           eq_refl).
  repeat constructor.
Defined.

End DialogTraceProofs.

(* ===================================================================== *)
(** * Properties of polling and of the hash wait *)
(* ===================================================================== *)

Module IntentTraceProofs.

Import Dialog Intent Samples IntentTraces IntentProofs.

(** ** Status updates sent while polling *)

Lemma distinctNeighbours_snoc l a b :
  distinctNeighbours (l ++ [a]) = true -> a <> b ->
  distinctNeighbours ((l ++ [a]) ++ [b]) = true.
Proof.
  induction l as [| x [| y l] IH]; cbn; intros H N.
  - apply String.eqb_neq in N. now rewrite N.
  - apply andb_true_iff in H as [H _]. rewrite H. cbn.
    apply String.eqb_neq in N. now rewrite N.
  - apply andb_true_iff in H as [H1 H2]. rewrite H1. cbn. now apply IH.
Qed.

Lemma pollLoop_tracked c polls fuel attempt p :
  tracked p -> tracked (pollLoop c polls fuel attempt p).
Proof.
  revert attempt p. induction fuel as [| fuel IH]; intros attempt p T; [exact T |].
  cbn. destruct (polls attempt) as [m | err | body]; try now apply IH.
  assert (T' : tracked
                 {| finalStatus := st_status body;
                    finalTxHash := st_transactionHash body;
                    lastStatus := if negb (st_status body =? lastStatus p)
                                  then st_status body else lastStatus p;
                    sent := if negb (st_status body =? lastStatus p)
                            then (sent p ++ [(st_status body, st_transactionHash body)])%list
                            else sent p |}).
  { destruct T as (l & E & D). unfold tracked. cbn.
    destruct (st_status body =? lastStatus p) eqn:Q; cbn.
    - exists l. auto.
    - exists (l ++ [lastStatus p])%list. rewrite map_app, E. cbn. split; [reflexivity |].
      apply distinctNeighbours_snoc; [exact D |].
      apply String.eqb_neq in Q. congruence. }
  destruct (isTerminal (st_status body) || meetsCloseOn c (st_status body));
    [exact T' | now apply IH].
Qed.

(** X7.  While polling, the dialog is never sent the same status twice in
    a row: the updates [sendIntent] sends before the final one begin with
    [pending] and each differs from the one sent just before it.  (The
    final status, sent after the loop, may repeat the last update.) *)
Theorem polling_sends_each_change_once o env exec :
  distinctNeighbours (map fst (sent (pollPhase o env exec))) = true /\
  (e_status exec = "pending" ->
   hd_error (map fst (sent (pollPhase o env exec))) = Some "pending").
Proof.
  unfold pollPhase. destruct (e_status exec =? "pending") eqn:E.
  - set (p0 := {| finalStatus := e_status exec; finalTxHash := e_transactionHash exec;
                  lastStatus := "pending"; sent := [("pending", None)] |}).
    assert (T : tracked p0) by (exists []; split; reflexivity).
    destruct (pollLoop_tracked (closeOn o) (polls env) maxAttempts 0 p0 T)
      as (l & Hs & Hd).
    split; [now rewrite Hs |]. intros _.
    assert (H : forall fuel attempt p,
               hd_error (map fst (sent p)) = Some "pending" ->
               hd_error (map fst (sent (pollLoop (closeOn o) (polls env) fuel attempt p)))
               = Some "pending").
    { induction fuel as [| fuel IH]; intros attempt p Hp; [exact Hp |].
      cbn. destruct (polls env attempt) as [m | err | body]; try now apply IH.
      assert (Hq : hd_error
                     (map fst
                        (if negb (st_status body =? lastStatus p)
                         then (sent p ++ [(st_status body, st_transactionHash body)])%list
                         else sent p)) = Some "pending").
      { destruct (negb (st_status body =? lastStatus p)); [| exact Hp].
        destruct (sent p); [discriminate | exact Hp]. }
      destruct (isTerminal (st_status body) || meetsCloseOn (closeOn o) (st_status body));
        [exact Hq | now apply IH]. }
    now apply H.
  - split; [reflexivity |]. intros H. rewrite H in E. discriminate.
Qed.

(** ** The bound on polling *)

Lemma pollLoop_ext c polls polls' fuel attempt p :
  (forall n, attempt <= n < attempt + fuel -> polls n = polls' n) ->
  pollLoop c polls fuel attempt p = pollLoop c polls' fuel attempt p.
Proof.
  revert attempt p. induction fuel as [| fuel IH]; intros attempt p H; [reflexivity |].
  cbn. rewrite <- (H attempt) by lia.
  destruct (polls attempt) as [m | err | body].
  - apply IH. intros n Hn. apply H. lia.
  - apply IH. intros n Hn. apply H. lia.
  - destruct (isTerminal (st_status body) || meetsCloseOn c (st_status body));
      [reflexivity |].
    apply IH. intros n Hn. apply H. lia.
Qed.



Section Pipeline.

Variable urlOrigin : string -> option string.
Variable cfg : Config.

(** X8.  Without [waitForHash], [sendIntent] reads the status endpoint
    at most 120 times: two environments that agree on the prepare
    answer, the dialog and the execute answer and on the first 120 status
    answers give the same run, whatever the endpoint answers later.
    (With [waitForHash] the hash wait reads the same endpoint again.) *)
Theorem polling_stops_after_max_attempts env env' store o :
  waitForHash o = false ->
  prepare env' = prepare env -> ready env' = ready env ->
  signing env' = signing env -> execute env' = execute env ->
  (forall n, n < maxAttempts -> polls env' n = polls env n) ->
  sendIntent urlOrigin cfg env' store o = sendIntent urlOrigin cfg env store o.
Proof.
  intros W Hp Hr Hs He H.
  assert (B : beforePolling urlOrigin cfg env' store o
              = beforePolling urlOrigin cfg env store o).
  { unfold beforePolling, executeStage. now rewrite Hp, Hr, Hs, He. }
  assert (P : forall exec, pollPhase o env' exec = pollPhase o env exec).
  { intros exec. unfold pollPhase.
    destruct (e_status exec =? "pending"); [| reflexivity].
    apply pollLoop_ext. intros n Hn. apply H. lia. }
  assert (F : forall exec p, finish o env' exec p = finish o env exec p).
  { intros exec p. unfold finish. now rewrite W. }
  unfold sendIntent. rewrite B.
  destruct (beforePolling urlOrigin cfg env store o) as [r | exec posts];
    [reflexivity |].
  now rewrite P, F.
Qed.



(** X10.  With [waitForHash] set, a successful result always carries a
    transaction hash: [sendIntent] never resolves with [success] true and
    the hash missing or empty. *)
Theorem waited_success_carries_hash env store o r :
  outcome (sendIntent urlOrigin cfg env store o) = Some r ->
  waitForHash o = true -> success r = true ->
  truthyS (transactionHash r) = true.
Proof.
  intros Hr W S.
  destruct (sendIntent_cases urlOrigin cfg env store o r Hr)
    as [(run & Hb & Ho) | (exec & posts & Hb & ->)].
  - destruct (early_result urlOrigin cfg env store o run r Hb Ho) as (F & _).
    congruence.
  - revert S. unfold finish. rewrite W. cbn [andb].
    destruct (truthyS (finalTxHash (pollPhase o env exec))) eqn:T; cbn [negb].
    + intros _. exact T.
    + destruct (truthyS (waitForTransactionHash env (hashTimeoutMs o))) eqn:H; cbn.
      * intros _. exact H.
      * discriminate.
Qed.

(** X11.  [sendIntent] returns its local failures instead of throwing
    them: when the promise rejects, the options had passed validation and
    the prepare request had answered OK, so invalid options, a failed or
    refused prepare request are always results.  And with valid options
    and an OK prepare answer, a dialog URL that is not a URL ([new URL]
    throws in [createModalDialog]) always rejects. *)
Theorem sendIntent_returns_local_failures env store o :
  (outcome (sendIntent urlOrigin cfg env store o) = None ->
   validate o = None /\
   exists body, prepare env (requestBody cfg o) = Ok body) /\
  (validate o = None ->
   (exists body, prepare env (requestBody cfg o) = Ok body) ->
   urlOrigin (getDialogUrl cfg) = None ->
   outcome (sendIntent urlOrigin cfg env store o) = None).
Proof.
  unfold sendIntent, beforePolling.
  destruct (validate o) as [v |]; [split; [discriminate | discriminate] |].
  destruct (prepare env (requestBody cfg o)) as [m | err | body] eqn:P.
  - split; [discriminate | intros _ (b & [=])].
  - split; [discriminate | intros _ (b & [=])].
  - split; [intros _; eauto |].
    intros _ _ U. now rewrite U.
Qed.

End Pipeline.

Lemma polling_stops_after_max_attempts_witness :
  sendIntent sampleUrlOrigin pageConfig
    {| prepare := fun _ => prepared; ready := true; signing := dialogExecuted;
       execute := Throws None;
       polls := fun n => if (n <? 120)%nat then remote "pending" None
                         else remote "completed" (Some "0xabc");
       clock := 5; hashRounds := [(0%Z, remote "completed" (Some "0xabc"))] |}
    sampleStorage (aliceIntent None false)
  = sendIntent sampleUrlOrigin pageConfig
      (envWith prepared (remote "pending" None) []) sampleStorage
      (aliceIntent None false).
Proof.
  apply (polling_stops_after_max_attempts sampleUrlOrigin pageConfig
           (envWith prepared (remote "pending" None) [])); try reflexivity.
  intros n Hn. unfold maxAttempts in Hn. cbn [polls envWith].
  destruct (Nat.ltb_spec n 120); [reflexivity | lia].
Defined.


Lemma waited_success_carries_hash_witness :
  truthyS (transactionHash settledResult) = true.
Proof.
  apply (waited_success_carries_hash sampleUrlOrigin pageConfig
           (envWith prepared (remote "completed" (Some "0xabc")) [])
           sampleStorage (aliceIntent (Some Completed) true) settledResult).
  - vm_compute. reflexivity.
  - reflexivity.
  - reflexivity.
Defined.

(** ** The hash wait *)

(** X12.  [waitForTransactionHash] gives back a hash only if the status
    endpoint reported one: the hash is not empty, it comes from an OK
    answer read before the deadline, and every earlier round was read
    before the deadline too and carried neither a hash nor a terminal
    status.  In particular nothing is returned once a round reads the
    clock at or after the deadline, or sees [failed] or [expired] without
    a hash. *)
Theorem hash_wait_returns_reported_hash deadline rounds h :
  hashLoop deadline rounds = Some h ->
  h <> "" /\
  exists before now body after,
    rounds = (before ++ (now, Ok body) :: after)%list /\
    (now < deadline)%Z /\ st_transactionHash body = Some h /\
    Forall (inconclusive deadline) before.
Proof.
  induction rounds as [| [now answer] rounds IH]; [discriminate |].
  cbn. destruct (now <? deadline)%Z eqn:D; [| discriminate].
  apply Z.ltb_lt in D.
  assert (Next : hashLoop deadline rounds = Some h ->
                 inconclusive deadline (now, answer) ->
                 h <> "" /\
                 exists before now' body after,
                   (now, answer) :: rounds
                   = (before ++ (now', Ok body) :: after)%list /\
                   (now' < deadline)%Z /\ st_transactionHash body = Some h /\
                   Forall (inconclusive deadline) before).
  { intros H I. destruct (IH H) as (N & before & now' & body & after & -> & L & T & F).
    split; [exact N |].
    exists ((now, answer) :: before), now', body, after.
    repeat split; auto. }
  destruct answer as [m | err | body].
  - intros H. apply Next; [exact H | now split].
  - intros H. apply Next; [exact H | now split].
  - destruct (truthyS (st_transactionHash body)) eqn:T.
    + intros H. split.
      * rewrite H in T. cbn in T. intros ->. discriminate.
      * exists [], now, body, rounds. repeat split; auto.
    + destruct (isTerminal (st_status body)) eqn:K; [discriminate |].
      intros H. apply Next; [exact H | now split].
Qed.

Lemma hash_wait_returns_reported_hash_witness :
  "0xabc" <> "" /\
  exists before now body after,
    [ (0%Z, remote "pending" None); (2000%Z, remote "completed" (Some "0xabc")) ]
    = (before ++ (now, Ok body) :: after)%list /\
    (now < 120000)%Z /\ st_transactionHash body = Some "0xabc" /\
    Forall (inconclusive 120000) before.
Proof.
  exact (hash_wait_returns_reported_hash 120000
           [ (0%Z, remote "pending" None); (2000%Z, remote "completed" (Some "0xabc")) ]
           "0xabc" eq_refl).
Defined.

End IntentTraceProofs.

(* ===================================================================== *)
(** * Properties of the provider's account and transaction methods *)
(* ===================================================================== *)

Module ProviderFacts.

Import Dialog Intent Provider Samples ProviderProofs.

Section Adapter.

Variable JSON_parse : string -> option JsVal.
Variable parseInt16 : string -> JsNumber.
Variable toNumber : string -> JsNumber.
Variable toBigInt : string -> option Z.
Variable options : ProviderOptions.
Variable client : Client.

(** ** One transaction is a batch of one *)

Lemma normalizeCalls_single c :
  c <> VUndefined -> c <> VNull ->
  exists x, normalizeCalls toBigInt [c] = Some [x].
Proof. intros U N. destruct c; try contradiction; cbn; eauto. Qed.

Lemma or_object_defined v : or v (VObject []) <> VUndefined /\ or v (VObject []) <> VNull.
Proof.
  unfold or. destruct (truthy v) eqn:T; [| split; discriminate].
  destruct v; try discriminate; split; discriminate.
Qed.

(** X13.  [eth_sendTransaction] is [wallet_sendCalls] with a batch of one:
    sending the transaction [tx] does exactly what sending the calls
    [[tx]] with the chain id of [tx] does, in every state of the provider
    (same client calls, same result, same rejection). *)
Theorem sendTransaction_is_batch_of_one tx st :
  request JSON_parse parseInt16 toNumber toBigInt options client
    "eth_sendTransaction" (VArray [tx]) st
  = request JSON_parse parseInt16 toNumber toBigInt options client
      "wallet_sendCalls"
      (VArray [VObject [("chainId", get (or tx (VObject [])) "chainId");
                        ("calls", VArray [or tx (VObject [])])]]) st.
Proof.
  rewrite request_wallet_sendCalls. cbn zeta.
  change (request JSON_parse parseInt16 toNumber toBigInt options client
            "eth_sendTransaction" (VArray [tx]) st)
    with (bind (ensureUser JSON_parse options client) (fun user =>
          bind (targetChainOf parseInt16 toNumber (get (or tx (VObject [])) "chainId"))
            (fun targetChain =>
               match normalizeCalls toBigInt [or tx (VObject [])] with
               | None => throw "TypeError"
               | Some calls => Provider.sendIntent options client user targetChain calls
               end)) st).
  destruct (or_object_defined tx) as [U N].
  remember (or tx (VObject [])) as tx' eqn:E. clear E.
  unfold bind. cbn [paramList hd].
  destruct (ensureUser JSON_parse options client st) as [[user | e] st1]; [| reflexivity].
  assert (P : or (VObject [("chainId", get tx' "chainId"); ("calls", VArray [tx'])])
                (VObject [])
              = VObject [("chainId", get tx' "chainId"); ("calls", VArray [tx'])])
    by reflexivity.
  rewrite P.
  change (get (VObject [("chainId", get tx' "chainId"); ("calls", VArray [tx'])]) "chainId")
    with (get tx' "chainId").
  change (or (get (VObject [("chainId", get tx' "chainId"); ("calls", VArray [tx'])])
                "calls") (VArray []))
    with (VArray [tx']).
  destruct (targetChainOf parseInt16 toNumber (get tx' "chainId") st1)
    as [[chain | e] st2]; [| reflexivity].
  destruct (normalizeCalls_single tx' U N) as [x ->]. reflexivity.
Qed.


(** ** A request resolves only with a successful intent *)

Lemma sendIntent_value user chain calls st v st' :
  Provider.sendIntent options client user chain calls st = (Value v, st') ->
  exists o,
    clientCalls st' = (clientCalls st
                       ++ match opt_signIntent options with
                          | Some _ =>
                              [CallSignIntent
                                 {| sr_username := su_username user;
                                    sr_accountAddress := su_address user;
                                    sr_targetChain := chain; sr_calls := calls |}]
                          | None => []
                          end ++ [CallSendIntent o])%list /\
    success (client_sendIntent client o) = true /\
    v = VString (intentId (client_sendIntent client o)) /\
    closeOn o = Some (if waitForHashOption options then Completed else Preconfirmed) /\
    waitForHash o = waitForHashOption options /\
    storage st' = storage st /\ emitted st' = emitted st.
Proof.
  unfold Provider.sendIntent, bind, call, ret, throw.
  destruct (opt_signIntent options) as [signer |]; cbn;
    match goal with
    | |- context [success (client_sendIntent client ?o)] =>
        destruct (success (client_sendIntent client o)) eqn:S; cbn;
        [intros [= <- <-]; exists o; cbn; rewrite <- ?app_assoc; auto 10
        | discriminate]
    end.
Qed.

(** X14.  [eth_sendTransaction] and [wallet_sendCalls] resolve only with
    the id of an intent the client reported as successful: the value is
    the [intentId] of the result of the last [client.sendIntent] call,
    that result has [success], and the call asked for [closeOn]
    [completed] together with the hash wait (or [preconfirmed] without it
    when the provider was created with [waitForHash: false]).  A failed,
    cancelled or rejected intent never yields a calls id. *)
Theorem send_resolves_with_successful_intent method params st v st' :
  method = "eth_sendTransaction" \/ method = "wallet_sendCalls" ->
  request JSON_parse parseInt16 toNumber toBigInt options client method params st
  = (Value v, st') ->
  exists o before,
    clientCalls st' = (before ++ [CallSendIntent o])%list /\
    success (client_sendIntent client o) = true /\
    v = VString (intentId (client_sendIntent client o)) /\
    closeOn o = Some (if waitForHashOption options then Completed else Preconfirmed) /\
    waitForHash o = waitForHashOption options.
Proof.
  intros [-> | ->].
  - change (request JSON_parse parseInt16 toNumber toBigInt options client
              "eth_sendTransaction" params st)
      with (bind (ensureUser JSON_parse options client) (fun user =>
            bind (targetChainOf parseInt16 toNumber
                    (get (or (hd VUndefined (paramList params)) (VObject [])) "chainId"))
              (fun targetChain =>
                 match normalizeCalls toBigInt
                         [or (hd VUndefined (paramList params)) (VObject [])] with
                 | None => throw "TypeError"
                 | Some calls => Provider.sendIntent options client user targetChain calls
                 end)) st).
    unfold bind.
    destruct (ensureUser JSON_parse options client st) as [[user | e] st1];
      [| discriminate].
    destruct (targetChainOf parseInt16 toNumber _ st1) as [[chain | e] st2];
      [| discriminate].
    destruct (normalizeCalls toBigInt _) as [calls |]; [| discriminate].
    intros H. destruct (sendIntent_value _ _ _ _ _ _ H) as (o & C & S & V & K & W & _).
    exists o. eexists. split; [rewrite C, app_assoc; reflexivity | auto].
  - rewrite request_wallet_sendCalls. cbn zeta. unfold bind.
    destruct (ensureUser JSON_parse options client st) as [[user | e] st1];
      [| discriminate].
    destruct (targetChainOf parseInt16 toNumber _ st1) as [[chain | e] st2];
      [| discriminate].
    destruct (or (get _ "calls") (VArray [])); try discriminate.
    destruct (normalizeCalls toBigInt _) as [[| c calls] |]; try discriminate.
    intros H. destruct (sendIntent_value _ _ _ _ _ _ H) as (o & C & S & V & K & W & _).
    exists o. eexists. split; [rewrite C, app_assoc; reflexivity | auto].
Qed.

End Adapter.

Lemma send_resolves_with_successful_intent_witness :
  exists o before,
    clientCalls
      (snd (request sampleParse (fun _ => NaN) (fun _ => NaN) (fun _ => None)
              (providerOptions None) sampleClient "wallet_sendCalls"
              (sendCallsParams 10 aliceAddress 2)
              (initialState (providerOptions None) (aliceStore "1auth-user"))))
    = (before ++ [CallSendIntent o])%list /\
    success (client_sendIntent sampleClient o) = true /\
    VString "intent-1" = VString (intentId (client_sendIntent sampleClient o)) /\
    closeOn o
    = Some (if waitForHashOption (providerOptions None)
            then Completed else Preconfirmed) /\
    waitForHash o = waitForHashOption (providerOptions None).
Proof.
  exact (send_resolves_with_successful_intent sampleParse
           (fun _ => NaN) (fun _ => NaN) (fun _ => None)
           (providerOptions None) sampleClient "wallet_sendCalls"
           (sendCallsParams 10 aliceAddress 2)
           (initialState (providerOptions None) (aliceStore "1auth-user"))
           (VString "intent-1") _
           (or_intror eq_refl) ltac:(vm_compute; reflexivity)).
Defined.

End ProviderFacts.

(* ===================================================================== *)
(** * Properties of the provider's chain, status and listener methods *)
(* ===================================================================== *)

Module RpcProofs.

Import Dialog Intent Provider Coercions Rpc Samples Scenarios.

(** ** Sets of listeners *)





Lemma members_length entries : length (members entries) <= length entries.
Proof. induction entries as [| [x |] entries IH]; cbn; lia. Qed.

(** ** The registry *)









(** ** [emit] with listeners that return *)

Lemma logCalls_nil p : logCalls [] p = p.
Proof. destruct p. unfold logCalls. cbn. now rewrite app_nil_r. Qed.

Lemma logCalls_app a b p : logCalls b (logCalls a p) = logCalls (a ++ b) p.
Proof. unfold logCalls. cbn. now rewrite app_assoc. Qed.


Section Listeners.

Variable listener : nat -> list JsVal -> Page -> Result unit * Page.

Lemma emitLoop_inert fuel a i args p :
  (forall l, In l (members (drop i (entriesAt a p))) -> inert listener l) ->
  length (drop i (entriesAt a p)) < fuel ->
  emitLoop listener fuel a i args p
  = Some (Value tt,
          logCalls (map (fun l => (l, args)) (members (drop i (entriesAt a p)))) p).
Proof.
  revert i p. induction fuel as [| fuel IH]; intros i p Hi Hf; [lia |].
  cbn [emitLoop].
  destruct (entriesAt a p !! i) as [[l |] |] eqn:E.
  - rewrite (drop_S _ _ _ E) in Hi, Hf |- *. cbn [members map length] in *.
    rewrite (Hi l (or_introl eq_refl)).
    rewrite IH.
    + change (entriesAt a (logCalls [(l, args)] p)) with (entriesAt a p).
      now rewrite logCalls_app.
    + change (entriesAt a (logCalls [(l, args)] p)) with (entriesAt a p).
      intros x Hx. apply Hi. now right.
    + change (entriesAt a (logCalls [(l, args)] p)) with (entriesAt a p). lia.
  - rewrite (drop_S _ _ _ E) in Hi, Hf |- *. cbn [members map length] in *.
    apply IH; [exact Hi | lia].
  - apply lookup_ge_None in E. rewrite drop_ge by exact E.
    cbn. now rewrite logCalls_nil.
Qed.

Lemma emit_inert fuel event args p :
  (forall l, In l (listenersOf event p) -> inert listener l) ->
  length (entriesOf event p) < fuel ->
  emit listener fuel event args p
  = Some (Value tt, logCalls (map (fun l => (l, args)) (listenersOf event p)) p).
Proof.
  unfold emit, listenersOf, entriesOf.
  destruct (listeners p !! event) as [a |].
  - intros Hi Hf. now apply (emitLoop_inert fuel a 0 args p).
  - intros _ _. cbn. now rewrite logCalls_nil.
Qed.

(** A listener that throws ends the loop: the error leaves [emit] and the
    entries after it are not called. *)
Lemma emit_throws fuel event args p l rest e q :
  entriesOf event p = Some l :: rest ->
  listener l args (logCalls [(l, args)] p) = (Rejects e, q) ->
  emit listener (S fuel) event args p = Some (Rejects e, q).
Proof.
  unfold emit, entriesOf.
  destruct (listeners p !! event) as [a |]; [| discriminate].
  intros E H. cbn [emitLoop]. rewrite E. cbn. now rewrite H.
Qed.

Variable options : ProviderOptions.
Variable store : gmap string string.


End Listeners.


(** ** Switching chains *)

Lemma numberToHex_Some z :
  (0 <= z <= 9007199254740991)%Z -> exists hex, numberToHex (Int z) = Some hex.
Proof.
  intros [L U]. unfold numberToHex.
  apply Z.leb_le in L. apply Z.leb_le in U. rewrite L, U. cbn [andb]. eauto.
Qed.

Lemma numberToHex_None z :
  ~ (0 <= z <= 9007199254740991)%Z -> numberToHex (Int z) = None.
Proof.
  intros H. unfold numberToHex.
  destruct (Z.leb_spec 0 z), (Z.leb_spec z 9007199254740991);
    try reflexivity. lia.
Qed.

Lemma ethChainId_hex p hex :
  numberToHex (chain p) = Some hex -> ethChainId p = Some (Value (VString hex), p).
Proof. intros H. unfold ethChainId, andThen, thePage. now rewrite H. Qed.

Lemma ethChainId_throws p :
  numberToHex (chain p) = None -> ethChainId p = Some (Rejects "numberToHex", p).
Proof. intros H. unfold ethChainId, andThen, thePage. now rewrite H. Qed.

Section Chains.

Variable parseInt16 : string -> JsNumber.
Variable toNumber : string -> JsNumber.
Variable listener : nat -> list JsVal -> Page -> Result unit * Page.

(** X18.  [wallet_switchEthereumChain] takes the chain id from the
    [chainId] member of its first parameter, or from the parameter
    itself.  When it parses to nothing, [NaN] or 0 the request rejects
    with "Invalid chainId" and the page is unchanged.  When it parses to
    an integer from 1 to [Number.MAX_SAFE_INTEGER] the provider's chain
    becomes that integer and, the [chainChanged] listeners returning and
    leaving the page as it is, each is called once with the hex form, the
    request resolves with [null], and [eth_chainId] then answers with
    that hex form.  Any other integer (negative, or above
    [Number.MAX_SAFE_INTEGER]) is stored as the chain before the hex
    conversion throws: the request rejects, no listener is called, and
    [eth_chainId] rejects from then on. *)
Theorem switch_chain_then_chain_id fuel params param p :
  firstParam params = Some param ->
  (forall l, In l (listenersOf "chainChanged" p) -> inert listener l) ->
  length (entriesOf "chainChanged" p) < fuel ->
  match parseChainId parseInt16 toNumber (nullish (get param "chainId") param) with
  | Some (Int z) =>
      if (z =? 0)%Z then
        switchEthereumChain parseInt16 toNumber listener fuel params p
        = Some (Rejects "Invalid chainId", p)
      else if (0 <? z)%Z && (z <=? 9007199254740991)%Z then
        exists hex,
          numberToHex (Int z) = Some hex /\
          switchEthereumChain parseInt16 toNumber listener fuel params p
          = Some (Value VNull,
                  logCalls (map (fun l => (l, [VString hex]))
                              (listenersOf "chainChanged" p))
                    (withChain (Int z) p)) /\
          ethChainId
            (logCalls (map (fun l => (l, [VString hex]))
                         (listenersOf "chainChanged" p))
               (withChain (Int z) p))
          = Some (Value (VString hex),
                  logCalls (map (fun l => (l, [VString hex]))
                              (listenersOf "chainChanged" p))
                    (withChain (Int z) p))
      else
        switchEthereumChain parseInt16 toNumber listener fuel params p
        = Some (Rejects "numberToHex", withChain (Int z) p) /\
        ethChainId (withChain (Int z) p)
        = Some (Rejects "numberToHex", withChain (Int z) p)
  | _ =>
      switchEthereumChain parseInt16 toNumber listener fuel params p
      = Some (Rejects "Invalid chainId", p)
  end.
Proof.
  intros F Hi Hf. unfold switchEthereumChain. rewrite F. cbv zeta.
  destruct (parseChainId parseInt16 toNumber (nullish (get param "chainId") param))
    as [[| z] |]; try reflexivity.
  cbn [falsyNumber]. change (default NaN (Some (Int z))) with (Int z).
  destruct (Z.eqb_spec z 0) as [-> | N]; [reflexivity |].
  destruct ((0 <? z)%Z && (z <=? 9007199254740991)%Z) eqn:R.
  - apply andb_true_iff in R as [P%Z.ltb_lt U%Z.leb_le].
    destruct (numberToHex_Some z) as [hex X]; [lia |].
    exists hex. split; [exact X |]. split.
    + unfold andThen at 1 2. unfold update, thePage.
      change (chain (withChain (Int z) p)) with (Int z). rewrite X.
      unfold andThen.
      rewrite (emit_inert listener fuel "chainChanged" [VString hex]
                 (withChain (Int z) p) Hi Hf).
      reflexivity.
    + apply ethChainId_hex. exact X.
  - assert (X : numberToHex (Int z) = None).
    { apply numberToHex_None. intros [L U].
      apply andb_false_iff in R as [R%Z.ltb_ge | R%Z.leb_gt]; lia. }
    split; [| apply ethChainId_throws; exact X].
    unfold andThen, update, thePage.
    change (chain (withChain (Int z) p)) with (Int z). now rewrite X.
Qed.

(** A [chainChanged] listener that throws makes the request reject with
    what it threw, the chain already stored. *)
Lemma switch_chain_listener_throws fuel params param p z hex l rest e q :
  firstParam params = Some param ->
  parseChainId parseInt16 toNumber (nullish (get param "chainId") param)
  = Some (Int z) ->
  z <> 0%Z ->
  numberToHex (Int z) = Some hex ->
  entriesOf "chainChanged" p = Some l :: rest ->
  listener l [VString hex] (logCalls [(l, [VString hex])] (withChain (Int z) p))
  = (Rejects e, q) ->
  switchEthereumChain parseInt16 toNumber listener (S fuel) params p
  = Some (Rejects e, q).
Proof.
  intros F P N X E H. unfold switchEthereumChain. rewrite F. cbv zeta. rewrite P.
  cbn [falsyNumber]. change (default NaN (Some (Int z))) with (Int z).
  apply Z.eqb_neq in N. rewrite N.
  unfold andThen at 1 2. unfold update, thePage.
  change (chain (withChain (Int z) p)) with (Int z). rewrite X.
  unfold andThen.
  rewrite (emit_throws listener fuel "chainChanged" [VString hex]
             (withChain (Int z) p) l rest e q E H).
  reflexivity.
Qed.

End Chains.

Lemma switch_chain_then_chain_id_witness :
  exists hex,
    numberToHex (Int 10) = Some hex /\
    switchEthereumChain (fun _ => Int 10) (fun _ => NaN) quietListener 4
      (VArray [VObject [("chainId", VString "0xa")]])
      (pageAfter (providerOptions None) sampleStorage subscriptions)
    = Some (Value VNull,
            logCalls (map (fun l => (l, [VString hex]))
                        (listenersOf "chainChanged"
                           (pageAfter (providerOptions None) sampleStorage
                              subscriptions)))
              (withChain (Int 10)
                 (pageAfter (providerOptions None) sampleStorage subscriptions))) /\
    ethChainId
      (logCalls (map (fun l => (l, [VString hex]))
                   (listenersOf "chainChanged"
                      (pageAfter (providerOptions None) sampleStorage
                         subscriptions)))
         (withChain (Int 10)
            (pageAfter (providerOptions None) sampleStorage subscriptions)))
    = Some (Value (VString hex),
            logCalls (map (fun l => (l, [VString hex]))
                        (listenersOf "chainChanged"
                           (pageAfter (providerOptions None) sampleStorage
                              subscriptions)))
              (withChain (Int 10)
                 (pageAfter (providerOptions None) sampleStorage subscriptions))).
Proof.
  exact (switch_chain_then_chain_id (fun _ => Int 10) (fun _ => NaN)
           quietListener 4
           (VArray [VObject [("chainId", VString "0xa")]])
           (VObject [("chainId", VString "0xa")])
           (pageAfter (providerOptions None) sampleStorage subscriptions)
           eq_refl (fun l _ args p => eq_refl) ltac:(vm_compute; lia)).
Defined.

(** ** Connecting and disconnecting *)





Section Accounts.

Variable JSON_parse : string -> option JsVal.
Variable options : ProviderOptions.
Variable listener : nat -> list JsVal -> Page -> Result unit * Page.

Lemma ethAccounts_cleared p :
  ethAccounts JSON_parse options (withStored (delete (storageKey options)) p)
  = Some (Value (VArray []), withStored (delete (storageKey options)) p).
Proof.
  unfold ethAccounts, andThen, thePage, settle, getStoredUser.
  cbn [stored withStored]. now rewrite lookup_delete_eq.
Qed.

(** X16.  [disconnect] removes the Stored User kept under the provider's
    storage key and nothing else.  When the listeners of
    [accountsChanged] and of [disconnect] return and leave the page as
    it is, it then calls the former with no account and the latter with
    no argument, each listener once and in that order, and resolves;
    afterwards [eth_accounts] answers with the empty list, whatever the
    storage held. *)
Theorem disconnect_forgets_account fuel p :
  (forall l, In l (listenersOf "accountsChanged" p) \/
             In l (listenersOf "disconnect" p) -> inert listener l) ->
  length (entriesOf "accountsChanged" p) < fuel ->
  length (entriesOf "disconnect" p) < fuel ->
  disconnect options listener fuel p
  = Some (Value tt,
          logCalls (map (fun l => (l, [VArray []])) (listenersOf "accountsChanged" p)
                    ++ map (fun l => (l, [])) (listenersOf "disconnect" p))
            (withStored (delete (storageKey options)) p)) /\
  stored (withStored (delete (storageKey options)) p) !! storageKey options = None /\
  (forall key, key <> storageKey options ->
     stored (withStored (delete (storageKey options)) p) !! key = stored p !! key) /\
  ethAccounts JSON_parse options
    (logCalls (map (fun l => (l, [VArray []])) (listenersOf "accountsChanged" p)
               ++ map (fun l => (l, [])) (listenersOf "disconnect" p))
       (withStored (delete (storageKey options)) p))
  = Some (Value (VArray []),
          logCalls (map (fun l => (l, [VArray []])) (listenersOf "accountsChanged" p)
                    ++ map (fun l => (l, [])) (listenersOf "disconnect" p))
            (withStored (delete (storageKey options)) p)).
Proof.
  intros Hi Ha Hd. split; [| split; [| split]].
  - unfold disconnect, clearStoredUser, andThen, update.
    rewrite (emit_inert listener fuel "accountsChanged" [VArray []]
               (withStored (delete (storageKey options)) p)
               (fun l H => Hi l (or_introl H)) Ha).
    rewrite (emit_inert listener fuel "disconnect" []
               (logCalls (map (fun l => (l, [VArray []]))
                            (listenersOf "accountsChanged" p))
                  (withStored (delete (storageKey options)) p))
               (fun l H => Hi l (or_intror H)) Hd).
    now rewrite logCalls_app.
  - cbn [stored withStored]. apply lookup_delete_eq.
  - intros key N. cbn [stored withStored]. now apply lookup_delete_ne.
  - unfold ethAccounts, andThen, thePage, settle, getStoredUser.
    cbn [stored withStored logCalls]. now rewrite lookup_delete_eq.
Qed.

(** An [accountsChanged] listener that throws makes [disconnect] reject
    with what it threw: the Stored User is gone and the [disconnect]
    listeners are not called. *)
Lemma disconnect_listener_throws fuel p l rest e q :
  entriesOf "accountsChanged" p = Some l :: rest ->
  listener l [VArray []]
    (logCalls [(l, [VArray []])] (withStored (delete (storageKey options)) p))
  = (Rejects e, q) ->
  disconnect options listener (S fuel) p = Some (Rejects e, q).
Proof.
  intros E H. unfold disconnect, clearStoredUser, andThen, update.
  now rewrite (emit_throws listener fuel "accountsChanged" [VArray []]
                 (withStored (delete (storageKey options)) p) l rest e q E H).
Qed.

Variable connectWithModal : Page -> Result JsVal * Page.
Variable authWithModal : Page -> Result JsVal * Page.
Variable accountLookup : JsVal -> Page -> Response JsVal * Page.




End Accounts.

Lemma disconnect_forgets_account_witness :
  disconnect (providerOptions None) quietListener 4
    (pageAfter (providerOptions None) (aliceStore "1auth-user") subscriptions)
  = Some (Value tt,
          logCalls [(2, [VArray []]); (4, [])]
            (withStored (delete "1auth-user")
               (pageAfter (providerOptions None) (aliceStore "1auth-user")
                  subscriptions))) /\
  ethAccounts sampleParse (providerOptions None)
    (pageAfter (providerOptions None) (aliceStore "1auth-user") subscriptions)
  = Some (Value (VArray [VString aliceAddress]),
          pageAfter (providerOptions None) (aliceStore "1auth-user") subscriptions).
Proof.
  split; [| vm_compute; reflexivity].
  exact (proj1 (disconnect_forgets_account sampleParse (providerOptions None)
                  quietListener 4
                  (pageAfter (providerOptions None) (aliceStore "1auth-user")
                     subscriptions)
                  (fun l _ args p => eq_refl)
                  ltac:(vm_compute; lia) ltac:(vm_compute; lia))).
Defined.


(** A first connection, run: the modal confirms alice, the account
    request gives her address, and a provider on Base with the sample
    listeners stores her and calls listener 2 and then listener 5. *)
Example connect_first_time :
  connect sampleParse (providerOptions None) quietListener
    confirmingModal confirmingModal aliceLookup 4
    (pageAfter (providerOptions None) sampleStorage subscriptions)
  = Some (Value [VString aliceAddress],
          logCalls [(2, [VArray [VString aliceAddress]]);
                    (5, [VObject [("chainId", VString "0x2105")]])]
            (withStored (insert "1auth-user" aliceRecord)
               (pageAfter (providerOptions None) sampleStorage subscriptions))).
Proof. vm_compute. reflexivity. Qed.

(** The same provider with a first [accountsChanged] listener that
    throws: [connect] rejects with what it threw, alice already stored,
    and [disconnect] rejects likewise, her record already removed. *)
Example throwing_listener_rejects :
  connect sampleParse (providerOptions None) (throwingListener 2)
    confirmingModal confirmingModal aliceLookup 4
    (pageAfter (providerOptions None) sampleStorage subscriptions)
  = Some (Rejects "listener failed",
          logCalls [(2, [VArray [VString aliceAddress]])]
            (withStored (insert "1auth-user" aliceRecord)
               (pageAfter (providerOptions None) sampleStorage subscriptions))) /\
  disconnect (providerOptions None) (throwingListener 2) 4
    (pageAfter (providerOptions None) (aliceStore "1auth-user") subscriptions)
  = Some (Rejects "listener failed",
          logCalls [(2, [VArray []])]
            (withStored (delete "1auth-user")
               (pageAfter (providerOptions None) (aliceStore "1auth-user")
                  subscriptions))).
Proof. split; vm_compute; reflexivity. Qed.

(** A listener that removes itself and adds another while [emit] runs:
    the loop skips the hole it left and reaches the listener it added. *)
Example emit_sees_listeners_added_meanwhile :
  option_map (fun r => called (snd r))
    (emit swappingListener 4 "chainChanged" [VString "0xa"]
       (pageAfter (providerOptions None) sampleStorage
          [On "chainChanged" 1; On "chainChanged" 3]))
  = Some [(1, [VString "0xa"]); (3, [VString "0xa"]); (9, [VString "0xa"])].
Proof. vm_compute. reflexivity. Qed.

(** ** Status of a batch of calls *)

Lemma inList_In s l : inList s l = true <-> In s l.
Proof.
  unfold inList. rewrite existsb_exists. split.
  - intros (x & Hx & E%String.eqb_eq). now subst.
  - intros H. exists s. split; [exact H | apply String.eqb_refl].
Qed.

(** X19.  In the answer of [wallet_getCallsStatus] for a status body
    whose [status] is a string that names no member of
    [Object.prototype]: the status is CONFIRMED exactly for [completed],
    [failed] and [expired], and PENDING for every other status
    ([claimed] and [filled] included); there is one receipt exactly when
    the body carries a transaction hash, and that receipt says [0x1]
    only for [completed].  So a failed or expired intent with a hash is
    CONFIRMED with a [0x0] receipt, and a pending status that already
    has a hash is PENDING with a [0x0] receipt. *)
Theorem calls_status_follows_intent_status data status :
  get data "status" = VString status ->
  inList status objectPrototypeKeys = false ->
  exists r,
    callsStatusOf data = Some r /\
    cs_status r
    = Status (if inList status ["completed"; "failed"; "expired"]
              then "CONFIRMED" else "PENDING") /\
    (cs_receipts r = [] <-> truthy (get data "transactionHash") = false) /\
    (forall receipt,
        In receipt (cs_receipts r) ->
        cs_receipts r = [receipt] /\
        rc_transactionHash receipt = get data "transactionHash" /\
        rc_status receipt = (if status =? "completed" then "0x1" else "0x0")).
Proof.
  intros S P.
  assert (D : data <> VNull /\ data <> VUndefined).
  { split; intros ->; discriminate. }
  unfold callsStatusOf. rewrite S. cbn [toStringJs isStr].
  destruct data; try (now destruct D); eexists; (split; [reflexivity |]);
    cbn [cs_status cs_receipts];
    (split;
     [ unfold statusMap; rewrite P;
       destruct (inList status ["pending"; "preconfirmed"]) eqn:A;
       destruct (inList status ["completed"; "failed"; "expired"]) eqn:B;
       try reflexivity;
       apply inList_In in A, B; cbn in A, B;
       exfalso; intuition (subst; discriminate)
     | split;
       [ destruct (truthy _); split; congruence
       | intros receipt; destruct (truthy _); cbn; [| tauto];
         intros [<- | []]; cbn; auto ] ]).
Qed.

Lemma calls_status_follows_intent_status_witness :
  exists r,
    callsStatusOf (VObject [("status", VString "failed");
                            ("transactionHash", VString "0xdead")]) = Some r /\
    cs_status r = Status "CONFIRMED".
Proof.
  destruct (calls_status_follows_intent_status
              (VObject [("status", VString "failed");
                        ("transactionHash", VString "0xdead")]) "failed"
              eq_refl eq_refl) as (r & E & S & _).
  exists r. split; [exact E | exact S].
Defined.

(** ** Capabilities *)

Lemma assign_In key caps k :
  In k (assign key caps) <-> k = key \/ In k caps.
Proof.
  unfold assign. destruct (inList key caps) eqn:E.
  - apply inList_In in E. split; [tauto | intros [-> | H]; auto].
  - rewrite in_app_iff. cbn. intuition.
Qed.

Lemma assign_NoDup key caps : NoDup caps -> NoDup (assign key caps).
Proof.
  intros D. unfold assign. destruct (inList key caps) eqn:E; [exact D |].
  apply NoDup_app. split; [exact D | split; [| apply NoDup_singleton]].
  intros x Hx Hk%list_elem_of_singleton. subst.
  assert (inList key caps = true) by (apply inList_In; now apply list_elem_of_In).
  congruence.
Qed.

Lemma capabilityKeys_sound requested chainIds caps keys :
  NoDup caps ->
  capabilityKeys requested chainIds caps = Some keys ->
  NoDup keys /\
  forall k,
    In k keys <->
    In k caps \/
    (exists chainId, In chainId chainIds /\ k = hexOfChain chainId /\
                     requestedChain requested k = Some true).
Proof.
  revert caps. induction chainIds as [| c chainIds IH]; intros caps D.
  - cbn. intros [= <-]. split; [exact D |]. intros k. split; [tauto |].
    intros [H | (x & [] & _)]. exact H.
  - cbn. destruct (requestedChain requested (hexOfChain c)) as [[|] |] eqn:R;
      [| | discriminate].
    + intros H. destruct (IH _ (assign_NoDup _ _ D) H) as [D' I]. split; [exact D' |].
      intros k. rewrite I, assign_In. split.
      * intros [[-> | Hc] | (x & Hx & -> & Hr)]; eauto 10.
      * intros [Hc | (x & [-> | Hx] & -> & Hr)]; eauto 10.
    + intros H. destruct (IH _ D H) as [D' I]. split; [exact D' |].
      intros k. rewrite I. split.
      * intros [Hc | (x & Hx & -> & Hr)]; eauto 10.
      * intros [Hc | (x & [-> | Hx] & -> & Hr)]; eauto 10. congruence.
Qed.

(** X20.  [wallet_getCapabilities] answers with one entry per supported
    chain, keyed by the chain id in lower-case hex, each with the same
    capabilities.  With a list of requested chains as second parameter
    it keeps exactly the supported chains whose hex form is an element
    of that list, compared as text: a chain the provider does not
    support is left out without an error, an empty list gives an empty
    answer, and a chain id written with other letter casing or leading
    zeros matches nothing. *)
Theorem capabilities_cover_requested_supported_chains supported params requested :
  nth 1 (paramList params) VUndefined = requested ->
  (truthy requested = false \/ exists items, requested = VArray items) ->
  exists keys,
    getCapabilities supported params = Some keys /\
    NoDup keys /\
    forall k,
      In k keys <->
      (exists chainId, In chainId supported /\ k = hexOfChain chainId) /\
      (truthy requested = false \/
       exists items, requested = VArray items /\ In (VString k) items).
Proof.
  intros E Hr. unfold getCapabilities. rewrite E. clear E.
  assert (T : forall k, exists b, requestedChain requested k = Some b /\
                (b = true <->
                 truthy requested = false \/
                 exists items, requested = VArray items /\ In (VString k) items)).
  { intros k. unfold requestedChain.
    destruct Hr as [F | (items & E)].
    - rewrite F. exists true. split; [reflexivity | tauto].
    - rewrite E. cbn. eexists. split; [reflexivity |].
      rewrite existsb_exists. split.
      + intros (v & Hv & I%DialogProofs.isStr_true). subst. right. eauto.
      + intros [[=] | (items' & [= <-] & H)].
        exists (VString k). split; [exact H | cbn; apply String.eqb_refl]. }
  assert (S : exists keys, capabilityKeys requested supported [] = Some keys).
  { generalize (@nil string). induction supported as [| c cs IH]; intros caps.
    - cbn. eauto.
    - cbn. destruct (T (hexOfChain c)) as (b & -> & _). destruct b; apply IH. }
  destruct S as (keys & K). exists keys. split; [exact K |].
  destruct (capabilityKeys_sound requested supported [] keys NoDup_nil_2 K)
    as [D I].
  split; [exact D |]. intros k. rewrite I. split.
  - intros [[] | (c & Hc & -> & R)]. split; [eauto |].
    destruct (T (hexOfChain c)) as (b & Hb & Hi). apply Hi. congruence.
  - intros [(c & Hc & ->) H]. right. exists c. repeat split; auto.
    destruct (T (hexOfChain c)) as (b & Hb & Hi). rewrite Hb. f_equal. now apply Hi.
Qed.

Lemma capabilities_cover_requested_supported_chains_witness :
  exists keys,
    getCapabilities [8453%N; 10%N] (VArray [VNull; VArray [VString "0xa"]]) = Some keys /\
    NoDup keys.
Proof.
  destruct (capabilities_cover_requested_supported_chains [8453%N; 10%N]
              (VArray [VNull; VArray [VString "0xa"]]) (VArray [VString "0xa"])
              eq_refl (or_intror (ex_intro _ [VString "0xa"] eq_refl)))
    as (keys & E & D & _).
  exists keys. split; [exact E | exact D].
Defined.

End RpcProofs.

(* ===================================================================== *)
(** * Properties of the WebAuthn signature encoding *)
(* ===================================================================== *)

Module WalletProofs.

Import Wallet Scenarios.

Section WithViem.

Variable toBigInt : string -> option Z.
Variable encodeAuth : WebAuthnAuth -> option string.

Lemma P256_N_odd : (P256_N = 2 * P256_N_DIV_2 + 1)%Z.
Proof. reflexivity. Qed.

(** X21.  [encodeWebAuthnSignature] removes the malleability of the
    signature: for [s] strictly between 0 and the curve order [n], the
    encoded tuple carries [s] or [n - s], whichever is at most [n / 2],
    so a signature and its twin with [n - s] encode to the same bytes. *)
Theorem low_s_encoding_is_canonical sig twin s0 :
  toBigInt (s sig) = Some s0 -> toBigInt (s twin) = Some (P256_N - s0)%Z ->
  (0 < s0 < P256_N)%Z ->
  authenticatorData twin = authenticatorData sig ->
  clientDataJSON twin = clientDataJSON sig ->
  challengeIndex twin = challengeIndex sig ->
  typeIndex twin = typeIndex sig ->
  r twin = r sig ->
  encodeWebAuthnSignature toBigInt encodeAuth twin
  = encodeWebAuthnSignature toBigInt encodeAuth sig /\
  (forall auth,
      normalizedAuth toBigInt sig = Some auth ->
      (0 < a_s auth <= P256_N_DIV_2)%Z /\
      (a_s auth = s0 \/ a_s auth = (P256_N - s0)%Z)).
Proof.
  intros S T R A C I Y X. pose proof P256_N_odd as O.
  assert (E : normalizedAuth toBigInt twin = normalizedAuth toBigInt sig).
  { unfold normalizedAuth. rewrite S, T, A, C, I, Y, X.
    destruct (Z.gtb_spec s0 P256_N_DIV_2), (Z.gtb_spec (P256_N - s0) P256_N_DIV_2);
      try lia; try reflexivity.
    replace (P256_N - (P256_N - s0))%Z with s0 by lia. reflexivity. }
  split; [unfold encodeWebAuthnSignature; now rewrite E |].
  intros auth. unfold normalizedAuth. rewrite S.
  destruct (bigIntOfNumber (challengeIndex sig)); [| discriminate].
  destruct (bigIntOfNumber (typeIndex sig)); [| discriminate].
  destruct (toBigInt (r sig)); [| discriminate].
  intros [= <-]. cbn [a_s].
  destruct (Z.gtb_spec s0 P256_N_DIV_2); split; auto; lia.
Qed.

End WithViem.

Lemma low_s_encoding_is_canonical_witness :
  encodeWebAuthnSignature sampleBigInt sampleEncodeAuth (sampleSignature "hi")
  = encodeWebAuthnSignature sampleBigInt sampleEncodeAuth (sampleSignature "lo").
Proof.
  apply (low_s_encoding_is_canonical sampleBigInt sampleEncodeAuth
           (sampleSignature "lo") (sampleSignature "hi") 5%Z); try reflexivity.
  unfold P256_N. lia.
Defined.

End WalletProofs.

(* ===================================================================== *)
(** * Properties of the signing handler *)
(* ===================================================================== *)

Module HandlerProofs.

Import Coercions Handler Samples.

Lemma lowerCased_string v w : lowerCased v = Some w -> exists s, v = VString s.
Proof. destruct v; try discriminate. eauto. Qed.

(** A call that passes the address check of the handler and that
    [createCanonicalMessage] can lower-case has a string [to] that is an
    address. *)
Lemma checked_call_address c rest :
  checkCalls (c :: rest) = None -> canonicalCall c <> None ->
  (exists a, get c "to" = VString a /\ isAddress a = true) /\
  checkCalls rest = None.
Proof.
  cbn [checkCalls]. intros H K.
  destruct (lowerCased (get c "to")) as [w |] eqn:L.
  - destruct (lowerCased_string _ _ L) as [a E]. rewrite E in H. cbn in H.
    destruct c; try discriminate;
      (destruct (negb (negb (a =? ""))); [discriminate |];
       destruct (isAddress a) eqn:I; [eauto | discriminate]).
  - exfalso. apply K. unfold canonicalCall. rewrite L. now destruct c.
Qed.

Lemma checked_calls_addresses calls cs :
  checkCalls calls = None -> canonicalCalls calls = Some cs ->
  Forall (fun c => exists a, get c "to" = VString a /\ isAddress a = true) calls.
Proof.
  revert cs. induction calls as [| c calls IH]; intros cs H K; [constructor |].
  cbn [canonicalCalls] in K.
  destruct (canonicalCall c) as [x |] eqn:X; [| discriminate].
  destruct (canonicalCalls calls) as [xs |] eqn:Y; [| discriminate].
  destruct (checked_call_address c calls H) as [A R]; [congruence |].
  constructor; [exact A | now apply (IH xs)].
Qed.

Section WithCrypto.

Variable signMessage : string -> string -> option string.

(** X22.  The handler answers 200 only to a validated request: the body
    is an object whose [targetChain] is a non-zero number, whose [calls]
    is a non-empty array in which every [to] is a string of [0x] and 40
    hexadecimal digits, and which names a user ([username] or
    [accountAddress]); the answer then echoes the calls as they were
    sent and carries the signature of the canonical message over them.
    Anything else gets 400 or 500 (a [to] that only prints as an address,
    such as a one-element array, passes the pattern and then fails in
    [toLowerCase]: 500). *)
Theorem handler_signs_only_valid_requests config body uuid now intent :
  handler signMessage config body uuid now = (200, intent) ->
  exists b calls n message signature,
    body = Some b /\
    get b "targetChain" = VNumber n /\ truthy (VNumber n) = true /\
    get b "calls" = VArray calls /\ calls <> [] /\
    Forall (fun c => exists a, get c "to" = VString a /\ isAddress a = true) calls /\
    truthy (get b "username") || truthy (get b "accountAddress") = true /\
    createCanonicalMessage
      (orS (Signer.developerId config) (default "" (Signer.cfg_merchantId config)))
      (get b "targetChain") calls (get b "username") (get b "accountAddress") uuid
      (now + default (5 * 60 * 1000) (Signer.expiryMs config))%Z
    = Some message /\
    signMessage message (Signer.privateKey config) = Some signature /\
    get intent "signature" = VString signature /\
    get intent "calls" = VArray calls.
Proof.
  unfold handler. cbv zeta.
  set (developerId := orS (Signer.developerId config)
                        (default "" (Signer.cfg_merchantId config))).
  destruct ((developerId =? "") || (Signer.privateKey config =? "")) eqn:M;
    [discriminate |].
  destruct body as [b |]; [| discriminate].
  assert (H : forall b0, b = b0 -> b0 <> VUndefined -> b0 <> VNull ->
    (if negb (truthy (get b0 "targetChain"))
        || negb (match get b0 "targetChain" with VNumber _ => true | _ => false end)
     then errorResponse 400 "targetChain is required and must be a number"
     else
       match get b0 "calls" with
       | VArray (first :: others) =>
           if negb (truthy (get b0 "username"))
              && negb (truthy (get b0 "accountAddress"))
           then errorResponse 400 "Either username or accountAddress is required"
           else
             match checkCalls (first :: others) with
             | Some response => response
             | None =>
                 match signIntent signMessage developerId (Signer.privateKey config)
                         (Signer.expiryMs config) (get b0 "username")
                         (get b0 "accountAddress") (get b0 "targetChain")
                         (first :: others) (get b0 "tokenRequests") uuid now with
                 | inr intent => (200, intent)
                 | inl _ => errorResponse 500 "Failed to sign intent"
                 end
             end
       | _ => errorResponse 400 "calls is required and must be a non-empty array"
       end) = (200, intent) ->
    exists calls n message signature,
      get b0 "targetChain" = VNumber n /\ truthy (VNumber n) = true /\
      get b0 "calls" = VArray calls /\ calls <> [] /\
      Forall (fun c => exists a, get c "to" = VString a /\ isAddress a = true) calls /\
      truthy (get b0 "username") || truthy (get b0 "accountAddress") = true /\
      createCanonicalMessage developerId (get b0 "targetChain") calls
        (get b0 "username") (get b0 "accountAddress") uuid
        (now + default (5 * 60 * 1000) (Signer.expiryMs config))%Z = Some message /\
      signMessage message (Signer.privateKey config) = Some signature /\
      get intent "signature" = VString signature /\
      get intent "calls" = VArray calls).
  { intros b0 _ _ _.
    destruct (truthy (get b0 "targetChain")) eqn:T; [| discriminate]. cbn [negb orb].
    destruct (get b0 "targetChain") as [| | | n | | | |] eqn:C; try discriminate.
    cbn [negb].
    destruct (get b0 "calls") as [| | | | | | [| first others] |] eqn:K;
      try discriminate.
    destruct (negb (truthy (get b0 "username"))
              && negb (truthy (get b0 "accountAddress"))) eqn:U; [discriminate |].
    destruct (checkCalls (first :: others)) as [response |] eqn:Ch.
    { intros E. exfalso. revert Ch E. clear.
      generalize (first :: others). intros l. induction l as [| c l IH]; [discriminate |].
      cbn [checkCalls].
      destruct c; try (intros [= <-]; discriminate);
        (destruct (negb (truthy _)); [intros [= <-]; discriminate |];
         destruct (toStringJs _); [| intros [= <-]; discriminate];
         destruct (isAddress _); [exact IH | intros [= <-]; discriminate]). }
    unfold signIntent. rewrite M, U. rewrite T. cbn [negb orb length Nat.eqb].
    destruct (createCanonicalMessage developerId (VNumber n) (first :: others)
                (get b0 "username") (get b0 "accountAddress") uuid
                (now + default (5 * 60 * 1000) (Signer.expiryMs config))%Z)
      as [message |] eqn:Msg; [| discriminate].
    destruct (signMessage message (Signer.privateKey config)) as [signature |] eqn:Sg;
      [| discriminate].
    intros [= <-].
    exists (first :: others), n, message, signature.
    split; [reflexivity |]. split; [now rewrite ?C in T |].
    split; [reflexivity |]. split; [discriminate |].
    split.
    { unfold createCanonicalMessage in Msg.
      destruct (canonicalCalls (first :: others)) as [cs |] eqn:Cs; [| discriminate].
      exact (checked_calls_addresses _ cs Ch Cs). }
    split.
    { apply andb_false_iff in U.
      destruct U as [U | U]; apply negb_false_iff in U; rewrite U;
        [reflexivity | apply orb_true_r]. }
    split; [exact Msg |]. split; [exact Sg |]. split; reflexivity. }
  destruct b; try discriminate; intros E;
    match type of E with
    | _ = _ =>
        match goal with
        | |- exists b1, _ =>
            eexists; edestruct H as (calls & n & message & signature & R);
            [reflexivity | discriminate | discriminate | exact E |];
            exists calls, n, message, signature; split; [reflexivity | exact R]
        end
    end.
Qed.

(** ** Typed requests *)

Lemma canonicalCall_typed c :
  canonicalCall (callVal c) = Some (Signer.canonicalCall c).
Proof.
  unfold canonicalCall, callVal, Signer.canonicalCall. cbn.
  destruct c as [to [d |] [v |] [l |] [sl |]]; cbn;
    unfold or, orS; cbn;
    repeat match goal with
           | |- context [?x =? ""] => destruct (x =? ""); cbn
           end; reflexivity.
Qed.

Lemma canonicalCalls_typed calls :
  canonicalCalls (map callVal calls) = Some (map Signer.canonicalCall calls).
Proof.
  induction calls as [| c calls IH]; [reflexivity |].
  cbn [map canonicalCalls]. now rewrite canonicalCall_typed, IH.
Qed.

Lemma createCanonicalMessage_typed d z :
  Signer.expiresAt d = Int z ->
  createCanonicalMessage (Signer.merchantId d) (VNumber (Signer.targetChain d))
    (map callVal (Signer.calls d)) (Signer.optString (Signer.username d))
    (Signer.optString (Signer.accountAddress d)) (Signer.nonce d) z
  = match Signer.createCanonicalMessage d with
    | SText message => Some message
    | _ => None
    end.
Proof.
  intros E. unfold createCanonicalMessage, Signer.createCanonicalMessage,
    Signer.canonicalObject.
  rewrite canonicalCalls_typed, E.
  destruct (Signer.accountAddress d) as [a |]; reflexivity.
Qed.

Lemma checkCalls_typed calls :
  Forall (fun c => isAddress (Signer.to c) = true) calls ->
  checkCalls (map callVal calls) = None.
Proof.
  induction 1 as [| c calls A F IH]; [reflexivity |].
  cbn [map checkCalls callVal get assoc String.eqb Ascii.eqb Bool.eqb].
  cbn [toStringJs truthy]. rewrite A.
  destruct (Signer.to c) eqn:T; [discriminate |]. cbn. exact IH.
Qed.

(** X23.  For a well-formed request the handler is [signIntent]: when
    [signIntent] returns an intent for the typed parameters and every
    call's [to] is an address, the handler answers the JSON form of those
    parameters with status 200 and that very intent (same nonce, expiry
    and signature). *)
Theorem handler_answers_with_signed_intent p config uuid now i :
  Signer.signIntent signMessage p config uuid now = inr i ->
  Forall (fun c => isAddress (Signer.to c) = true) (Signer.p_calls p) ->
  handler signMessage config (Some (requestVal p)) uuid now = (200, intentVal i).
Proof.
  unfold Signer.signIntent, Signer.signMessage, Signer.truthyNumber.
  set (developer := if truthyS (Signer.developerId config)
                    then Signer.developerId config
                    else Signer.cfg_merchantId config).
  destruct (negb (truthyS developer) || (Signer.privateKey config =? "")) eqn:M;
    [discriminate |].
  destruct (negb (truthyS (Signer.p_username p))
            && negb (truthyS (Signer.p_accountAddress p))) eqn:U; [discriminate |].
  destruct (negb (truthy (VNumber (Signer.p_targetChain p)))
            || (length (Signer.p_calls p) =? 0)%nat) eqn:T; [discriminate |].
  apply orb_false_iff in M as [Md Mk], T as [Tc Tl].
  apply negb_false_iff in Md, Tc.
  assert (D : orS (Signer.developerId config)
                (default "" (Signer.cfg_merchantId config))
              = default "" developer /\ (default "" developer =? "") = false).
  { subst developer. unfold orS in *. unfold truthyS in *.
    destruct (Signer.developerId config) as [a |];
      [destruct (a =? "") eqn:A |];
      destruct (Signer.cfg_merchantId config) as [b |]; cbn in *;
      try discriminate; auto; now apply negb_true_iff in Md. }
  destruct D as [D Dn].
  set (d := Signer.intentDataOf (default "" developer) p uuid
              (Int (now + default (5 * 60 * 1000)%Z (Signer.expiryMs config)))).
  pose proof (createCanonicalMessage_typed d _ eq_refl) as Cm.
  destruct (Signer.createCanonicalMessage d) as [| | message] eqn:Ms; try discriminate.
  destruct (signMessage message (Signer.privateKey config)) as [signature |] eqn:Sg;
    [| discriminate].
  intros [= <-] A.
  unfold handler. cbv zeta. rewrite D, Dn, Mk. cbn [orb].
  unfold requestVal. cbn [get assoc String.eqb Ascii.eqb Bool.eqb].
  rewrite Tc. cbn [negb orb].
  destruct (Signer.p_calls p) as [| c calls] eqn:Cs; [discriminate |].
  cbn [map].
  assert (Ut : negb (truthy (Signer.optString (Signer.p_username p)))
               && negb (truthy (Signer.optString (Signer.p_accountAddress p)))
               = false).
  { rewrite <- U. unfold truthyS, Signer.optString.
    destruct (Signer.p_username p), (Signer.p_accountAddress p); reflexivity. }
  rewrite Ut.
  change (callVal c :: map callVal calls) with (map callVal (c :: calls)).
  rewrite checkCalls_typed by exact A.
  unfold signIntent. rewrite Dn, Mk, Ut, Tc. cbn [orb negb].
  rewrite length_map. cbn [length Nat.eqb].
  unfold d, Signer.intentDataOf in Cm. cbn [Signer.merchantId Signer.targetChain
    Signer.calls Signer.username Signer.accountAddress Signer.nonce] in Cm.
  rewrite Cs in Cm. rewrite Cm, Sg.
  unfold intentVal, signedIntent, d, Signer.intentDataOf. cbn. now rewrite ?Cs.
Qed.

End WithCrypto.

Lemma handler_signs_only_valid_requests_witness :
  exists b calls n message signature,
    Some (requestVal plainParams) = Some b /\
    get b "targetChain" = VNumber n /\ truthy (VNumber n) = true /\
    get b "calls" = VArray calls /\ calls <> [] /\
    Forall (fun c => exists a, get c "to" = VString a /\ isAddress a = true) calls /\
    truthy (get b "username") || truthy (get b "accountAddress") = true /\
    createCanonicalMessage
      (orS (Signer.developerId sampleConfig)
         (default "" (Signer.cfg_merchantId sampleConfig)))
      (get b "targetChain") calls (get b "username") (get b "accountAddress")
      "nonce-1" (1000 + default (5 * 60 * 1000) (Signer.expiryMs sampleConfig))%Z
    = Some message /\
    (fun m k => Some (m ++ k)) message (Signer.privateKey sampleConfig)
    = Some signature /\
    get (snd (handler (fun m k => Some (m ++ k)) sampleConfig
                (Some (requestVal plainParams)) "nonce-1" 1000))
      "signature" = VString signature /\
    get (snd (handler (fun m k => Some (m ++ k)) sampleConfig
                (Some (requestVal plainParams)) "nonce-1" 1000))
      "calls" = VArray calls.
Proof.
  exact (handler_signs_only_valid_requests (fun m k => Some (m ++ k)) sampleConfig
           (Some (requestVal plainParams)) "nonce-1" 1000 _ eq_refl).
Defined.

Lemma handler_answers_with_signed_intent_witness :
  fst (handler (fun m k => Some (m ++ k)) sampleConfig
         (Some (requestVal plainParams)) "nonce-1" 1000) = 200.
Proof.
  destruct (Signer.signIntent (fun m k => Some (m ++ k)) plainParams sampleConfig
              "nonce-1" 1000) as [e | i] eqn:E; [discriminate E |].
  rewrite (handler_answers_with_signed_intent (fun m k => Some (m ++ k))
             plainParams sampleConfig "nonce-1" 1000 i E).
  - reflexivity.
  - repeat constructor.
Defined.

End HandlerProofs.

(* ===================================================================== *)
(** * Letter case *)
(* ===================================================================== *)

Module CaseProofs.

Import Signer Registry.

Lemma isUpper_spec c :
  isUpper c = true <-> (65 <= N_of_ascii c <= 90)%N.
Proof.
  unfold isUpper. rewrite andb_true_iff, !N.leb_le. tauto.
Qed.

Lemma isLower_spec c :
  isLower c = true <-> (97 <= N_of_ascii c <= 122)%N.
Proof.
  unfold isLower. rewrite andb_true_iff, !N.leb_le. tauto.
Qed.

Lemma lowerChar_N c :
  N_of_ascii (lowerChar c)
  = if isUpper c then (N_of_ascii c + 32)%N else N_of_ascii c.
Proof.
  unfold lowerChar. destruct (isUpper c) eqn:U; [| reflexivity].
  apply isUpper_spec in U. apply N_ascii_embedding. lia.
Qed.

Lemma upperChar_N c :
  N_of_ascii (upperChar c)
  = if isLower c then (N_of_ascii c - 32)%N else N_of_ascii c.
Proof.
  unfold upperChar. destruct (isLower c) eqn:L; [| reflexivity].
  apply isLower_spec in L. apply N_ascii_embedding. lia.
Qed.

Lemma N_of_ascii_inj c d : N_of_ascii c = N_of_ascii d -> c = d.
Proof.
  intros H. rewrite <- (ascii_N_embedding c), <- (ascii_N_embedding d).
  now rewrite H.
Qed.

Lemma not_true_upper c : isUpper c <> true -> ~ (65 <= N_of_ascii c <= 90)%N.
Proof. intros H U. now apply H, isUpper_spec. Qed.

Lemma not_true_lower c : isLower c <> true -> ~ (97 <= N_of_ascii c <= 122)%N.
Proof. intros H U. now apply H, isLower_spec. Qed.

Lemma sameLetter_N c d :
  sameLetter c d <->
  N_of_ascii c = N_of_ascii d \/
  ((65 <= N_of_ascii c <= 90)%N /\ N_of_ascii d = (N_of_ascii c + 32)%N) \/
  ((65 <= N_of_ascii d <= 90)%N /\ N_of_ascii c = (N_of_ascii d + 32)%N).
Proof.
  unfold sameLetter. rewrite !isUpper_spec. split.
  - intros [-> | H]; [now left | now right].
  - intros [H | H]; [left; now apply N_of_ascii_inj | now right].
Qed.

Lemma lowerChar_sameLetter_iff c d : lowerChar c = lowerChar d <-> sameLetter c d.
Proof.
  rewrite sameLetter_N. split.
  - intros H. apply (f_equal N_of_ascii) in H. rewrite !lowerChar_N in H.
    destruct (isUpper c) eqn:Uc, (isUpper d) eqn:Ud;
      try apply isUpper_spec in Uc; try apply isUpper_spec in Ud; lia.
  - intros H. apply N_of_ascii_inj. rewrite !lowerChar_N.
    destruct (isUpper c) eqn:Uc, (isUpper d) eqn:Ud;
      try apply isUpper_spec in Uc; try apply isUpper_spec in Ud;
      try (apply not_true_iff_false, not_true_upper in Uc);
      try (apply not_true_iff_false, not_true_upper in Ud); lia.
Qed.

Lemma upperChar_sameLetter_iff c d : upperChar c = upperChar d <-> sameLetter c d.
Proof.
  rewrite sameLetter_N. split.
  - intros H. apply (f_equal N_of_ascii) in H. rewrite !upperChar_N in H.
    destruct (isLower c) eqn:Lc, (isLower d) eqn:Ld;
      try apply isLower_spec in Lc; try apply isLower_spec in Ld;
      try (apply not_true_iff_false, not_true_lower in Lc);
      try (apply not_true_iff_false, not_true_lower in Ld); lia.
  - intros H. apply N_of_ascii_inj. rewrite !upperChar_N.
    destruct (isLower c) eqn:Lc, (isLower d) eqn:Ld;
      try apply isLower_spec in Lc; try apply isLower_spec in Ld;
      try (apply not_true_iff_false, not_true_lower in Lc);
      try (apply not_true_iff_false, not_true_lower in Ld); lia.
Qed.

Lemma toLowerCase_iff s t : toLowerCase s = toLowerCase t <-> sameModuloCase s t.
Proof.
  split.
  - revert t. induction s as [| c s IH]; intros [| d t]; cbn; try discriminate.
    + constructor.
    + intros [= H1 H2]. constructor; [now apply lowerChar_sameLetter_iff | auto].
  - induction 1 as [| c d s t Hcd _ IH]; [reflexivity |].
    cbn. f_equal; [now apply lowerChar_sameLetter_iff | exact IH].
Qed.

Lemma toUpperCase_iff s t : toUpperCase s = toUpperCase t <-> sameModuloCase s t.
Proof.
  split.
  - revert t. induction s as [| c s IH]; intros [| d t]; cbn; try discriminate.
    + constructor.
    + intros [= H1 H2]. constructor; [now apply upperChar_sameLetter_iff | auto].
  - induction 1 as [| c d s t Hcd _ IH]; [reflexivity |].
    cbn. f_equal; [now apply upperChar_sameLetter_iff | exact IH].
Qed.

End CaseProofs.

(* ===================================================================== *)
(** * Properties of the message hash check *)
(* ===================================================================== *)

Module VerifyProofs.

Import Signer Verify CaseProofs.

(** X24.  [verifyMessageHash] accepts a signed hash exactly when it is
    not empty and is the hash of the message up to the case of its
    letters; an absent or empty hash is rejected. *)
Theorem verified_hash_is_message_hash keccak256 message signedHash :
  verifyMessageHash keccak256 message signedHash = true <->
  exists h, signedHash = Some h /\ h <> "" /\
            sameModuloCase (hashMessage keccak256 message) h.
Proof.
  unfold verifyMessageHash. split.
  - destruct signedHash as [h |]; cbn; [| discriminate].
    destruct (h =? "") eqn:E; cbn; [discriminate |].
    intros H. apply String.eqb_eq, toLowerCase_iff in H.
    exists h. apply String.eqb_neq in E. auto.
  - intros (h & -> & Hne & H). cbn.
    apply String.eqb_neq in Hne. rewrite Hne. cbn.
    now apply String.eqb_eq, toLowerCase_iff.
Qed.

End VerifyProofs.


(* ===================================================================== *)
(** * Properties of the redirect callback *)
(* ===================================================================== *)

Module RedirectProofs.

Import Dialog Intent Coercions Redirect.

Lemma fetchSigningResult_success answer requestId r :
  fetchSigningResult answer requestId = Some r ->
  truthy (get r "success") = true ->
  exists data,
    answer = Ok data /\ isStr (get data "status") "COMPLETED" = true /\
    truthy (get data "signature") = true /\
    r = VObject [("success", VBool true); ("requestId", VString requestId);
                 ("signature", get data "signature")].
Proof.
  unfold fetchSigningResult.
  destruct answer as [m | e | data]; [discriminate | |].
  - intros [= <-]. cbn. discriminate.
  - assert (G : (if isStr (get data "status") "COMPLETED"
                    && truthy (get data "signature")
                 then Some (VObject [("success", VBool true);
                                     ("requestId", VString requestId);
                                     ("signature", get data "signature")])
                 else
                   if truthy (get (get data "error") "message") then
                     Some (failureFor requestId
                             (VObject [("code", or (get (get data "error") "code")
                                                  (VString "UNKNOWN"));
                                       ("message", get (get data "error") "message")]))
                   else
                     match toStringJs (get data "status") with
                     | Some status =>
                         Some (failureFor requestId
                                 (VObject [("code", or (get (get data "error") "code")
                                                      (VString "UNKNOWN"));
                                           ("message",
                                            VString ("Request status: " ++ status))]))
                     | None => None
                     end) = Some r ->
                truthy (get r "success") = true ->
                exists data0,
                  Ok data = Ok data0 /\ isStr (get data0 "status") "COMPLETED" = true /\
                  truthy (get data0 "signature") = true /\
                  r = VObject [("success", VBool true);
                               ("requestId", VString requestId);
                               ("signature", get data0 "signature")]).
    { destruct (isStr (get data "status") "COMPLETED"
                && truthy (get data "signature")) eqn:C.
      - intros [= <-] _. apply andb_true_iff in C as [C1 C2]. eauto.
      - destruct (truthy (get (get data "error") "message")).
        + intros [= <-]. cbn. discriminate.
        + destruct (toStringJs (get data "status")); [| discriminate].
          intros [= <-]. cbn. discriminate. }
    destruct data; try exact G; discriminate.
Qed.

(** X25.  [handleRedirectCallback] reports success only when the server
    confirms it: the callback URL must carry a request id, no error and
    the status [completed], and the signing-request endpoint must then
    answer with the status [COMPLETED] and a signature, which is the one
    returned.  Nothing in the URL alone yields a successful result. *)
Theorem redirect_success_is_confirmed_by_server query answer r :
  handleRedirectCallback query answer = Some r ->
  truthy (get r "success") = true ->
  exists requestId data,
    searchParam query "request_id" = Some requestId /\ requestId <> "" /\
    truthyS (searchParam query "error") = false /\
    searchParam query "status" = Some "completed" /\
    answer = Ok data /\
    isStr (get data "status") "COMPLETED" = true /\
    truthy (get data "signature") = true /\
    r = VObject [("success", VBool true); ("requestId", VString requestId);
                 ("signature", get data "signature")].
Proof.
  unfold handleRedirectCallback.
  destruct (truthyS (searchParam query "error")) eqn:E.
  { intros [= <-]. cbn. discriminate. }
  destruct (searchParam query "request_id") as [requestId |] eqn:R; cbn;
    [| intros [= <-]; cbn; discriminate].
  destruct (requestId =? "") eqn:N; cbn; [intros [= <-]; cbn; discriminate |].
  destruct (searchParam query "status") as [status |] eqn:S; cbn;
    [| intros [= <-]; cbn; discriminate].
  destruct (status =? "completed") eqn:C; cbn;
    [| intros [= <-]; cbn; discriminate].
  apply String.eqb_eq in C. subst status. apply String.eqb_neq in N.
  intros H T.
  destruct (fetchSigningResult_success _ _ _ H T) as (data & -> & H1 & H2 & ->).
  exists requestId, data. auto 10.
Qed.

Lemma redirect_success_is_confirmed_by_server_witness :
  exists requestId data,
    searchParam [("request_id", "req-7"); ("status", "completed")] "request_id"
    = Some requestId /\ requestId <> "" /\
    truthyS (searchParam [("request_id", "req-7"); ("status", "completed")] "error")
    = false /\
    searchParam [("request_id", "req-7"); ("status", "completed")] "status"
    = Some "completed" /\
    Ok (VObject [("status", VString "COMPLETED"); ("signature", VString "0x5167")])
    = Ok data /\
    isStr (get data "status") "COMPLETED" = true /\
    truthy (get data "signature") = true /\
    VObject [("success", VBool true); ("requestId", VString "req-7");
             ("signature", VString "0x5167")]
    = VObject [("success", VBool true); ("requestId", VString requestId);
               ("signature", get data "signature")].
Proof.
  exact (redirect_success_is_confirmed_by_server
           [("request_id", "req-7"); ("status", "completed")]
           (Ok (VObject [("status", VString "COMPLETED");
                         ("signature", VString "0x5167")]))
           (VObject [("success", VBool true); ("requestId", VString "req-7");
                     ("signature", VString "0x5167")])
           eq_refl eq_refl).
Defined.

End RedirectProofs.

(* ===================================================================== *)
(** * Properties of the token registry *)
(* ===================================================================== *)

Module RegistryProofs.

Import Signer Registry Scenarios CaseProofs.

Section WithSdk.

Variable isAddress : string -> bool.
Variable getSupportedTokensRaw : JsNumber -> Attempt (list TokenConfig).
Variable getTokenAddress : string -> JsNumber -> Attempt string.

Lemma find_first {A} (f : A -> bool) l x :
  In x l -> f x = true -> exists y, find f l = Some y.
Proof.
  intros Hin Hf. destruct (find f l) eqn:E; [eauto |].
  now rewrite (find_none _ _ E _ Hin) in Hf.
Qed.

(** X26.  An address is supported on a chain exactly when
    [getTokenSymbol] returns a symbol for it there instead of throwing;
    the symbol returned is that of an entry of the chain's token table
    whose address is the given one up to letter case. *)
Theorem supported_address_has_symbol tokenAddress chainId :
  (isTokenAddressSupported getSupportedTokensRaw tokenAddress chainId = true <->
   exists s, getTokenSymbol getSupportedTokensRaw tokenAddress chainId = Returned s) /\
  (forall s,
      getTokenSymbol getSupportedTokensRaw tokenAddress chainId = Returned s ->
      exists tokens entry,
        getSupportedTokens getSupportedTokensRaw chainId = Returned tokens /\
        In entry tokens /\
        sameModuloCase (address entry) tokenAddress /\
        symbol entry = s).
Proof.
  unfold isTokenAddressSupported, getTokenSymbol.
  destruct (getSupportedTokens getSupportedTokensRaw chainId) as [tokens | e].
  - destruct (find (fun entry => toLowerCase (address entry)
                                 =? toLowerCase tokenAddress) tokens)
      as [entry |] eqn:E.
    + pose proof (find_some _ _ E) as [Hin Hy].
      split.
      * split; [eauto |]. intros _. apply existsb_exists. eauto.
      * intros s [= <-]. apply String.eqb_eq, toLowerCase_iff in Hy.
        exists tokens, entry. auto.
    + split.
      * split; [| intros [s H]; discriminate].
        intros H. apply existsb_exists in H as (x & Hin & Hx).
        now rewrite (find_none _ _ E x Hin) in Hx.
      * discriminate.
  - split; [split; [discriminate | intros [s H]; discriminate] | discriminate].
Qed.

(** X27.  A symbol listed for the chain resolves, whatever the case of
    its letters, to the address of the first entry with that symbol, and
    that address is supported on the chain. *)
Theorem listed_symbol_resolves_to_supported_address token chainId tokens entry :
  isAddress token = false ->
  getSupportedTokensRaw chainId = Returned tokens ->
  In entry tokens ->
  sameModuloCase (symbol entry) token ->
  exists matched,
    In matched tokens /\
    sameModuloCase (symbol matched) token /\
    resolveTokenAddress isAddress getSupportedTokensRaw getTokenAddress
      token chainId = Returned (address matched) /\
    isTokenAddressSupported getSupportedTokensRaw (address matched) chainId = true.
Proof.
  intros A T Hin Hcase.
  unfold resolveTokenAddress, isTokenAddressSupported, getSupportedTokens.
  rewrite A, T.
  destruct (find_first (fun t => toUpperCase (symbol t) =? toUpperCase token)
              tokens entry Hin) as [matched E].
  { now apply String.eqb_eq, toUpperCase_iff. }
  rewrite E. apply find_some in E as [Hin' Hm].
  apply String.eqb_eq, toUpperCase_iff in Hm.
  exists matched. repeat (split; [assumption || reflexivity |]).
  apply existsb_exists. exists matched. split; [exact Hin' |].
  apply String.eqb_refl.
Qed.

End WithSdk.

Lemma filter_sublist {A} (f : A -> bool) l : sublist (List.filter f l) l.
Proof.
  induction l as [| x l IH]; cbn; [constructor |].
  destruct (f x); now constructor.
Qed.

Lemma sameValueZero_eq a b : sameValueZero a b = true <-> a = b.
Proof.
  destruct a as [| x], b as [| y]; cbn; split; try discriminate; try reflexivity.
  - intros H%Z.eqb_eq. now subst.
  - intros [= ->]. apply Z.eqb_refl.
Qed.

(** X30.  [getSupportedChainIds] keeps the order of the supported chains
    and lists a chain exactly when it is supported, it is not a testnet
    unless testnets are included (by the option, else by the environment,
    else not), and it is on the allowlist when a non-empty one is given:
    an empty allowlist filters nothing. *)
Theorem supported_chain_ids_are_filtered
    (Chain : Type) (VIEM_CHAIN_BY_ID : JsNumber -> option Chain)
    (SUPPORTED_CHAIN_IDS : list JsNumber) (testnet : Chain -> option bool)
    (env : string -> option string) (options : option ChainFilterOptions)
    (chainId : JsNumber) :
  (In chainId
     (getSupportedChainIds Chain VIEM_CHAIN_BY_ID SUPPORTED_CHAIN_IDS testnet env
        options) <->
   In chainId SUPPORTED_CHAIN_IDS /\
   (resolveIncludeTestnets env (includeTestnetsOf options) = false ->
    isTestnet Chain VIEM_CHAIN_BY_ID SUPPORTED_CHAIN_IDS testnet chainId = false) /\
   (forall allowlist,
       chainIdsOf options = Some allowlist -> allowlist <> [] ->
       In chainId allowlist)) /\
  sublist
    (getSupportedChainIds Chain VIEM_CHAIN_BY_ID SUPPORTED_CHAIN_IDS testnet env
       options)
    SUPPORTED_CHAIN_IDS.
Proof.
  unfold getSupportedChainIds, applyChainFilters.
  set (include := resolveIncludeTestnets env (includeTestnetsOf options)).
  set (test := fun c => negb (isTestnet Chain VIEM_CHAIN_BY_ID SUPPORTED_CHAIN_IDS
                                testnet c)).
  set (filtered := if negb include then List.filter test SUPPORTED_CHAIN_IDS
                   else SUPPORTED_CHAIN_IDS).
  assert (F : In chainId filtered <->
              In chainId SUPPORTED_CHAIN_IDS /\
              (include = false ->
               isTestnet Chain VIEM_CHAIN_BY_ID SUPPORTED_CHAIN_IDS testnet chainId
               = false)).
  { subst filtered. destruct include; cbn.
    - split; [intros H; split; [exact H | discriminate] | tauto].
    - rewrite filter_In. subst test. cbn. rewrite negb_true_iff. tauto. }
  assert (S : sublist filtered SUPPORTED_CHAIN_IDS).
  { subst filtered. destruct (negb include); [apply filter_sublist | reflexivity]. }
  destruct (chainIdsOf options) as [[| first others] |].
  - split; [| exact S]. rewrite F. split.
    + intros [H1 H2]. repeat split; auto. intros allowlist [= <-] N. now destruct N.
    + tauto.
  - split.
    + rewrite filter_In, F, existsb_exists. split.
      * intros [[H1 H2] (x & Hx & E%sameValueZero_eq)]. subst x.
        repeat split; auto. intros allowlist [= <-] _. exact Hx.
      * intros (H1 & H2 & H3). split; [tauto |].
        exists chainId. split; [apply H3; [reflexivity | discriminate] |].
        now apply sameValueZero_eq.
    + etransitivity; [apply filter_sublist | exact S].
  - split; [| exact S]. rewrite F. split.
    + intros [H1 H2]. repeat split; auto. discriminate.
    + tauto.
Qed.

Lemma listed_symbol_resolves_to_supported_address_witness :
  exists matched,
    In matched [ether; usdc] /\
    sameModuloCase (symbol matched) "usdc" /\
    resolveTokenAddress looksLikeAddress tokensOf unknownSymbol "usdc" (Int 8453)
    = Returned (address matched) /\
    isTokenAddressSupported tokensOf (address matched) (Int 8453) = true.
Proof.
  apply (listed_symbol_resolves_to_supported_address looksLikeAddress tokensOf
           unknownSymbol "usdc" (Int 8453) [ether; usdc] usdc eq_refl eq_refl).
  - right. now left.
  - apply toUpperCase_iff. reflexivity.
Defined.

End RegistryProofs.


(* ===================================================================== *)
(** * Properties of swaps *)
(* ===================================================================== *)

Module SwapProofs.

Import Dialog Intent Registry Swap Samples Scenarios.

Section WithSdk.

Variable Chain : Type.
Variable VIEM_CHAIN_BY_ID : JsNumber -> option Chain.
Variable SUPPORTED_CHAIN_IDS : list JsNumber.
Variable isAddress : string -> bool.
Variable getSupportedTokensRaw : JsNumber -> Attempt (list TokenConfig).
Variable getTokenAddress : string -> JsNumber -> Attempt string.
Variable getTokenDecimals : string -> JsNumber -> Attempt Z.
Variable parseUnits : string -> Z -> option Z.

Lemma resolveToken_supported options token label :
  truthyS (res_address (resolveToken isAddress getSupportedTokensRaw getTokenAddress
                          options token label)) = true ->
  exists a,
    res_address (resolveToken isAddress getSupportedTokensRaw getTokenAddress
                   options token label) = Some a /\
    a <> "" /\
    isTokenAddressSupported getSupportedTokensRaw a (sw_targetChain options) = true.
Proof.
  unfold resolveToken.
  destruct (resolveTokenAddress isAddress getSupportedTokensRaw getTokenAddress
              token (sw_targetChain options)) as [a | [m |]]; cbn; try discriminate.
  destruct (isTokenAddressSupported getSupportedTokensRaw a (sw_targetChain options))
    eqn:S; cbn; [| discriminate].
  intros H. exists a. split; [reflexivity |]. split; [| exact S].
  intros ->. discriminate.
Qed.

(** What a plan that reaches [sendIntent] went through. *)
Lemma plan_planned options fromTokenAddress toTokenAddress intent :
  plan Chain VIEM_CHAIN_BY_ID SUPPORTED_CHAIN_IDS isAddress getSupportedTokensRaw
    getTokenAddress getTokenDecimals parseUnits options
  = Planned fromTokenAddress toTokenAddress intent ->
  (exists chain,
      getChainById Chain VIEM_CHAIN_BY_ID SUPPORTED_CHAIN_IDS (sw_targetChain options)
      = Returned chain) /\
  fromTokenAddress <> "" /\ toTokenAddress <> "" /\
  isTokenAddressSupported getSupportedTokensRaw fromTokenAddress
    (sw_targetChain options) = true /\
  isTokenAddressSupported getSupportedTokensRaw toTokenAddress
    (sw_targetChain options) = true /\
  exists units,
    parseUnits (sw_amount options)
      (getDecimals getTokenDecimals (toToken options) (sw_targetChain options))
    = Some units /\
    username intent = sw_username options /\
    targetChain intent = VNumber (sw_targetChain options) /\
    (exists call, calls intent = Some [call] /\ call_to call = VString toTokenAddress) /\
    tokenRequests intent = Some [{| token := toTokenAddress; amount := units |}] /\
    sourceAssets intent
    = Some (default [toUpperCase (fromToken options)] (sw_sourceAssets options)) /\
    sourceChainId intent = sw_sourceChainId options /\
    signedIntent intent = None.
Proof.
  unfold plan.
  destruct (getChainById Chain VIEM_CHAIN_BY_ID SUPPORTED_CHAIN_IDS
              (sw_targetChain options)) as [chain | e]; [| discriminate].
  destruct (truthyS (res_address (resolveToken isAddress getSupportedTokensRaw
                                    getTokenAddress options (fromToken options)
                                    "fromToken"))) eqn:F; cbn; [| discriminate].
  destruct (truthyS (res_address (resolveToken isAddress getSupportedTokensRaw
                                    getTokenAddress options (toToken options)
                                    "toToken"))) eqn:T; cbn; [| discriminate].
  destruct (resolveToken_supported _ _ _ F) as (a & -> & Na & Sa).
  destruct (resolveToken_supported _ _ _ T) as (b & -> & Nb & Sb).
  destruct (parseUnits (sw_amount options) _) as [units |] eqn:U; [| discriminate].
  intros [= <- <- <-]. cbn.
  split; [eauto |].
  repeat (split; [assumption |]).
  exists units. repeat (split; [reflexivity |]).
  split; [eauto |]. auto.
Qed.

(** X28.  The prepare request of a swap asks for one token request and
    one call, both naming the resolved [toToken], the amount in base
    units printed in decimal; with a username and a non-zero chain the
    options pass the validation of [sendIntent], so that a swap is never
    turned down for missing calls. *)
Theorem swap_prepare_body cfg options fromTokenAddress toTokenAddress intent :
  plan Chain VIEM_CHAIN_BY_ID SUPPORTED_CHAIN_IDS isAddress getSupportedTokensRaw
    getTokenAddress getTokenDecimals parseUnits options
  = Planned fromTokenAddress toTokenAddress intent ->
  exists units call,
    parseUnits (sw_amount options)
      (getDecimals getTokenDecimals (toToken options) (sw_targetChain options))
    = Some units /\
    call_to call = VString toTokenAddress /\
    requestBody cfg intent
    = DirectBody (sw_username options) (VNumber (sw_targetChain options))
        (Some [call]) (Some [(toTokenAddress, showZ units)])
        (Some (default [toUpperCase (fromToken options)] (sw_sourceAssets options)))
        (sw_sourceChainId options)
        (if truthyS (clientId cfg) then clientId cfg else None) /\
    (validate intent = None <->
     truthy (sw_username options) = true /\
     truthy (VNumber (sw_targetChain options)) = true).
Proof.
  intros P.
  destruct (plan_planned _ _ _ _ P)
    as (_ & _ & _ & _ & _ & units & U & Hu & Hc & (call & Hcalls & Hto) & Ht & Ha & Hs & Hn).
  exists units, call. split; [exact U |]. split; [exact Hto |].
  unfold requestBody, validate, serializeTokenRequests, effectiveUsername,
    effectiveTargetChain, effectiveCalls, signedOf.
  rewrite Hn, Hu, Hc, Hcalls, Ht, Ha, Hs. cbn [fmap option_fmap option_map].
  split; [reflexivity |].
  destruct (truthy (sw_username options)), (truthy (VNumber (sw_targetChain options)));
    cbn; split; try discriminate; try tauto; intros [? ?]; discriminate.
Qed.

Variable urlOrigin : string -> option string.

(** X29.  A swap that succeeds quotes two tokens the registry supports:
    in every result of [sendSwap], a failed result carries no quote, and
    a successful one quotes the amount asked for between two non-empty
    addresses that are supported on the target chain, itself a chain the
    registry knows. *)
Theorem successful_swap_quotes_supported_tokens cfg env store options r :
  swapOutcome
    (sendSwap Chain VIEM_CHAIN_BY_ID SUPPORTED_CHAIN_IDS isAddress
       getSupportedTokensRaw getTokenAddress getTokenDecimals parseUnits
       urlOrigin cfg env store options) = Some r ->
  if success (result r) then
    exists fromTokenAddress toTokenAddress chain,
      quote r = Some {| q_fromToken := fromTokenAddress;
                        q_toToken := toTokenAddress;
                        amountIn := sw_amount options;
                        amountOut := ""; rate := "" |} /\
      fromTokenAddress <> "" /\ toTokenAddress <> "" /\
      isTokenAddressSupported getSupportedTokensRaw fromTokenAddress
        (sw_targetChain options) = true /\
      isTokenAddressSupported getSupportedTokensRaw toTokenAddress
        (sw_targetChain options) = true /\
      getChainById Chain VIEM_CHAIN_BY_ID SUPPORTED_CHAIN_IDS (sw_targetChain options)
      = Returned chain
  else quote r = None.
Proof.
  unfold sendSwap.
  destruct (plan Chain VIEM_CHAIN_BY_ID SUPPORTED_CHAIN_IDS isAddress
              getSupportedTokensRaw getTokenAddress getTokenDecimals parseUnits
              options) as [code message | | a b intent] eqn:P; cbn.
  - intros [= <-]. reflexivity.
  - discriminate.
  - destruct (outcome (sendIntent urlOrigin cfg env store intent)) as [res |];
      cbn; [| discriminate].
    intros [= <-]. cbn.
    destruct (success res); [| reflexivity].
    destruct (plan_planned _ _ _ _ P) as ([chain C] & Na & Nb & Sa & Sb & _).
    exists a, b, chain. auto 10.
Qed.

End WithSdk.

Lemma successful_swap_quotes_supported_tokens_witness :
  exists fromTokenAddress toTokenAddress chain,
    Some {| q_fromToken := address ether; q_toToken := address usdc;
            amountIn := "100"; amountOut := ""; rate := "" |}
    = Some {| q_fromToken := fromTokenAddress; q_toToken := toTokenAddress;
              amountIn := sw_amount swapOptions; amountOut := ""; rate := "" |} /\
    fromTokenAddress <> "" /\ toTokenAddress <> "" /\
    isTokenAddressSupported tokensOf fromTokenAddress (sw_targetChain swapOptions)
    = true /\
    isTokenAddressSupported tokensOf toTokenAddress (sw_targetChain swapOptions)
    = true /\
    getChainById string chainNamed [Int 8453] (sw_targetChain swapOptions)
    = Returned chain.
Proof.
  exact (successful_swap_quotes_supported_tokens string chainNamed [Int 8453]
           looksLikeAddress tokensOf unknownSymbol noDecimals wholeUnits
           sampleUrlOrigin pageConfig
           (envWith prepared (remote "completed" (Some "0xabc")) [])
           sampleStorage swapOptions
           {| result :=
                {| success := true; intentId := "intent-1"; status := "completed";
                   transactionHash := Some "0xabc"; operationId := None;
                   error := VUndefined |};
              quote := Some {| q_fromToken := address ether;
                               q_toToken := address usdc;
                               amountIn := "100"; amountOut := ""; rate := "" |} |}
           ltac:(vm_compute; reflexivity)).
Defined.

Lemma swap_prepare_body_witness :
  exists units call,
    wholeUnits "100" (getDecimals noDecimals "usdc" (Int 8453)) = Some units /\
    call_to call = VString (address usdc) /\
    requestBody pageConfig
      (match plan string chainNamed [Int 8453] looksLikeAddress tokensOf
               unknownSymbol noDecimals wholeUnits swapOptions with
       | Planned _ _ intent => intent
       | _ => aliceIntent None false
       end)
    = DirectBody (VString "alice") (VNumber (Int 8453)) (Some [call])
        (Some [(address usdc, showZ units)]) (Some ["ETH"]) VUndefined
        (if truthyS (clientId pageConfig) then clientId pageConfig else None) /\
    (validate (match plan string chainNamed [Int 8453] looksLikeAddress tokensOf
                       unknownSymbol noDecimals wholeUnits swapOptions with
               | Planned _ _ intent => intent
               | _ => aliceIntent None false
               end) = None <->
     truthy (VString "alice") = true /\ truthy (VNumber (Int 8453)) = true).
Proof.
  exact (swap_prepare_body string chainNamed [Int 8453] looksLikeAddress tokensOf
           unknownSymbol noDecimals wholeUnits pageConfig swapOptions
           (address ether) (address usdc) _ eq_refl).
Defined.

End SwapProofs.
